(** * Hostel management: allocations, room occupancy, complaints, analytics

    A shallow embedding of the PostgreSQL schema and triggers of
    [database/schema.sql] and [database/triggers.sql] and of the Next.js
    route handlers that run statements against them.  Tables are lists of
    row records, a statement is a function from a database to either an
    error or a new database (a failed statement leaves the database as it
    was), and a route handler is a short program in a monad that runs one
    statement after the other on the connection pool: every statement is
    committed on its own, and an error thrown by one of them ends the handler
    in its [catch] block. *)

From Stdlib Require Import ZArith List Bool String Lia DecimalString.
From Stdlib Require Import SpecFloat.
Import ListNotations.
Open Scope string_scope.
Open Scope list_scope.
Open Scope Z_scope.

(* ------------------------------------------------------------------ *)
(** ** Enumerated types of the schema *)

Inductive gender_type := male | female | other_gender.

Inductive complaint_status := open | assigned | in_progress | resolved | closed.

Inductive complaint_category :=
  electrical | plumbing | furniture | cleaning
| pest_control | internet | security | other.

Definition gender_eqb (a b : gender_type) : bool :=
  match a, b with
  | male, male | female, female | other_gender, other_gender => true
  | _, _ => false
  end.

Definition gender_name (g : gender_type) : string :=
  match g with
  | male => "male"
  | female => "female"
  | other_gender => "other"
  end.

Definition status_eqb (a b : complaint_status) : bool :=
  match a, b with
  | open, open | assigned, assigned | in_progress, in_progress
  | resolved, resolved | closed, closed => true
  | _, _ => false
  end.

(* ------------------------------------------------------------------ *)
(** ** Rows and tables *)

Record hostel := mkHostel {
  hostel_id : Z;
  gender_allowed : gender_type
}.

Record room := mkRoom {
  room_id : Z;
  room_hostel_id : Z;
  capacity : Z;
  current_occupancy : Z;
  room_is_available : bool
}.

Record student := mkStudent {
  student_id : Z;
  gender : gender_type;
  student_is_active : bool
}.

(** Dates are day numbers, timestamps are clock ticks. *)
Record allocation := mkAllocation {
  allocation_id : Z;
  a_student_id : Z;
  a_room_id : Z;
  allocation_date : Z;
  expected_checkout : option Z;
  actual_checkout : option Z;
  is_active : bool;
  notes : option string
}.

Record staff := mkStaff {
  staff_id : Z;
  staff_is_available : bool
}.

Record complaint := mkComplaint {
  complaint_id : Z;
  c_student_id : Z;
  c_room_id : Z;
  category : complaint_category;
  title : string;
  description : string;
  status : complaint_status;
  priority : Z;
  assigned_staff_id : option Z;
  resolution_notes : option string;
  created_at : Z;
  assigned_at : option Z;
  resolved_at : option Z;
  closed_at : option Z;
  updated_at : Z
}.

Record complaint_log := mkLog {
  log_id : Z;
  log_complaint_id : Z;
  old_status : option complaint_status;
  new_status : complaint_status;
  changed_by : string;
  log_notes : option string;
  changed_at : Z
}.

(** The database: the tables, the three SERIAL sequences the handlers draw
    from, and the session setting [app.current_user] the triggers read.  A
    sequence stands for the next fresh id: the value a refused INSERT drew is
    not recorded, no row depends on it. *)
Record db := mkDb {
  hostels : list hostel;
  rooms : list room;
  students : list student;
  allocations : list allocation;
  maintenance_staff : list staff;
  complaints : list complaint;
  complaint_logs : list complaint_log;
  allocations_id_seq : Z;
  complaints_id_seq : Z;
  complaint_logs_id_seq : Z;
  app_current_user : option string
}.

Definition with_rooms (rs : list room) (d : db) : db :=
  mkDb (hostels d) rs (students d) (allocations d) (maintenance_staff d)
       (complaints d) (complaint_logs d) (allocations_id_seq d)
       (complaints_id_seq d) (complaint_logs_id_seq d) (app_current_user d).

Definition with_allocations (al : list allocation) (d : db) : db :=
  mkDb (hostels d) (rooms d) (students d) al (maintenance_staff d)
       (complaints d) (complaint_logs d) (allocations_id_seq d)
       (complaints_id_seq d) (complaint_logs_id_seq d) (app_current_user d).

Definition with_new_allocation (a : allocation) (d : db) : db :=
  mkDb (hostels d) (rooms d) (students d) (allocations d ++ [a])
       (maintenance_staff d) (complaints d) (complaint_logs d)
       (allocations_id_seq d + 1) (complaints_id_seq d)
       (complaint_logs_id_seq d) (app_current_user d).

Definition with_students (ss : list student) (d : db) : db :=
  mkDb (hostels d) (rooms d) ss (allocations d) (maintenance_staff d)
       (complaints d) (complaint_logs d) (allocations_id_seq d)
       (complaints_id_seq d) (complaint_logs_id_seq d) (app_current_user d).

Definition with_complaints (cs : list complaint) (d : db) : db :=
  mkDb (hostels d) (rooms d) (students d) (allocations d) (maintenance_staff d)
       cs (complaint_logs d) (allocations_id_seq d)
       (complaints_id_seq d) (complaint_logs_id_seq d) (app_current_user d).

Definition with_new_complaint (c : complaint) (d : db) : db :=
  mkDb (hostels d) (rooms d) (students d) (allocations d) (maintenance_staff d)
       (complaints d ++ [c]) (complaint_logs d) (allocations_id_seq d)
       (complaints_id_seq d + 1) (complaint_logs_id_seq d) (app_current_user d).

Definition with_new_log (l : complaint_log) (d : db) : db :=
  mkDb (hostels d) (rooms d) (students d) (allocations d) (maintenance_staff d)
       (complaints d) (complaint_logs d ++ [l]) (allocations_id_seq d)
       (complaints_id_seq d) (complaint_logs_id_seq d + 1) (app_current_user d).

(* ------------------------------------------------------------------ *)
(** ** Statement results *)

Inductive pg_error :=
| RaiseException (message : string)
| CheckViolation (constraint : string)
| UniqueViolation (index : string)
| ForeignKeyViolation (constraint : string)
| SyntaxError (message : string).

Inductive result (A : Type) :=
| Ok (a : A)
| Err (e : pg_error).
Arguments Ok {A} a.
Arguments Err {A} e.

Definition rbind {A B} (r : result A) (k : A -> result B) : result B :=
  match r with
  | Ok a => k a
  | Err e => Err e
  end.

Notation "x <-r m ;; k" := (rbind m (fun x => k))
  (at level 61, m at next level, right associativity).

(* ------------------------------------------------------------------ *)
(** ** The rooms table: CHECK constraints and the occupancy update *)

Definition find_room (rid : Z) (d : db) : option room :=
  find (fun r => room_id r =? rid) (rooms d).

Definition find_hostel (hid : Z) (d : db) : option hostel :=
  find (fun h => hostel_id h =? hid) (hostels d).

(** [CHECK (capacity > 0 AND capacity <= 10)],
    [CHECK (current_occupancy >= 0)] and
    [CONSTRAINT check_occupancy CHECK (current_occupancy <= capacity)]. *)
Definition room_checks (r : room) : result room :=
  if negb ((0 <? capacity r) && (capacity r <=? 10))
  then Err (CheckViolation "rooms_capacity_check")
  else if negb (0 <=? current_occupancy r)
  then Err (CheckViolation "rooms_current_occupancy_check")
  else if negb (current_occupancy r <=? capacity r)
  then Err (CheckViolation "check_occupancy")
  else Ok r.

Definition set_occupancy (n : Z) (r : room) : room :=
  mkRoom (room_id r) (room_hostel_id r) (capacity r) n (room_is_available r).

(** [UPDATE rooms SET current_occupancy = f(current_occupancy) WHERE id = rid]
    on the rows of the table: every new row is checked. *)
Fixpoint update_room_rows (rid : Z) (f : Z -> Z) (rs : list room)
  : result (list room) :=
  match rs with
  | [] => Ok []
  | r :: rs' =>
      if room_id r =? rid then
        r' <-r room_checks (set_occupancy (f (current_occupancy r)) r) ;;
        rs'' <-r update_room_rows rid f rs' ;;
        Ok (r' :: rs'')
      else
        rs'' <-r update_room_rows rid f rs' ;;
        Ok (r :: rs'')
  end.

Definition update_room_occupancy (rid : Z) (f : Z -> Z) (d : db) : result db :=
  rs <-r update_room_rows rid f (rooms d) ;;
  Ok (with_rooms rs d).

(** [current_occupancy + 1] and [GREATEST(0, current_occupancy - 1)]. *)
Definition occupancy_incr (n : Z) : Z := n + 1.
Definition occupancy_decr (n : Z) : Z := Z.max 0 (n - 1).

(* ------------------------------------------------------------------ *)
(** ** Trigger 1: [check_room_capacity], BEFORE INSERT OR UPDATE ON allocations *)

Inductive tg_op := TG_INSERT | TG_UPDATE.

(** [SELECT r.capacity, r.current_occupancy ... INTO v_capacity,
    v_current_occupancy FROM rooms r JOIN hostels h ... WHERE r.id =
    NEW.room_id]: no row leaves the variables NULL, and a comparison with NULL
    is not true. *)
Definition select_room_capacity (rid : Z) (d : db) : option (Z * Z) :=
  match find_room rid d with
  | Some r =>
      match find_hostel (room_hostel_id r) d with
      | Some _ => Some (capacity r, current_occupancy r)
      | None => None
      end
  | None => None
  end.

Definition room_is_full (v : option (Z * Z)) : bool :=
  match v with
  | Some (v_capacity, v_current_occupancy) => v_capacity <=? v_current_occupancy
  | None => false
  end.

Definition check_room_capacity (op : tg_op) (old : option allocation)
    (new : allocation) (d : db) : result db :=
  let v := select_room_capacity (a_room_id new) d in
  match op, old with
  | TG_INSERT, _ =>
      if is_active new then
        if room_is_full v
        then Err (RaiseException "Room is at full capacity. Cannot allocate more students.")
        else update_room_occupancy (a_room_id new) occupancy_incr d
      else Ok d
  | TG_UPDATE, Some old =>
      if is_active old && negb (is_active new) then
        update_room_occupancy (a_room_id new) occupancy_decr d
      else if negb (is_active old) && is_active new then
        if room_is_full v
        then Err (RaiseException "Room is at full capacity. Cannot reactivate allocation.")
        else update_room_occupancy (a_room_id new) occupancy_incr d
      else Ok d
  | TG_UPDATE, None => Ok d
  end.

(* ------------------------------------------------------------------ *)
(** ** Statements on the allocations table *)

Definition active_for (sid : Z) (a : allocation) : bool :=
  (a_student_id a =? sid) && is_active a.

(** [CONSTRAINT valid_checkout_dates CHECK (expected_checkout IS NULL OR
    expected_checkout >= allocation_date)]. *)
Definition valid_checkout_dates (a : allocation) : bool :=
  match expected_checkout a with
  | None => true
  | Some e => allocation_date a <=? e
  end.

(** [INSERT INTO allocations (student_id, room_id, allocation_date,
    expected_checkout, notes, is_active) VALUES ($1, $2, CURRENT_DATE, $3, $4,
    TRUE) RETURNING *]: the BEFORE INSERT trigger runs first, then the row's
    CHECK, the primary key, the partial unique index
    [idx_one_active_allocation] and the two foreign keys. *)
Definition insert_allocation (today : Z) (sid rid : Z) (exp : option Z)
    (nts : option string) (d : db) : result (allocation * db) :=
  let new := mkAllocation (allocations_id_seq d) sid rid today exp None true nts in
  d1 <-r check_room_capacity TG_INSERT None new d ;;
  if negb (valid_checkout_dates new)
  then Err (CheckViolation "valid_checkout_dates")
  else if existsb (fun a => allocation_id a =? allocation_id new) (allocations d1)
  then Err (UniqueViolation "allocations_pkey")
  else if existsb (active_for sid) (allocations d1)
  then Err (UniqueViolation "idx_one_active_allocation")
  else if negb (existsb (fun s => student_id s =? sid) (students d1))
  then Err (ForeignKeyViolation "fk_allocation_student")
  else if negb (existsb (fun r => room_id r =? rid) (rooms d1))
  then Err (ForeignKeyViolation "fk_allocation_room")
  else Ok (new, with_new_allocation new d1).

Definition deactivated (today : Z) (a : allocation) : allocation :=
  mkAllocation (allocation_id a) (a_student_id a) (a_room_id a)
               (allocation_date a) (expected_checkout a) (Some today) false
               (notes a).

(** The rows of an [UPDATE allocations SET ... WHERE ...]: for every selected
    row the BEFORE UPDATE trigger runs with OLD and NEW on the database as the
    rows before it left it, then the row's CHECK.  Returns the new table, the
    RETURNING rows and the database the triggers produced. *)
Fixpoint update_allocation_rows (sel : allocation -> bool)
    (set : allocation -> allocation) (rows : list allocation) (d : db)
  : result (list allocation * list allocation * db) :=
  match rows with
  | [] => Ok ([], [], d)
  | a :: rows' =>
      if sel a then
        let new := set a in
        d1 <-r check_room_capacity TG_UPDATE (Some a) new d ;;
        if negb (valid_checkout_dates new)
        then Err (CheckViolation "valid_checkout_dates")
        else
          rest <-r update_allocation_rows sel set rows' d1 ;;
          let '(tbl, ret, d2) := rest in
          Ok (new :: tbl, new :: ret, d2)
      else
        rest <-r update_allocation_rows sel set rows' d ;;
        let '(tbl, ret, d2) := rest in
        Ok (a :: tbl, ret, d2)
  end.

Definition update_allocations (sel : allocation -> bool)
    (set : allocation -> allocation) (d : db)
  : result (list allocation * db) :=
  rest <-r update_allocation_rows sel set (allocations d) d ;;
  let '(tbl, ret, d2) := rest in
  Ok (ret, with_allocations tbl d2).

(** [UPDATE allocations SET is_active = FALSE, actual_checkout = CURRENT_DATE
    WHERE student_id = $1 AND is_active = TRUE]. *)
Definition deactivate_student_allocations (today sid : Z) (d : db)
  : result (list allocation * db) :=
  update_allocations (active_for sid) (deactivated today) d.

(** [UPDATE allocations SET is_active = FALSE, actual_checkout = CURRENT_DATE
    WHERE id = $1 RETURNING *]. *)
Definition deactivate_allocation (today aid : Z) (d : db)
  : result (list allocation * db) :=
  update_allocations (fun a => allocation_id a =? aid) (deactivated today) d.

(** [UPDATE allocations SET expected_checkout = .., notes = .. WHERE id = $n
    RETURNING *], with the SET list the handler built: a column is assigned
    only when the request has it. *)
Definition set_allocation_fields (exp : option (option Z))
    (nts : option (option string)) (a : allocation) : allocation :=
  mkAllocation (allocation_id a) (a_student_id a) (a_room_id a)
               (allocation_date a)
               (match exp with Some e => e | None => expected_checkout a end)
               (actual_checkout a) (is_active a)
               (match nts with Some n => n | None => notes a end).

Definition update_allocation_fields (aid : Z) (exp : option (option Z))
    (nts : option (option string)) (d : db) : result (list allocation * db) :=
  update_allocations (fun a => allocation_id a =? aid)
                     (set_allocation_fields exp nts) d.

(** [UPDATE students SET is_active = FALSE WHERE id = $1 RETURNING *]. *)
Definition deactivate_student (sid : Z) (d : db) : result (list student * db) :=
  let off s := mkStudent (student_id s) (gender s) false in
  let hit s := student_id s =? sid in
  Ok (map off (filter hit (students d)),
      with_students (map (fun s => if hit s then off s else s) (students d)) d).

(* ------------------------------------------------------------------ *)
(** ** Route handlers: responses and the handler monad *)

Inductive error_body :=
| Message (text : string)
| Thrown (e : pg_error).

Inductive response (A : Type) :=
| Success (http_status : Z) (data : A)
| Failure (http_status : Z) (error : error_body).
Arguments Success {A} http_status data.
Arguments Failure {A} http_status error.

(** A handler body runs on the current database and yields a value or the
    error a statement threw, together with the databases its statements
    committed, oldest first.  [query] of [lib/db.ts] runs on the pool, outside
    any transaction: what a statement wrote stays when a later one throws. *)
Definition handler (A : Type) : Type := db -> (A + pg_error) * list db.

Definition ret {A} (a : A) : handler A := fun _ => (inl a, []).

Definition bind {A B} (m : handler A) (k : A -> handler B) : handler B :=
  fun d =>
    match m d with
    | (inl a, tr) =>
        let '(r, tr') := k a (last tr d) in (r, tr ++ tr')
    | (inr e, tr) => (inr e, tr)
    end.

(** A SELECT reads the database; a writing statement commits its result or
    throws. *)
Definition select {A} (q : db -> A) : handler A := fun d => (inl (q d), []).

Definition exec {A} (stmt : db -> result (A * db)) : handler A :=
  fun d =>
    match stmt d with
    | Ok (a, d') => (inl a, [d'])
    | Err e => (inr e, [])
    end.

Notation "x <- m ;; k" := (bind m (fun x => k))
  (at level 61, m at next level, right associativity).

(** [try { ... } catch (error) { return 500 }] around a handler body: the
    response, and the committed databases. *)
Definition try_catch {A} (h : handler (response A)) (d : db)
  : response A * list db :=
  match h d with
  | (inl r, tr) => (r, tr)
  | (inr e, tr) => (Failure 500 (Thrown e), tr)
  end.

(** The database a handler leaves behind. *)
Definition final {A} (run : response A * list db) (d : db) : db :=
  last (snd run) d.

(* ------------------------------------------------------------------ *)
(** ** POST /api/allocations *)

Record allocation_body := mkAllocationBody {
  body_student_id : option Z;
  body_room_id : option Z;
  body_expected_checkout : option Z;
  body_notes : option string
}.

(** [!x] on a number-valued JSON field: missing, or zero. *)
Definition falsy_id (x : option Z) : bool :=
  match x with
  | None => true
  | Some n => n =? 0
  end.

(** [notes || null]: the empty string is dropped. *)
Definition or_null (s : option string) : option string :=
  match s with
  | Some "" => None
  | _ => s
  end.

Definition id_of (x : option Z) : Z :=
  match x with Some n => n | None => 0 end.

(** The values of an [INTEGER] column ([id SERIAL PRIMARY KEY]).  An id
    parameter compared with such a column has to lie in this range: for a
    value outside it PostgreSQL refuses the query (error 22003) and the
    handler answers 500. *)
Definition int4 (n : Z) : Prop := -2147483648 <= n <= 2147483647.

(** [SELECT id, gender FROM students WHERE id = $1 AND is_active = TRUE], for
    a parameter in [int4]. *)
Definition select_active_student (sid : Z) (d : db) : list student :=
  filter (fun s => (student_id s =? sid) && student_is_active s) (students d).

(** [SELECT r.id, r.capacity, r.current_occupancy, h.gender_allowed FROM rooms
    r INNER JOIN hostels h ON r.hostel_id = h.id WHERE r.id = $1 AND
    r.is_available = TRUE], for a parameter in [int4]. *)
Definition select_available_room (rid : Z) (d : db)
  : list (room * gender_type) :=
  flat_map
    (fun r =>
       if (room_id r =? rid) && room_is_available r then
         map (fun h => (r, gender_allowed h))
             (filter (fun h => hostel_id h =? room_hostel_id r) (hostels d))
       else [])
    (rooms d).

(** [SELECT id FROM allocations WHERE student_id = $1 AND is_active = TRUE]. *)
Definition select_active_allocations (sid : Z) (d : db) : list allocation :=
  filter (active_for sid) (allocations d).

(** [UPDATE rooms SET current_occupancy = current_occupancy + 1 WHERE id = $1]. *)
Definition increment_occupancy (rid : Z) (d : db) : result (unit * db) :=
  d' <-r update_room_occupancy rid occupancy_incr d ;; Ok (tt, d').

(** [UPDATE rooms SET current_occupancy = GREATEST(0, current_occupancy - 1)
    WHERE id = $1]. *)
Definition decrement_occupancy (rid : Z) (d : db) : result (unit * db) :=
  d' <-r update_room_occupancy rid occupancy_decr d ;; Ok (tt, d').

Definition POST_allocations_body (today : Z) (body : allocation_body)
  : handler (response allocation) :=
  if falsy_id (body_student_id body) || falsy_id (body_room_id body) then
    ret (Failure 400 (Message "Missing required fields: student_id, room_id"))
  else
    let sid := id_of (body_student_id body) in
    let rid := id_of (body_room_id body) in
    studentCheck <- select (select_active_student sid) ;;
    match studentCheck with
    | [] => ret (Failure 400 (Message "Student not found or is not active"))
    | stu :: _ =>
        roomCheck <- select (select_available_room rid) ;;
        match roomCheck with
        | [] => ret (Failure 400 (Message "Room not found or not available"))
        | (rm, rm_gender_allowed) :: _ =>
            if capacity rm <=? current_occupancy rm then
              ret (Failure 400 (Message "Room is at full capacity"))
            else if negb (gender_eqb rm_gender_allowed other_gender)
                    && negb (gender_eqb (gender stu) rm_gender_allowed) then
              ret (Failure 400 (Message ("Room is for " ++ gender_name rm_gender_allowed
                                         ++ " students only")%string))
            else
              existingAllocation <- select (select_active_allocations sid) ;;
              _ <- match existingAllocation with
                   | [] => ret []
                   | _ :: _ => exec (deactivate_student_allocations today sid)
                   end ;;
              result <- exec (insert_allocation today sid rid
                                (body_expected_checkout body)
                                (or_null (body_notes body))) ;;
              _ <- exec (increment_occupancy rid) ;;
              ret (Success 201 result)
        end
    end.

Definition POST_allocations (today : Z) (body : allocation_body) (d : db)
  : response allocation * list db :=
  try_catch (POST_allocations_body today body) d.

(* ------------------------------------------------------------------ *)
(** ** PUT and DELETE /api/allocations/[id], DELETE /api/students/[id] *)

(** The path parameter after [parseInt]: [None] is NaN. *)
Definition DELETE_allocation_body (today : Z) (id : option Z)
  : handler (response (option allocation)) :=
  match id with
  | None => ret (Failure 400 (Message "Invalid allocation ID"))
  | Some allocationId =>
      existingResult <- select (fun d =>
        filter (fun a => allocation_id a =? allocationId) (allocations d)) ;;
      match existingResult with
      | [] => ret (Failure 404 (Message "Allocation not found"))
      | existing :: _ =>
          if negb (is_active existing) then
            ret (Failure 400 (Message "Allocation is already inactive"))
          else
            result <- exec (deactivate_allocation today allocationId) ;;
            _ <- exec (decrement_occupancy (a_room_id existing)) ;;
            ret (Success 200 (hd_error result))
      end
  end.

Definition DELETE_allocation (today : Z) (id : option Z) (d : db)
  : response (option allocation) * list db :=
  try_catch (DELETE_allocation_body today id) d.

Record allocation_update_body := mkAllocationUpdateBody {
  upd_expected_checkout : option (option Z);
  upd_notes : option (option string)
}.

Definition PUT_allocation_body (id : option Z) (body : allocation_update_body)
  : handler (response allocation) :=
  match id with
  | None => ret (Failure 400 (Message "Invalid allocation ID"))
  | Some allocationId =>
      match upd_expected_checkout body, upd_notes body with
      | None, None => ret (Failure 400 (Message "No fields to update"))
      | exp, nts =>
          result <- exec (update_allocation_fields allocationId exp nts) ;;
          match result with
          | [] => ret (Failure 404 (Message "Allocation not found"))
          | a :: _ => ret (Success 200 a)
          end
      end
  end.

Definition PUT_allocation (id : option Z) (body : allocation_update_body)
    (d : db) : response allocation * list db :=
  try_catch (PUT_allocation_body id body) d.

Definition DELETE_student_body (today : Z) (id : option Z)
  : handler (response student) :=
  match id with
  | None => ret (Failure 400 (Message "Invalid student ID"))
  | Some studentId =>
      result <- exec (deactivate_student studentId) ;;
      match result with
      | [] => ret (Failure 404 (Message "Student not found"))
      | s :: _ =>
          _ <- exec (deactivate_student_allocations today studentId) ;;
          ret (Success 200 s)
      end
  end.

Definition DELETE_student (today : Z) (id : option Z) (d : db)
  : response student * list db :=
  try_catch (DELETE_student_body today id) d.

(* ------------------------------------------------------------------ *)
(** ** Trigger 2: complaint logging *)

Definition status_name (s : complaint_status) : string :=
  match s with
  | open => "open"
  | assigned => "assigned"
  | in_progress => "in_progress"
  | resolved => "resolved"
  | closed => "closed"
  end.

(** [validStatuses.includes(status)], with the enum value the string names. *)
Definition parse_status (s : string) : option complaint_status :=
  if String.eqb s "open" then Some open
  else if String.eqb s "assigned" then Some assigned
  else if String.eqb s "in_progress" then Some in_progress
  else if String.eqb s "resolved" then Some resolved
  else if String.eqb s "closed" then Some closed
  else None.

(** [validCategories.includes(category)]. *)
Definition parse_category (s : string) : option complaint_category :=
  if String.eqb s "electrical" then Some electrical
  else if String.eqb s "plumbing" then Some plumbing
  else if String.eqb s "furniture" then Some furniture
  else if String.eqb s "cleaning" then Some cleaning
  else if String.eqb s "pest_control" then Some pest_control
  else if String.eqb s "internet" then Some internet
  else if String.eqb s "security" then Some security
  else if String.eqb s "other" then Some other
  else None.

(** [n::TEXT] on an integer. *)
Definition int_text (n : Z) : string := NilZero.string_of_int (Z.to_int n).

(** [COALESCE(current_setting('app.current_user', TRUE), 'system')]. *)
Definition current_user (d : db) : string :=
  match app_current_user d with
  | Some u => u
  | None => "system"
  end.

(** [INSERT INTO complaint_logs (...) VALUES (...)]: primary key and the
    foreign key to the complaint. *)
Definition insert_log (cid : Z) (old : option complaint_status)
    (new : complaint_status) (nts : option string) (now : Z) (d : db)
  : result db :=
  let l := mkLog (complaint_logs_id_seq d) cid old new (current_user d) nts now in
  if existsb (fun x => log_id x =? log_id l) (complaint_logs d)
  then Err (UniqueViolation "complaint_logs_pkey")
  else if negb (existsb (fun c => complaint_id c =? cid) (complaints d))
  then Err (ForeignKeyViolation "fk_log_complaint")
  else Ok (with_new_log l d).

(** The note of a status change:
    [CASE WHEN NEW.status = 'assigned' THEN 'Assigned to staff ID: ' ||
    COALESCE(NEW.assigned_staff_id::TEXT, 'N/A') WHEN NEW.status = 'resolved'
    THEN 'Resolution: ' || COALESCE(NEW.resolution_notes, 'No notes') ELSE NULL
    END]. *)
Definition status_change_note (new : complaint) : option string :=
  match status new with
  | assigned =>
      Some ("Assigned to staff ID: " ++
            match assigned_staff_id new with
            | Some n => int_text n
            | None => "N/A"
            end)%string
  | resolved =>
      Some ("Resolution: " ++
            match resolution_notes new with
            | Some n => n
            | None => "No notes"
            end)%string
  | _ => None
  end.

Definition set_timestamps (asg rsv cls : option Z) (upd : Z) (c : complaint)
  : complaint :=
  mkComplaint (complaint_id c) (c_student_id c) (c_room_id c) (category c)
              (title c) (description c) (status c) (priority c)
              (assigned_staff_id c) (resolution_notes c) (created_at c)
              asg rsv cls upd.

(** The timestamp part of the trigger:
    [IF NEW.status = 'assigned' AND OLD.status != 'assigned' THEN
    NEW.assigned_at := CURRENT_TIMESTAMP; ELSIF ... resolved ... ELSIF ...
    closed ... END IF]. *)
Definition stamp_status (now : Z) (old new : complaint) : complaint :=
  if status_eqb (status new) assigned && negb (status_eqb (status old) assigned)
  then set_timestamps (Some now) (resolved_at new) (closed_at new)
                      (updated_at new) new
  else if status_eqb (status new) resolved && negb (status_eqb (status old) resolved)
  then set_timestamps (assigned_at new) (Some now) (closed_at new)
                      (updated_at new) new
  else if status_eqb (status new) closed && negb (status_eqb (status old) closed)
  then set_timestamps (assigned_at new) (resolved_at new) (Some now)
                      (updated_at new) new
  else new.

(** [NEW.updated_at := CURRENT_TIMESTAMP]. *)
Definition touch (now : Z) (c : complaint) : complaint :=
  set_timestamps (assigned_at c) (resolved_at c) (closed_at c) now c.

(** [log_complaint_status_change], BEFORE UPDATE ON complaints, FOR EACH ROW:
    yields the NEW row it returns and the database with the log row. *)
Definition log_complaint_status_change (now : Z) (old new : complaint) (d : db)
  : result (complaint * db) :=
  if negb (status_eqb (status old) (status new)) then
    d1 <-r insert_log (complaint_id new) (Some (status old)) (status new)
                      (status_change_note new) now d ;;
    Ok (touch now (stamp_status now old new), d1)
  else
    Ok (touch now new, d).

(** [log_complaint_creation], AFTER INSERT ON complaints, FOR EACH ROW. *)
Definition log_complaint_creation (now : Z) (new : complaint) (d : db)
  : result db :=
  insert_log (complaint_id new) None (status new) (Some "Complaint created")
             now d.

(* ------------------------------------------------------------------ *)
(** ** Statements on the complaints table *)

(** [priority INTEGER DEFAULT 3 CHECK (priority >= 1 AND priority <= 5)]. *)
Definition priority_check (c : complaint) : bool :=
  (1 <=? priority c) && (priority c <=? 5).

(** [INSERT INTO complaints (student_id, room_id, category, title,
    description, priority, status) VALUES ($1, ..., $6, 'open') RETURNING *],
    with the AFTER INSERT trigger inside the statement. *)
Definition insert_complaint (now : Z) (sid rid : Z) (cat : complaint_category)
    (ttl dsc : string) (prio : Z) (d : db) : result (complaint * db) :=
  let new := mkComplaint (complaints_id_seq d) sid rid cat ttl dsc open prio
                         None None now None None None now in
  if negb (priority_check new)
  then Err (CheckViolation "complaints_priority_check")
  else if existsb (fun c => complaint_id c =? complaint_id new) (complaints d)
  then Err (UniqueViolation "complaints_pkey")
  else if negb (existsb (fun s => student_id s =? sid) (students d))
  then Err (ForeignKeyViolation "fk_complaint_student")
  else if negb (existsb (fun r => room_id r =? rid) (rooms d))
  then Err (ForeignKeyViolation "fk_complaint_room")
  else
    d2 <-r log_complaint_creation now new (with_new_complaint new d) ;;
    Ok (new, d2).

(** One element of the SET list the PUT handler builds. *)
Inductive assignment :=
| SetStatus (s : complaint_status)
| SetAssignedStaff (v : option Z)
| SetResolutionNotes (v : option string)
| SetPriority (p : Z).

Definition assign_column (c : complaint) (u : assignment) : complaint :=
  match u with
  | SetStatus s =>
      mkComplaint (complaint_id c) (c_student_id c) (c_room_id c) (category c)
                  (title c) (description c) s (priority c)
                  (assigned_staff_id c) (resolution_notes c) (created_at c)
                  (assigned_at c) (resolved_at c) (closed_at c) (updated_at c)
  | SetAssignedStaff v =>
      mkComplaint (complaint_id c) (c_student_id c) (c_room_id c) (category c)
                  (title c) (description c) (status c) (priority c)
                  v (resolution_notes c) (created_at c)
                  (assigned_at c) (resolved_at c) (closed_at c) (updated_at c)
  | SetResolutionNotes v =>
      mkComplaint (complaint_id c) (c_student_id c) (c_room_id c) (category c)
                  (title c) (description c) (status c) (priority c)
                  (assigned_staff_id c) v (created_at c)
                  (assigned_at c) (resolved_at c) (closed_at c) (updated_at c)
  | SetPriority p =>
      mkComplaint (complaint_id c) (c_student_id c) (c_room_id c) (category c)
                  (title c) (description c) (status c) p
                  (assigned_staff_id c) (resolution_notes c) (created_at c)
                  (assigned_at c) (resolved_at c) (closed_at c) (updated_at c)
  end.

Definition column_of (u : assignment) : Z :=
  match u with
  | SetStatus _ => 0
  | SetAssignedStaff _ => 1
  | SetResolutionNotes _ => 2
  | SetPriority _ => 3
  end.

(** PostgreSQL refuses a SET list that names a column twice. *)
Fixpoint repeated_column (us : list assignment) : bool :=
  match us with
  | [] => false
  | u :: us' =>
      existsb (fun v => column_of v =? column_of u) us' || repeated_column us'
  end.

(** [CONSTRAINT fk_complaint_staff FOREIGN KEY (assigned_staff_id)]. *)
Definition staff_fk (c : complaint) (d : db) : bool :=
  match assigned_staff_id c with
  | None => true
  | Some n => existsb (fun s => staff_id s =? n) (maintenance_staff d)
  end.

Fixpoint update_complaint_rows (now : Z) (cid : Z) (us : list assignment)
    (rows : list complaint) (d : db)
  : result (list complaint * list complaint * db) :=
  match rows with
  | [] => Ok ([], [], d)
  | c :: rows' =>
      if complaint_id c =? cid then
        trg <-r log_complaint_status_change now c (fold_left assign_column us c) d ;;
        let '(new, d1) := trg in
        if negb (priority_check new)
        then Err (CheckViolation "complaints_priority_check")
        else if negb (staff_fk new d1)
        then Err (ForeignKeyViolation "fk_complaint_staff")
        else
          rest <-r update_complaint_rows now cid us rows' d1 ;;
          let '(tbl, rtn, d2) := rest in
          Ok (new :: tbl, new :: rtn, d2)
      else
        rest <-r update_complaint_rows now cid us rows' d ;;
        let '(tbl, rtn, d2) := rest in
        Ok (c :: tbl, rtn, d2)
  end.

(** [UPDATE complaints SET <updates> WHERE id = $n RETURNING *]. *)
Definition update_complaint (now : Z) (cid : Z) (us : list assignment) (d : db)
  : result (list complaint * db) :=
  if repeated_column us
  then Err (SyntaxError "multiple assignments to same column")
  else
    rest <-r update_complaint_rows now cid us (complaints d) d ;;
    let '(tbl, rtn, d2) := rest in
    Ok (rtn, with_complaints tbl d2).

(* ------------------------------------------------------------------ *)
(** ** POST /api/complaints *)

Record complaint_body := mkComplaintBody {
  cb_student_id : option Z;
  cb_room_id : option Z;
  cb_category : option string;
  cb_title : option string;
  cb_description : option string;
  cb_priority : option Z
}.

(** [!x] on a string-valued JSON field: missing, or empty. *)
Definition falsy_text (x : option string) : bool :=
  match x with
  | None => true
  | Some s => String.eqb s ""
  end.

Definition text_of (x : option string) : string :=
  match x with Some s => s | None => "" end.

(** [priority || 3]. *)
Definition finalPriority (p : option Z) : Z :=
  match p with
  | None => 3
  | Some n => if n =? 0 then 3 else n
  end.

(** [SELECT id FROM rooms WHERE id = $1]. *)
Definition select_room (rid : Z) (d : db) : list room :=
  filter (fun r => room_id r =? rid) (rooms d).

Definition POST_complaints_body (now : Z) (body : complaint_body)
  : handler (response complaint) :=
  if falsy_id (cb_student_id body) || falsy_id (cb_room_id body)
     || falsy_text (cb_category body) || falsy_text (cb_title body)
     || falsy_text (cb_description body) then
    ret (Failure 400 (Message
      "Missing required fields: student_id, room_id, category, title, description"))
  else
    match parse_category (text_of (cb_category body)) with
    | None => ret (Failure 400 (Message
        "Invalid category. Must be one of: electrical, plumbing, furniture, cleaning, pest_control, internet, security, other"))
    | Some cat =>
        let prio := finalPriority (cb_priority body) in
        if (prio <? 1) || (5 <? prio) then
          ret (Failure 400 (Message
            "Priority must be between 1 (highest) and 5 (lowest)"))
        else
          let sid := id_of (cb_student_id body) in
          let rid := id_of (cb_room_id body) in
          studentCheck <- select (select_active_student sid) ;;
          match studentCheck with
          | [] => ret (Failure 400 (Message "Student not found or is not active"))
          | _ :: _ =>
              roomCheck <- select (select_room rid) ;;
              match roomCheck with
              | [] => ret (Failure 400 (Message "Room not found"))
              | _ :: _ =>
                  result <- exec (insert_complaint now sid rid cat
                                    (text_of (cb_title body))
                                    (text_of (cb_description body)) prio) ;;
                  ret (Success 201 result)
              end
          end
    end.

Definition POST_complaints (now : Z) (body : complaint_body) (d : db)
  : response complaint * list db :=
  try_catch (POST_complaints_body now body) d.

(* ------------------------------------------------------------------ *)
(** ** PUT /api/complaints/[id] *)

(** A JSON field that may be missing, [null], or a value. *)
Inductive js_field (A : Type) :=
| Undefined
| Null
| Value (a : A).
Arguments Undefined {A}.
Arguments Null {A}.
Arguments Value {A} a.

Record complaint_update_body := mkComplaintUpdateBody {
  ub_status : option string;
  ub_assigned_staff_id : js_field Z;
  ub_resolution_notes : js_field string;
  ub_priority : option Z
}.

(** [!assigned_staff_id] on the request and on the stored row. *)
Definition falsy_field (x : js_field Z) : bool :=
  match x with
  | Value n => n =? 0
  | _ => true
  end.

Definition nullable {A} (x : js_field A) : option A :=
  match x with
  | Value a => Some a
  | _ => None
  end.

(** [SELECT * FROM complaints WHERE id = $1]. *)
Definition select_complaint (cid : Z) (d : db) : list complaint :=
  filter (fun c => complaint_id c =? cid) (complaints d).

(** [SELECT id FROM maintenance_staff WHERE id = $1 AND is_available = TRUE]. *)
Definition select_available_staff (n : Z) (d : db) : list staff :=
  filter (fun s => (staff_id s =? n) && staff_is_available s)
         (maintenance_staff d).

(** The status part of the SET list: [status && status !== existing.status]. *)
Definition status_changes (st : option string) (existing : complaint) : bool :=
  negb (falsy_text st)
  && negb (String.eqb (text_of st) (status_name (status existing))).

Definition status_updates (st : option string) (existing : complaint)
  : list assignment :=
  if status_changes st existing then
    match parse_status (text_of st) with
    | Some s => [SetStatus s]
    | None => []
    end
  else [].

(** The staff part: the column itself, and the automatic advance of an open
    complaint when the request names no status. *)
Definition staff_updates (st : option string) (sf : js_field Z)
    (existing : complaint) : list assignment :=
  match sf with
  | Undefined => []
  | _ =>
      SetAssignedStaff (nullable sf) ::
      (if negb (falsy_field sf) && status_eqb (status existing) open
          && falsy_text st
       then [SetStatus assigned] else [])
  end.

Definition notes_updates (rn : js_field string) : list assignment :=
  match rn with
  | Undefined => []
  | _ => [SetResolutionNotes (nullable rn)]
  end.

Definition priority_updates (p : option Z) : list assignment :=
  match p with
  | None => []
  | Some n => [SetPriority n]
  end.

(** The [updates] array when the handler reaches its UPDATE. *)
Definition updates_of (body : complaint_update_body) (existing : complaint)
  : list assignment :=
  status_updates (ub_status body) existing
  ++ staff_updates (ub_status body) (ub_assigned_staff_id body) existing
  ++ notes_updates (ub_resolution_notes body)
  ++ priority_updates (ub_priority body).

Definition PUT_complaint_body (now : Z) (id : option Z)
    (body : complaint_update_body) : handler (response (option complaint)) :=
  match id with
  | None => ret (Failure 400 (Message "Invalid complaint ID"))
  | Some complaintId =>
      existingResult <- select (select_complaint complaintId) ;;
      match existingResult with
      | [] => ret (Failure 404 (Message "Complaint not found"))
      | existing :: _ =>
          let st := ub_status body in
          let sf := ub_assigned_staff_id body in
          if negb (falsy_text st)
             && match parse_status (text_of st) with
                | None => true
                | Some _ => false
                end then
            ret (Failure 400 (Message
              "Invalid status. Must be one of: open, assigned, in_progress, resolved, closed"))
          else if status_changes st existing
                  && String.eqb (text_of st) "assigned"
                  && falsy_field sf
                  && falsy_id (assigned_staff_id existing) then
            ret (Failure 400 (Message
              "Cannot set status to assigned without assigning staff"))
          else
            staffCheck <- match sf with
                          | Value n => select (select_available_staff n)
                          | _ => ret []
                          end ;;
            match sf, staffCheck with
            | Value _, [] =>
                ret (Failure 400 (Message "Staff not found or not available"))
            | _, _ =>
                if match ub_priority body with
                   | Some p => (p <? 1) || (5 <? p)
                   | None => false
                   end then
                  ret (Failure 400 (Message "Priority must be between 1 and 5"))
                else
                  match updates_of body existing with
                  | [] => ret (Failure 400 (Message "No fields to update"))
                  | updates =>
                      result <- exec (update_complaint now complaintId updates) ;;
                      ret (Success 200 (hd_error result))
                  end
            end
      end
  end.

Definition PUT_complaint (now : Z) (id : option Z)
    (body : complaint_update_body) (d : db)
  : response (option complaint) * list db :=
  try_catch (PUT_complaint_body now id body) d.

(* ------------------------------------------------------------------ *)
(** ** Analytics: the arithmetic the handlers do on query results *)

(** A JavaScript number is an IEEE 754 binary64 value. *)
Definition number : Type := spec_float.

Definition prec : Z := 53.
Definition emax : Z := 1024.

(** [parseInt] of the decimal text of an integer column, and integer
    literals. *)
Definition parseInt (z : Z) : number := binary_normalize prec emax z 0 false.

Definition js_add : number -> number -> number := SFadd prec emax.
Definition js_mul : number -> number -> number := SFmul prec emax.
Definition js_div : number -> number -> number := SFdiv prec emax.

(** [a > b]: false when either side is NaN. *)
Definition js_gt (a b : number) : bool := SFltb b a.

(** [Math.round]: the nearest integer, a tie going up; zeros, infinities and
    NaN are returned as they are, and a result of zero keeps the sign of the
    argument. *)
Definition Math_round (x : number) : number :=
  match x with
  | S754_finite s m e =>
      if 0 <=? e then x
      else
        let n := if s then Z.neg m else Z.pos m in
        let d := 2 ^ (- e) in
        let r := (2 * n + d) / (2 * d) in
        if r =? 0 then S754_zero s else binary_normalize prec emax r 0 false
  | _ => x
  end.

(** GET /api/analytics/categories: one row per category of the grouped
    query. *)
Record category_row := mkCategoryRow {
  cr_category : string;
  cr_total_complaints : Z;
  cr_open_count : Z;
  cr_resolved_count : Z;
  cr_avg_resolution_hours : option number
}.

Record CategoryStats := mkCategoryStats {
  cs_category : string;
  cs_total_complaints : number;
  cs_open_count : number;
  cs_resolved_count : number;
  percentage : number;
  cs_avg_resolution_hours : option number
}.

(** [result.rows.reduce((sum, row) => sum + parseInt(...), 0)]. *)
Definition totalComplaints (rows : list category_row) : number :=
  fold_left (fun sum row => js_add sum (parseInt (cr_total_complaints row)))
            rows (parseInt 0).

(** [totalComplaints > 0 ? Math.round((total / totalComplaints) * 100) : 0]. *)
Definition category_percentage (total totalComplaints : number) : number :=
  if js_gt totalComplaints (parseInt 0)
  then Math_round (js_mul (js_div total totalComplaints) (parseInt 100))
  else parseInt 0.

Definition GET_analytics_categories (rows : list category_row)
  : list CategoryStats :=
  map (fun row =>
         let total := parseInt (cr_total_complaints row) in
         mkCategoryStats (cr_category row) total
                         (parseInt (cr_open_count row))
                         (parseInt (cr_resolved_count row))
                         (category_percentage total (totalComplaints rows))
                         (cr_avg_resolution_hours row))
      rows.

(** GET /api/analytics/rooms:
    [cap > 0 ? Math.round((occ / cap) * 100 * 100) / 100 : 0]. *)
Definition occupancy_rate (occ cap : number) : number :=
  if js_gt cap (parseInt 0)
  then js_div (Math_round (js_mul (js_mul (js_div occ cap) (parseInt 100))
                                  (parseInt 100)))
              (parseInt 100)
  else parseInt 0.

Record overall_row := mkOverallRow {
  or_total_rooms : Z;
  or_total_capacity : Z;
  or_total_occupancy : Z;
  or_rooms_full : Z;
  or_rooms_empty : Z;
  or_rooms_partial : Z
}.

(** A row of the by-type and of the by-floor query: the group key, its count
    and the two sums. *)
Record group_row (K : Type) := mkGroupRow {
  gr_key : K;
  gr_count : Z;
  gr_capacity : Z;
  gr_occupancy : Z
}.
Arguments mkGroupRow {K} gr_key gr_count gr_capacity gr_occupancy.
Arguments gr_key {K} g.
Arguments gr_count {K} g.
Arguments gr_capacity {K} g.
Arguments gr_occupancy {K} g.

Record group_stats (K : Type) := mkGroupStats {
  gs_key : K;
  gs_count : number;
  gs_capacity : number;
  gs_occupancy : number;
  rate : number
}.
Arguments mkGroupStats {K} gs_key gs_count gs_capacity gs_occupancy rate.
Arguments rate {K} g.

Record RoomStats := mkRoomStats {
  total_rooms : number;
  total_capacity : number;
  total_occupancy : number;
  overall_occupancy_rate : number;
  rooms_full : number;
  rooms_empty : number;
  rooms_partial : number;
  by_type : list (group_stats string);
  by_floor : list (group_stats Z)
}.

Definition group_rate {K} (row : group_row K) : group_stats K :=
  let cap := parseInt (gr_capacity row) in
  let occ := parseInt (gr_occupancy row) in
  mkGroupStats (gr_key row) (parseInt (gr_count row)) cap occ
               (occupancy_rate occ cap).

Definition GET_analytics_rooms (overall : overall_row)
    (byType : list (group_row string)) (byFloor : list (group_row Z))
  : RoomStats :=
  let totalCapacity := parseInt (or_total_capacity overall) in
  let totalOccupancy := parseInt (or_total_occupancy overall) in
  mkRoomStats (parseInt (or_total_rooms overall)) totalCapacity totalOccupancy
              (occupancy_rate totalOccupancy totalCapacity)
              (parseInt (or_rooms_full overall))
              (parseInt (or_rooms_empty overall))
              (parseInt (or_rooms_partial overall))
              (map group_rate byType) (map group_rate byFloor).

(** GET /api/analytics/resolution:
    [totalComplaints > 0 ? Math.round((resolvedComplaints / totalComplaints)
    * 100) : 0]. *)
Definition resolution_rate (total_complaints resolved_complaints : Z) : number :=
  let totalComplaints := parseInt total_complaints in
  let resolvedComplaints := parseInt resolved_complaints in
  if js_gt totalComplaints (parseInt 0)
  then Math_round (js_mul (js_div resolvedComplaints totalComplaints)
                          (parseInt 100))
  else parseInt 0.

Definition is_nan (x : number) : bool :=
  match x with S754_nan => true | _ => false end.

Definition is_infinite (x : number) : bool :=
  match x with S754_infinity _ => true | _ => false end.

(** The rates the database computes itself, in [CASE] expressions of the
    hostel and trend queries and of the view [hostel_complaint_summary].  The
    [numeric] type of the database, its literal [0] and its rounded quotients
    are those of PostgreSQL; [parseFloat(x.toFixed(2))] is the JavaScript
    engine's. *)
Section DatabaseArithmetic.

Variable numeric : Type.
Variable numeric_zero : numeric.
(** [ROUND(a::numeric / b, 2)] and [ROUND((a::numeric / b) * 100, 2)]. *)
Variable round_ratio : Z -> Z -> numeric.
Variable round_percent : Z -> Z -> numeric.
Variable toFixed2 : number -> number.

(** [x > 0] on a nullable integer: NULL is not true. *)
Definition sql_positive (x : option Z) : bool :=
  match x with
  | Some n => 0 <? n
  | None => false
  end.

Definition sql_value (x : option Z) : Z :=
  match x with Some n => n | None => 0 end.

(** GET /api/analytics/hostels, SQL side: [CASE WHEN SUM(r.capacity) > 0 THEN
    ROUND((SUM(r.current_occupancy)::numeric / SUM(r.capacity)) * 100, 2) ELSE
    0 END as occupancy_rate]; a hostel without rooms has NULL sums. *)
Definition hostel_occupancy_rate (sum_occupancy sum_capacity : option Z)
  : numeric :=
  if sql_positive sum_capacity
  then round_percent (sql_value sum_occupancy) (sql_value sum_capacity)
  else numeric_zero.

(** GET /api/analytics/hostels, handler side: [totalRooms > 0 ?
    parseFloat((totalComplaints / totalRooms).toFixed(2)) : 0]. *)
Definition complaints_per_room (total_complaints total_rooms : Z) : number :=
  let totalComplaints := parseInt total_complaints in
  let totalRooms := parseInt total_rooms in
  if js_gt totalRooms (parseInt 0)
  then toFixed2 (js_div totalComplaints totalRooms)
  else parseInt 0.

(** GET /api/analytics/trends: [CASE WHEN COUNT( * ) > 0 THEN ROUND(COUNT( * )
    FILTER (...)::numeric / COUNT( * ) * 100, 2) ELSE 0 END as resolution_rate]. *)
Definition trend_resolution_rate (resolved count : Z) : numeric :=
  if 0 <? count then round_percent resolved count else numeric_zero.

(** View [hostel_complaint_summary]: [CASE WHEN h.total_rooms > 0 THEN
    ROUND(COUNT(DISTINCT c.id)::DECIMAL / h.total_rooms, 2) ELSE 0 END] and
    [CASE WHEN COALESCE(SUM(r.current_occupancy), 0) > 0 THEN
    ROUND(COUNT(DISTINCT c.id)::DECIMAL / SUM(r.current_occupancy), 2) ELSE 0
    END]. *)
Definition view_complaints_per_room (complaint_count : Z)
    (hostel_total_rooms : option Z) : numeric :=
  if sql_positive hostel_total_rooms
  then round_ratio complaint_count (sql_value hostel_total_rooms)
  else numeric_zero.

Definition view_complaints_per_student (complaint_count : Z)
    (sum_occupancy : option Z) : numeric :=
  if 0 <? sql_value sum_occupancy
  then round_ratio complaint_count (sql_value sum_occupancy)
  else numeric_zero.

End DatabaseArithmetic.

(* ------------------------------------------------------------------ *)
(** ** Requests against the service, and the states it can reach *)

Inductive request :=
| Assign (today : Z) (body : allocation_body)
| Checkout (today : Z) (id : option Z)
| UpdateAllocation (id : option Z) (body : allocation_update_body)
| DeactivateStudent (today : Z) (id : option Z)
| CreateComplaint (now : Z) (body : complaint_body)
| UpdateComplaint (now : Z) (id : option Z) (body : complaint_update_body).

(** The databases a request commits, one per writing statement, in order. *)
Definition committed (rq : request) (d : db) : list db :=
  match rq with
  | Assign today body => snd (POST_allocations today body d)
  | Checkout today id => snd (DELETE_allocation today id d)
  | UpdateAllocation id body => snd (PUT_allocation id body d)
  | DeactivateStudent today id => snd (DELETE_student today id d)
  | CreateComplaint now body => snd (POST_complaints now body d)
  | UpdateComplaint now id body => snd (PUT_complaint now id body d)
  end.

(** What the schema guarantees of any stored database: the CHECK constraints
    of [rooms] and the partial unique index of [allocations]. *)
Definition occupancy_in_bounds (r : room) : Prop :=
  0 <= current_occupancy r <= capacity r.

Definition rooms_in_bounds (d : db) : Prop :=
  Forall occupancy_in_bounds (rooms d).

Definition active_count (sid : Z) (d : db) : nat :=
  List.length (filter (active_for sid) (allocations d)).

Definition one_active_allocation (d : db) : Prop :=
  forall sid, (active_count sid d <= 1)%nat.

Definition schema_ok (d : db) : Prop :=
  rooms_in_bounds d /\ one_active_allocation d.

(** A reachable state is a stored database, or any state a request commits
    from a reachable one, the states between its statements included. *)
Inductive reachable : db -> Prop :=
| reachable_stored d : schema_ok d -> reachable d
| reachable_commit d rq d' :
    reachable d -> In d' (committed rq d) -> reachable d'.

(* ------------------------------------------------------------------ *)
(** ** A small hostel, used in the examples *)

Definition sample_db : db :=
  mkDb [mkHostel 1 male; mkHostel 2 female]
       [mkRoom 1 1 2 0 true; mkRoom 2 1 4 0 true; mkRoom 3 1 1 0 true;
        mkRoom 4 2 2 0 true]
       [mkStudent 1 male true; mkStudent 2 male true; mkStudent 3 female true;
        mkStudent 4 male false]
       [] [mkStaff 5 true; mkStaff 6 false] [] [] 1 1 1 None.

Definition assign_body (sid rid : Z) : allocation_body :=
  mkAllocationBody (Some sid) (Some rid) None None.

(** The same hostel with residents: students 1 and 2 share room 2, students
    5 and 6 fill room 4, student 7 has no room. *)
Definition occupied_db : db :=
  mkDb [mkHostel 1 male; mkHostel 2 female]
       [mkRoom 1 1 2 0 true; mkRoom 2 1 4 2 true; mkRoom 3 1 1 0 true;
        mkRoom 4 1 2 2 true]
       [mkStudent 1 male true; mkStudent 2 male true; mkStudent 5 male true;
        mkStudent 6 male true; mkStudent 7 male true]
       [mkAllocation 1 1 2 1 None None true None;
        mkAllocation 2 2 2 1 None None true None;
        mkAllocation 3 5 4 1 None None true None;
        mkAllocation 4 6 4 1 None None true None]
       [mkStaff 5 true] [] [] 5 1 1 None.

Definition occupancy_of (rid : Z) (d : db) : option Z :=
  option_map current_occupancy (find_room rid d).

(** The database after a list of requests, each run to its end. *)
Definition run_all (rqs : list request) (d : db) : db :=
  fold_left (fun d rq => last (committed rq d) d) rqs d.

(** Student 1 assigned to room 2 of the empty hostel. *)
Definition housed_db : db :=
  run_all [Assign 10 (assign_body 1 2)] sample_db.

(** A complaint of student 1 about room 1, and later requests on it. *)
Definition fan_complaint (prio : option Z) : complaint_body :=
  mkComplaintBody (Some 1) (Some 1) (Some "electrical") (Some "Fan")
                  (Some "The fan does not turn") prio.

Definition status_request (st : string) : complaint_update_body :=
  mkComplaintUpdateBody (Some st) Undefined Undefined None.

Definition assign_request (n : Z) : complaint_update_body :=
  mkComplaintUpdateBody (Some "assigned") (Value n) Undefined None.

Definition unassign_request : complaint_update_body :=
  mkComplaintUpdateBody None Null Undefined None.

Definition priority_request (p : Z) : complaint_update_body :=
  mkComplaintUpdateBody None Undefined Undefined (Some p).

Definition ticket_db : db :=
  run_all [CreateComplaint 30 (fan_complaint (Some 2))] sample_db.

Definition assigned_db : db :=
  run_all [UpdateComplaint 40 (Some 1) (assign_request 5)] ticket_db.

Definition reassigned_db : db :=
  run_all [UpdateComplaint 50 (Some 1) (status_request "in_progress");
           UpdateComplaint 60 (Some 1) (status_request "assigned")]
          assigned_db.

(** ** Vocabulary of the proofs *)

(** A statement that only writes [rooms] through the checked update keeps
    every other table. *)
Definition same_but_rooms (d d' : db) : Prop :=
  hostels d' = hostels d /\ students d' = students d
  /\ allocations d' = allocations d
  /\ maintenance_staff d' = maintenance_staff d
  /\ complaints d' = complaints d /\ complaint_logs d' = complaint_logs d
  /\ allocations_id_seq d' = allocations_id_seq d
  /\ complaints_id_seq d' = complaints_id_seq d
  /\ complaint_logs_id_seq d' = complaint_logs_id_seq d
  /\ app_current_user d' = app_current_user d.

(** The complaint statements write [complaints] and [complaint_logs] only. *)
Definition same_ledger (d d' : db) : Prop :=
  rooms d' = rooms d /\ allocations d' = allocations d.

(** The row an [UPDATE complaints] stores for [c]: the SET list applied, then
    the trigger's timestamps. *)
Definition updated_row (now : Z) (us : list assignment) (c : complaint)
  : complaint :=
  touch now (stamp_status now c (fold_left assign_column us c)).

(** The log row of a status change from [c] to [c'], written when the log
    sequence stands at [d]'s. *)
Definition change_log (now : Z) (d : db) (c c' : complaint) : complaint_log :=
  mkLog (complaint_logs_id_seq d) (complaint_id c') (Some (status c))
        (status c') (current_user d) (status_change_note c') now.

Definition complaints_pk (d : db) : Prop :=
  NoDup (map complaint_id (complaints d)).

(** A statement, and a handler body, keep a property [P] of the database:
    whatever they commit from a state with [P] has [P]. *)
Definition stmt_keeps (P : db -> Prop) {A} (stmt : db -> result (A * db))
  : Prop :=
  forall d a d', P d -> stmt d = Ok (a, d') -> P d'.

Definition handler_keeps (P : db -> Prop) {A} (h : handler A) : Prop :=
  forall d, P d -> Forall P (snd (h d)).

(** The HTTP status of a response, and the status a request is answered
    with. *)
Definition status_code {A} (r : response A) : Z :=
  match r with
  | Success s _ => s
  | Failure s _ => s
  end.

Definition answer (rq : request) (d : db) : Z :=
  match rq with
  | Assign today body => status_code (fst (POST_allocations today body d))
  | Checkout today id => status_code (fst (DELETE_allocation today id d))
  | UpdateAllocation id body => status_code (fst (PUT_allocation id body d))
  | DeactivateStudent today id => status_code (fst (DELETE_student today id d))
  | CreateComplaint now body => status_code (fst (POST_complaints now body d))
  | UpdateComplaint now id body =>
      status_code (fst (PUT_complaint now id body d))
  end.

Definition capacity_of (rid : Z) (d : db) : option Z :=
  option_map capacity (find_room rid d).

(** What PUT /api/allocations/[id] cannot write of an allocation. *)
Definition allocation_key (a : allocation)
  : Z * Z * Z * Z * option Z * bool :=
  (allocation_id a, a_student_id a, a_room_id a, allocation_date a,
   actual_checkout a, is_active a).

(** A stored room and a stored allocation satisfy the CHECK constraints of
    their tables. *)
Definition room_ok (r : room) : Prop :=
  0 < capacity r <= 10 /\ 0 <= current_occupancy r <= capacity r.

Definition stored_ok (d : db) : Prop :=
  Forall room_ok (rooms d)
  /\ Forall (fun a => valid_checkout_dates a = true) (allocations d).

(** How a stored allocation, and a stored complaint, may differ after later
    requests. *)
Definition allocation_evolves (a a' : allocation) : Prop :=
  allocation_id a' = allocation_id a /\ a_student_id a' = a_student_id a
  /\ a_room_id a' = a_room_id a /\ allocation_date a' = allocation_date a
  /\ (is_active a' = true -> is_active a = true).

Definition complaint_evolves (c c' : complaint) : Prop :=
  complaint_id c' = complaint_id c /\ c_student_id c' = c_student_id c
  /\ c_room_id c' = c_room_id c /\ category c' = category c
  /\ title c' = title c /\ description c' = description c
  /\ created_at c' = created_at c.

(** The rows of [l] are still there, in order and as [R] allows, followed by
    the rows added since. *)
Definition extends {A} (R : A -> A -> Prop) (l l' : list A) : Prop :=
  exists kept added, l' = kept ++ added /\ Forall2 R l kept.

Definition history (d d' : db) : Prop :=
  extends allocation_evolves (allocations d) (allocations d')
  /\ extends complaint_evolves (complaints d) (complaints d')
  /\ extends eq (complaint_logs d) (complaint_logs d').

Definition priorities_in_range (d : db) : Prop :=
  Forall (fun c => 1 <= priority c <= 5) (complaints d).

(** The status the log shows for complaint [cid]: the new status of the last
    row written for it, none when the log has no row for it. *)
Definition logged_status (cid : Z) (logs : list complaint_log)
  : option complaint_status :=
  fold_left (fun acc l =>
               if log_complaint_id l =? cid then Some (new_status l) else acc)
            logs None.

(** The log agrees with the table: for every stored complaint the last log
    row shows the status the complaint has. *)
Definition log_agrees (d : db) : Prop :=
  forall c, In c (complaints d) ->
    logged_status (complaint_id c) (complaint_logs d) = Some (status c).

(* ------------------------------------------------------------------ *)
(** ** Pagination of the list handlers *)

Definition NaN : number := S754_nan.

Definition js_sub : number -> number -> number := SFsub prec emax.

(** [Math.max(a, b)]: NaN when either argument is, and +0 above -0. *)
Definition Math_max (a b : number) : number :=
  if is_nan a || is_nan b then NaN
  else if SFltb a b then b
  else if SFltb b a then a
  else match a with
       | S754_zero true => b
       | _ => a
       end.

(** [Math.min(a, b)]: NaN when either argument is, and -0 below +0. *)
Definition Math_min (a b : number) : number :=
  if is_nan a || is_nan b then NaN
  else if SFltb a b then a
  else if SFltb b a then b
  else match a with
       | S754_zero false => b
       | _ => a
       end.

(** [parseInt(searchParams.get(name) || dflt)]: [param] is [None] for a
    parameter that is absent or empty, where the default text is parsed, and
    [Some p] for a text that [parseInt] reads as [p], NaN included. *)
Definition parsed_or (dflt : Z) (param : option number) : number :=
  match param with
  | Some p => p
  | None => parseInt dflt
  end.

(** [const page = Math.max(1, parseInt(searchParams.get('page') || '1'))]. *)
Definition page_of (param : option number) : number :=
  Math_max (parseInt 1) (parsed_or 1 param).

(** [const limit = Math.min(100, Math.max(1,
    parseInt(searchParams.get('limit') || '20')))]. *)
Definition limit_of (dflt : Z) (param : option number) : number :=
  Math_min (parseInt 100) (Math_max (parseInt 1) (parsed_or dflt param)).

(** [const offset = (page - 1) * limit]. *)
Definition offset_of (page limit : number) : number :=
  js_mul (js_sub page (parseInt 1)) limit.

(* ================================================================== *)
(** * Properties *)

Lemma gender_eqb_eq a b : gender_eqb a b = true <-> a = b.
Proof. destruct a, b; simpl; split; congruence. Qed.

Lemma status_eqb_eq a b : status_eqb a b = true <-> a = b.
Proof. destruct a, b; simpl; split; congruence. Qed.

Lemma status_eqb_refl a : status_eqb a a = true.
Proof. now destruct a. Qed.

Lemma status_eqb_neq a b : status_eqb a b = false <-> a <> b.
Proof. destruct a, b; simpl; split; congruence. Qed.

(** ** Statements and what they leave alone *)

Lemma room_checks_ok r r' :
  room_checks r = Ok r' -> r' = r /\ occupancy_in_bounds r.
Proof.
  unfold room_checks, occupancy_in_bounds.
  destruct ((0 <? capacity r) && (capacity r <=? 10)); simpl; try discriminate.
  destruct (0 <=? current_occupancy r) eqn:H0; simpl; try discriminate.
  destruct (current_occupancy r <=? capacity r) eqn:H1; simpl; try discriminate.
  intros [= <-]. split; [reflexivity | lia].
Qed.

Lemma update_room_rows_bounds rid f rs rs' :
  Forall occupancy_in_bounds rs ->
  update_room_rows rid f rs = Ok rs' ->
  Forall occupancy_in_bounds rs'.
Proof.
  revert rs'. induction rs as [|r rs IH]; simpl; intros rs' Hall Hup.
  - injection Hup as <-. constructor.
  - inversion Hall as [|? ? Hr Hrs]; subst.
    destruct (room_id r =? rid).
    + destruct (room_checks _) as [r1|] eqn:Hc; simpl in Hup; try discriminate.
      destruct (update_room_rows rid f rs) as [rs1|] eqn:Hrest; simpl in Hup;
        try discriminate.
      injection Hup as <-. apply room_checks_ok in Hc as [-> Hb].
      constructor; [exact Hb | now apply IH].
    + destruct (update_room_rows rid f rs) as [rs1|] eqn:Hrest; simpl in Hup;
        try discriminate.
      injection Hup as <-. constructor; [assumption | now apply IH].
Qed.

Lemma same_but_rooms_refl d : same_but_rooms d d.
Proof. repeat split. Qed.

Lemma same_but_rooms_trans d1 d2 d3 :
  same_but_rooms d1 d2 -> same_but_rooms d2 d3 -> same_but_rooms d1 d3.
Proof.
  unfold same_but_rooms; intros H1 H2.
  decompose [and] H1; decompose [and] H2; repeat split; congruence.
Qed.

Lemma update_room_occupancy_spec rid f d d' :
  update_room_occupancy rid f d = Ok d' ->
  same_but_rooms d d'
  /\ (rooms_in_bounds d -> rooms_in_bounds d').
Proof.
  unfold update_room_occupancy.
  destruct (update_room_rows rid f (rooms d)) as [rs|] eqn:Hup; simpl;
    try discriminate.
  intros [= <-]. split.
  - repeat split.
  - intros Hb. unfold rooms_in_bounds; simpl.
    eapply update_room_rows_bounds; eauto.
Qed.

Lemma check_room_capacity_spec op old new d d' :
  check_room_capacity op old new d = Ok d' ->
  same_but_rooms d d'
  /\ (rooms_in_bounds d -> rooms_in_bounds d').
Proof.
  unfold check_room_capacity.
  destruct op, old as [old|];
    repeat match goal with
           | |- context [if ?b then _ else _] => destruct b
           end;
    try discriminate;
    try (intros [= <-]; split; [apply same_but_rooms_refl | tauto]);
    apply update_room_occupancy_spec.
Qed.

Lemma update_allocation_rows_spec sel set rows d tbl rtn d' :
  update_allocation_rows sel set rows d = Ok (tbl, rtn, d') ->
  tbl = map (fun a => if sel a then set a else a) rows
  /\ rtn = map set (filter sel rows)
  /\ same_but_rooms d d'
  /\ (rooms_in_bounds d -> rooms_in_bounds d').
Proof.
  revert d tbl rtn d'.
  induction rows as [|a rows IH]; cbn [update_allocation_rows map filter];
    intros d tbl rtn d'.
  - intros [= <- <- <-].
    split; [reflexivity | split; [reflexivity | split]];
      [apply same_but_rooms_refl | tauto].
  - destruct (sel a).
    + destruct (check_room_capacity TG_UPDATE (Some a) (set a) d) as [d1|] eqn:Htrg;
        simpl; try discriminate.
      destruct (valid_checkout_dates (set a)); simpl; try discriminate.
      destruct (update_allocation_rows sel set rows d1) as [[[t1 r1] d2]|] eqn:Hr;
        simpl; try discriminate.
      intros [= <- <- <-].
      apply IH in Hr as (-> & -> & Hs & Hb).
      apply check_room_capacity_spec in Htrg as [Hs1 Hb1].
      split; [reflexivity | split; [reflexivity | split]].
      * eapply same_but_rooms_trans; eauto.
      * tauto.
    + destruct (update_allocation_rows sel set rows d) as [[[t1 r1] d2]|] eqn:Hr;
        simpl; try discriminate.
      intros [= <- <- <-].
      apply IH in Hr as (-> & -> & Hs & Hb).
      split; [reflexivity | split; [reflexivity | split]]; assumption.
Qed.

Lemma update_allocations_spec sel set d rtn d' :
  update_allocations sel set d = Ok (rtn, d') ->
  allocations d' = map (fun a => if sel a then set a else a) (allocations d)
  /\ rtn = map set (filter sel (allocations d))
  /\ (rooms_in_bounds d -> rooms_in_bounds d').
Proof.
  unfold update_allocations.
  destruct (update_allocation_rows _ _ _ _) as [[[t1 r1] d2]|] eqn:Hr; simpl;
    try discriminate.
  intros [= <- <-].
  apply update_allocation_rows_spec in Hr as (-> & -> & Hs & Hb).
  split; [reflexivity | split; [reflexivity | exact Hb]].
Qed.

Lemma insert_allocation_spec today sid rid exp nts d a d' :
  insert_allocation today sid rid exp nts d = Ok (a, d') ->
  allocations d' = allocations d ++ [a]
  /\ a_student_id a = sid /\ a_room_id a = rid /\ is_active a = true
  /\ existsb (active_for sid) (allocations d) = false
  /\ (rooms_in_bounds d -> rooms_in_bounds d').
Proof.
  unfold insert_allocation.
  destruct (check_room_capacity _ _ _ _) as [d1|] eqn:Htrg; simpl;
    try discriminate.
  apply check_room_capacity_spec in Htrg as [Hs Hb].
  destruct Hs as (_ & _ & Hal & _).
  repeat match goal with
         | |- context [if ?b then _ else _] => destruct b eqn:?
         end; try discriminate.
  intros [= <- <-]. simpl. rewrite Hal in *.
  repeat split; auto.
Qed.

Lemma insert_log_spec cid old new nts now d d' :
  insert_log cid old new nts now d = Ok d' ->
  d' = with_new_log (mkLog (complaint_logs_id_seq d) cid old new
                           (current_user d) nts now) d.
Proof.
  unfold insert_log.
  repeat match goal with
         | |- context [if ?b then _ else _] => destruct b
         end; try discriminate.
  now intros [= <-].
Qed.

Lemma insert_complaint_ledger now sid rid cat ttl dsc prio d c d' :
  insert_complaint now sid rid cat ttl dsc prio d = Ok (c, d') ->
  same_ledger d d'.
Proof.
  unfold insert_complaint, log_complaint_creation.
  repeat match goal with
         | |- context [if ?b then _ else _] => destruct b
         end; try discriminate.
  destruct (insert_log _ _ _ _ _ _) as [d2|] eqn:Hl; simpl; try discriminate.
  intros [= <- <-]. apply insert_log_spec in Hl. subst d2. now split.
Qed.

Lemma log_complaint_status_change_ledger now old new d new' d' :
  log_complaint_status_change now old new d = Ok (new', d') ->
  same_ledger d d' /\ complaints d' = complaints d.
Proof.
  unfold log_complaint_status_change.
  destruct (negb _).
  - destruct (insert_log _ _ _ _ _ _) as [d2|] eqn:Hl; simpl; try discriminate.
    intros [= <- <-]. apply insert_log_spec in Hl. subst d2. now repeat split.
  - intros [= <- <-]. now repeat split.
Qed.

Lemma update_complaint_rows_ledger now cid us rows d tbl rtn d' :
  update_complaint_rows now cid us rows d = Ok (tbl, rtn, d') ->
  same_ledger d d' /\ complaints d' = complaints d.
Proof.
  revert d tbl rtn d'.
  induction rows as [|c rows IH]; cbn [update_complaint_rows]; intros d tbl rtn d'.
  - intros [= <- <- <-]. now repeat split.
  - destruct (complaint_id c =? cid).
    + destruct (log_complaint_status_change _ _ _ _) as [[new d1]|] eqn:Ht;
        simpl; try discriminate.
      destruct (negb (priority_check new)); try discriminate.
      destruct (negb (staff_fk new d1)); try discriminate.
      destruct (update_complaint_rows now cid us rows d1) as [[[t1 r1] d2]|] eqn:Hr;
        simpl; try discriminate.
      intros [= <- <- <-].
      apply IH in Hr as [[Hr1 Hr2] Hr3].
      apply log_complaint_status_change_ledger in Ht as [[Ht1 Ht2] Ht3].
      repeat split; congruence.
    + destruct (update_complaint_rows now cid us rows d) as [[[t1 r1] d2]|] eqn:Hr;
        simpl; try discriminate.
      intros [= <- <- <-]. now apply IH in Hr.
Qed.

Lemma update_complaint_ledger now cid us d rtn d' :
  update_complaint now cid us d = Ok (rtn, d') -> same_ledger d d'.
Proof.
  unfold update_complaint.
  destruct (repeated_column us); try discriminate.
  destruct (update_complaint_rows _ _ _ _ _) as [[[t1 r1] d2]|] eqn:Hr;
    simpl; try discriminate.
  intros [= <- <-]. apply update_complaint_rows_ledger in Hr as [[H1 H2] _].
  split; simpl; assumption.
Qed.

(** ** Counting a student's active allocations *)

Lemma active_count_app sid l1 l2 :
  List.length (filter (active_for sid) (l1 ++ l2))
  = (List.length (filter (active_for sid) l1)
     + List.length (filter (active_for sid) l2))%nat.
Proof. now rewrite filter_app, length_app. Qed.

Lemma existsb_false_count sid l :
  existsb (active_for sid) l = false ->
  List.length (filter (active_for sid) l) = 0%nat.
Proof.
  induction l as [|a l IH]; simpl; [reflexivity|].
  destruct (active_for sid a); simpl; [discriminate | exact IH].
Qed.

(** An update that activates no row and moves no row to another student
    cannot raise any student's count. *)
Lemma count_after_update sid (sel : allocation -> bool)
    (set : allocation -> allocation) rows :
  (forall a, active_for sid (set a) = true -> active_for sid a = true) ->
  (List.length (filter (active_for sid)
                       (map (fun a => if sel a then set a else a) rows))
   <= List.length (filter (active_for sid) rows))%nat.
Proof.
  intros Hset. induction rows as [|a rows IH]; simpl; [lia|].
  destruct (sel a).
  - destruct (active_for sid (set a)) eqn:Hs.
    + rewrite (Hset _ Hs). simpl. lia.
    + destruct (active_for sid a); simpl; lia.
  - destruct (active_for sid a); simpl; lia.
Qed.

Lemma deactivated_not_active today sid a :
  active_for sid (deactivated today a) = true -> active_for sid a = true.
Proof.
  unfold active_for, deactivated; simpl. now rewrite andb_false_r.
Qed.

Lemma set_fields_active exp nts sid a :
  active_for sid (set_allocation_fields exp nts a) = active_for sid a.
Proof. reflexivity. Qed.

(** ** Handlers: what every committed state satisfies *)

Section HandlerInvariant.

Variable P : db -> Prop.

Lemma last_keeps (tr : list db) d : P d -> Forall P tr -> P (last tr d).
Proof.
  intros Hd Htr. revert d Hd.
  induction Htr as [|x tr Hx Htr IH]; intros d Hd; [exact Hd|].
  simpl. destruct tr; [exact Hx | now apply IH].
Qed.

Lemma ret_keeps {A} (a : A) : handler_keeps P (ret a).
Proof. intros d _. constructor. Qed.

Lemma select_keeps {A} (q : db -> A) : handler_keeps P (select q).
Proof. intros d _. constructor. Qed.

Lemma exec_keeps {A} (stmt : db -> result (A * db)) :
  stmt_keeps P stmt -> handler_keeps P (exec stmt).
Proof.
  intros Hs d Hd. unfold exec.
  destruct (stmt d) as [[a d']|] eqn:E; simpl; repeat constructor.
  eapply Hs; eauto.
Qed.

Lemma bind_keeps {A B} (m : handler A) (k : A -> handler B) :
  handler_keeps P m -> (forall a, handler_keeps P (k a)) -> handler_keeps P (bind m k).
Proof.
  intros Hm Hk d Hd. unfold bind.
  specialize (Hm d Hd).
  destruct (m d) as [[a|e] tr]; simpl in *; [|exact Hm].
  specialize (Hk a (last tr d) (last_keeps tr d Hd Hm)).
  destruct (k a (last tr d)) as [r tr']; simpl in *.
  apply Forall_app; split; assumption.
Qed.

Lemma try_catch_keeps {A} (h : handler (response A)) d :
  handler_keeps P h -> P d -> Forall P (snd (try_catch h d)).
Proof.
  intros Hh Hd. specialize (Hh d Hd). unfold try_catch.
  destruct (h d) as [[r|e] tr]; exact Hh.
Qed.

End HandlerInvariant.

(** ** The schema constraints hold in every committed state *)

Lemma one_active_same d d' :
  allocations d' = allocations d ->
  one_active_allocation d -> one_active_allocation d'.
Proof.
  intros Hal H sid. unfold active_count. rewrite Hal. apply H.
Qed.

Lemma same_ledger_schema d d' : same_ledger d d' -> schema_ok d -> schema_ok d'.
Proof.
  intros [Hr Ha] [Hb Ho]. split.
  - unfold rooms_in_bounds. now rewrite Hr.
  - now apply (one_active_same d).
Qed.

Lemma update_allocations_schema sel set :
  (forall sid a, active_for sid (set a) = true -> active_for sid a = true) ->
  stmt_keeps schema_ok (update_allocations sel set).
Proof.
  intros Hset d rtn d' [Hb Ho] Hup.
  apply update_allocations_spec in Hup as (Hal & _ & Hb').
  split; [now apply Hb'|].
  intros sid. unfold active_count. rewrite Hal.
  etransitivity; [apply count_after_update, Hset | apply Ho].
Qed.

Lemma deactivate_student_allocations_schema today sid :
  stmt_keeps schema_ok (deactivate_student_allocations today sid).
Proof.
  apply update_allocations_schema. intros; eapply deactivated_not_active; eauto.
Qed.

Lemma deactivate_allocation_schema today aid :
  stmt_keeps schema_ok (deactivate_allocation today aid).
Proof.
  apply update_allocations_schema. intros; eapply deactivated_not_active; eauto.
Qed.

Lemma update_allocation_fields_schema aid exp nts :
  stmt_keeps schema_ok (update_allocation_fields aid exp nts).
Proof. apply update_allocations_schema. intros sid a H; exact H. Qed.

Lemma insert_allocation_schema today sid rid exp nts :
  stmt_keeps schema_ok (insert_allocation today sid rid exp nts).
Proof.
  intros d a d' [Hb Ho] Hin.
  apply insert_allocation_spec in Hin as (Hal & Hs & _ & Hact & Hnone & Hb').
  split; [now apply Hb'|].
  intros sid'. unfold active_count. rewrite Hal, active_count_app. simpl.
  destruct (active_for sid' a) eqn:Ha; simpl.
  - assert (sid' = sid) as ->.
    { unfold active_for in Ha. apply andb_prop in Ha as [Ha _]. lia. }
    rewrite (existsb_false_count _ _ Hnone). lia.
  - specialize (Ho sid'). unfold active_count in Ho. lia.
Qed.

Lemma occupancy_update_schema rid f d d' :
  update_room_occupancy rid f d = Ok d' -> schema_ok d -> schema_ok d'.
Proof.
  intros Hup [Hb Ho].
  apply update_room_occupancy_spec in Hup as [Hs Hb'].
  split; [now apply Hb'|].
  destruct Hs as (_ & _ & Hal & _). now apply (one_active_same d).
Qed.

Lemma increment_occupancy_schema rid : stmt_keeps schema_ok (increment_occupancy rid).
Proof.
  intros d a d' Hd. unfold increment_occupancy.
  destruct (update_room_occupancy _ _ _) as [d1|] eqn:Hup; simpl; try discriminate.
  intros [= _ <-]. eapply occupancy_update_schema; eauto.
Qed.

Lemma decrement_occupancy_schema rid : stmt_keeps schema_ok (decrement_occupancy rid).
Proof.
  intros d a d' Hd. unfold decrement_occupancy.
  destruct (update_room_occupancy _ _ _) as [d1|] eqn:Hup; simpl; try discriminate.
  intros [= _ <-]. eapply occupancy_update_schema; eauto.
Qed.

Lemma deactivate_student_schema sid : stmt_keeps schema_ok (deactivate_student sid).
Proof.
  intros d a d' Hd [= _ <-]. apply (same_ledger_schema d); [now split | exact Hd].
Qed.

Lemma insert_complaint_schema now sid rid cat ttl dsc prio :
  stmt_keeps schema_ok (insert_complaint now sid rid cat ttl dsc prio).
Proof.
  intros d a d' Hd Hin. apply insert_complaint_ledger in Hin.
  now apply (same_ledger_schema d).
Qed.

Lemma update_complaint_schema now cid us :
  stmt_keeps schema_ok (update_complaint now cid us).
Proof.
  intros d a d' Hd Hup. apply update_complaint_ledger in Hup.
  now apply (same_ledger_schema d).
Qed.

Create HintDb keeps.

#[local] Hint Resolve ret_keeps select_keeps exec_keeps
  deactivate_student_allocations_schema deactivate_allocation_schema
  update_allocation_fields_schema insert_allocation_schema
  increment_occupancy_schema decrement_occupancy_schema
  deactivate_student_schema insert_complaint_schema update_complaint_schema
  : keeps.

(** Walks a handler body: a bind splits, a branch is taken apart, a leaf is a
    [ret], a [select] or an [exec] of a statement that keeps the schema. *)
Ltac keeps_step :=
  match goal with
  | |- handler_keeps _ (bind _ _) => apply bind_keeps; [|intros ?]
  | |- handler_keeps _ (if ?b then _ else _) => destruct b
  | |- handler_keeps _ (match ?x with _ => _ end) => destruct x
  | |- handler_keeps _ _ => solve [auto with keeps]
  end.

Lemma POST_allocations_keeps today body :
  handler_keeps schema_ok (POST_allocations_body today body).
Proof. unfold POST_allocations_body. repeat keeps_step. Qed.

Lemma DELETE_allocation_keeps today id :
  handler_keeps schema_ok (DELETE_allocation_body today id).
Proof. unfold DELETE_allocation_body. repeat keeps_step. Qed.

Lemma PUT_allocation_keeps id body :
  handler_keeps schema_ok (PUT_allocation_body id body).
Proof. unfold PUT_allocation_body. repeat keeps_step. Qed.

Lemma DELETE_student_keeps today id :
  handler_keeps schema_ok (DELETE_student_body today id).
Proof. unfold DELETE_student_body. repeat keeps_step. Qed.

Lemma POST_complaints_keeps now body :
  handler_keeps schema_ok (POST_complaints_body now body).
Proof. unfold POST_complaints_body. repeat keeps_step. Qed.

Lemma PUT_complaint_keeps now id body :
  handler_keeps schema_ok (PUT_complaint_body now id body).
Proof. unfold PUT_complaint_body. repeat keeps_step. Qed.

Lemma committed_schema rq d :
  schema_ok d -> Forall schema_ok (committed rq d).
Proof.
  intros Hd. destruct rq; simpl;
    unfold POST_allocations, DELETE_allocation, PUT_allocation, DELETE_student,
           POST_complaints, PUT_complaint;
    apply try_catch_keeps; auto using POST_allocations_keeps,
      DELETE_allocation_keeps, PUT_allocation_keeps, DELETE_student_keeps,
      POST_complaints_keeps, PUT_complaint_keeps.
Qed.

Lemma reachable_schema d : reachable d -> schema_ok d.
Proof.
  induction 1 as [d Hd | d rq d' _ IH Hin]; [exact Hd|].
  pose proof (committed_schema rq d IH) as Hall.
  rewrite Forall_forall in Hall. now apply Hall.
Qed.

Lemma last_In (x : db) tr d : In (last (x :: tr) d) (x :: tr).
Proof.
  revert x. induction tr as [|y tr IH]; intros x; [now left|].
  right. apply (IH y).
Qed.

Lemma sample_db_schema : schema_ok sample_db.
Proof.
  split.
  - unfold rooms_in_bounds, occupancy_in_bounds; simpl.
    repeat constructor; simpl; lia.
  - intros sid. unfold active_count; simpl. lia.
Qed.

Lemma run_all_reachable rqs d : reachable d -> reachable (run_all rqs d).
Proof.
  revert d. induction rqs as [|rq rqs IH]; intros d Hd; [exact Hd|].
  simpl. apply IH.
  destruct (committed rq d) as [|x tr] eqn:E; [exact Hd|].
  apply (reachable_commit d rq); [exact Hd|].
  rewrite E. apply last_In.
Qed.

(** ** Occupancy bounds and the single active allocation *)

(** C1: in every reachable state, the states between the statements of an
    assignment or a checkout included, every room has
    [0 <= current_occupancy <= capacity]: each write of the counter, by the
    capacity trigger or by a handler, either keeps the bounds or is refused
    by the CHECK constraints of [rooms]. *)
Theorem occupancy_within_capacity d r :
  reachable d -> In r (rooms d) ->
  0 <= current_occupancy r <= capacity r.
Proof.
  intros Hd Hr. apply reachable_schema in Hd as [Hb _].
  unfold rooms_in_bounds in Hb. rewrite Forall_forall in Hb. now apply Hb.
Qed.

Lemma occupancy_within_capacity_witness :
  0 <= current_occupancy (mkRoom 2 1 4 4 true)
    <= capacity (mkRoom 2 1 4 4 true).
Proof.
  apply (occupancy_within_capacity
           (run_all [Assign 10 (assign_body 1 2); Assign 11 (assign_body 2 2)]
                    sample_db)).
  - apply run_all_reachable, reachable_stored, sample_db_schema.
  - vm_compute. right; left; reflexivity.
Defined.

(** C2: in every reachable state a student has no or one allocation row with
    [is_active = true]; assignment (deactivate, then insert), checkout and
    allocation update keep it so, and the partial unique index refuses an
    insert that would not. *)
Theorem at_most_one_active_allocation d sid :
  reachable d -> (active_count sid d <= 1)%nat.
Proof.
  intros Hd. apply reachable_schema in Hd as [_ Ho]. apply Ho.
Qed.

Lemma at_most_one_active_allocation_witness :
  (active_count 1
     (run_all [Assign 10 (assign_body 1 2); Assign 11 (assign_body 1 1)]
              sample_db) <= 1)%nat.
Proof.
  apply at_most_one_active_allocation.
  apply run_all_reachable, reachable_stored, sample_db_schema.
Defined.

(** ** Running a handler body *)

Lemma bind_select {A B} (q : db -> A) (k : A -> handler B) d :
  bind (select q) k d = k (q d) d.
Proof. unfold bind, select; simpl. now destruct (k (q d) d). Qed.

Lemma bind_ret {A B} (a : A) (k : A -> handler B) d :
  bind (ret a) k d = k a d.
Proof. unfold bind, ret; simpl. now destruct (k a d). Qed.

Lemma bind_exec_ok {A B} (stmt : db -> result (A * db)) (k : A -> handler B)
    d a d' :
  stmt d = Ok (a, d') ->
  bind (exec stmt) k d = (fst (k a d'), d' :: snd (k a d')).
Proof.
  intros H. unfold bind, exec. rewrite H; simpl. now destruct (k a d').
Qed.

Lemma bind_exec_err {A B} (stmt : db -> result (A * db)) (k : A -> handler B)
    d e :
  stmt d = Err e -> bind (exec stmt) k d = (inr e, []).
Proof. intros H. unfold bind, exec. now rewrite H. Qed.

(** ** Assignment to a full room *)

Lemma select_available_room_in rid d rm g rest :
  select_available_room rid d = (rm, g) :: rest ->
  In rm (rooms d) /\ room_id rm = rid.
Proof.
  unfold select_available_room. intros H.
  assert (Hin : In (rm, g) (flat_map
            (fun r => if (room_id r =? rid) && room_is_available r
                      then map (fun h => (r, gender_allowed h))
                               (filter (fun h => hostel_id h =? room_hostel_id r)
                                       (hostels d))
                      else []) (rooms d))).
  { rewrite H. now left. }
  apply in_flat_map in Hin as (r & Hr & Hin).
  destruct ((room_id r =? rid) && room_is_available r) eqn:E; [|contradiction].
  apply in_map_iff in Hin as (h & [= -> _] & _).
  apply andb_prop in E as [E _]. split; [assumption | lia].
Qed.

Lemma select_available_room_found rid d r h :
  In r (rooms d) -> room_id r = rid -> room_is_available r = true ->
  In h (hostels d) -> hostel_id h = room_hostel_id r ->
  select_available_room rid d <> [].
Proof.
  intros Hr Hid Hav Hh Hhid Hnil.
  assert (Hin : In (r, gender_allowed h) (select_available_room rid d)).
  { unfold select_available_room. apply in_flat_map. exists r. split; [assumption|].
    rewrite Hav, andb_true_r. replace (room_id r =? rid) with true by lia.
    apply in_map_iff. exists h. split; [reflexivity|].
    apply filter_In. split; [assumption | lia]. }
  rewrite Hnil in Hin. contradiction.
Qed.

Lemma select_active_student_found sid d s :
  In s (students d) -> student_id s = sid -> student_is_active s = true ->
  select_active_student sid d <> [].
Proof.
  intros Hs Hid Hact Hnil.
  assert (Hin : In s (select_active_student sid d)).
  { apply filter_In. split; [assumption|]. rewrite Hact, andb_true_r. lia. }
  rewrite Hnil in Hin. contradiction.
Qed.

(** C4: when the room of an assignment is at full capacity
    ([current_occupancy = capacity]) the request fails and commits nothing:
    no statement has run, so the occupancy is what it was, no allocation row
    exists that did not, and the student's active allocation is still
    active.  For an active student and an available room the failure is the
    full-capacity error; a request the earlier validation rejects fails with
    that validation's error, and commits nothing either.  The answer is a 400
    for ids in the range of the id columns; an id outside it is refused by
    the database, where the handler answers 500. *)
Theorem assign_full_room_changes_nothing today sid rid exp nts d :
  (forall r, In r (rooms d) -> room_id r = rid ->
             current_occupancy r = capacity r) ->
  let run := POST_allocations today (mkAllocationBody (Some sid) (Some rid) exp nts) d in
  snd run = []
  /\ final run d = d
  /\ (int4 sid -> int4 rid -> exists e, fst run = Failure 400 (Message e))
  /\ (sid <> 0 -> rid <> 0 ->
      (exists s, In s (students d) /\ student_id s = sid
                 /\ student_is_active s = true) ->
      (exists r h, In r (rooms d) /\ room_id r = rid
                   /\ room_is_available r = true
                   /\ In h (hostels d) /\ hostel_id h = room_hostel_id r) ->
      fst run = Failure 400 (Message "Room is at full capacity")).
Proof.
  intros Hfull run.
  assert (Hcases :
    (exists e, run = (Failure 400 (Message e), []))
    /\ (sid <> 0 -> rid <> 0 ->
        select_active_student sid d <> [] ->
        select_available_room rid d <> [] ->
        run = (Failure 400 (Message "Room is at full capacity"), []))).
  { subst run. unfold POST_allocations, try_catch, POST_allocations_body.
    cbn [body_student_id body_room_id falsy_id id_of].
    destruct (sid =? 0) eqn:Hs0; cbn [orb].
    { split; [eexists; reflexivity | lia]. }
    destruct (rid =? 0) eqn:Hr0.
    { split; [eexists; reflexivity | lia]. }
    rewrite bind_select.
    destruct (select_active_student sid d) as [|stu ss] eqn:Hstu.
    { split; [eexists; reflexivity | congruence]. }
    rewrite bind_select.
    destruct (select_available_room rid d) as [|[rm g] rs] eqn:Hrm.
    { split; [eexists; reflexivity | congruence]. }
    apply select_available_room_in in Hrm as [Hin Hid].
    rewrite (Hfull rm Hin Hid), Z.leb_refl.
    split; [eexists; reflexivity | reflexivity]. }
  destruct Hcases as [[e He] Hfullcase].
  unfold final. rewrite He. cbn [fst snd last].
  repeat split; eauto.
  intros Hs Hr (s & Hs1 & Hs2 & Hs3) (r & h & Hr1 & Hr2 & Hr3 & Hh1 & Hh2).
  rewrite Hfullcase in He.
  - now injection He as <-.
  - assumption.
  - assumption.
  - eapply select_active_student_found; eauto.
  - eapply select_available_room_found; eauto.
Qed.

Lemma assign_full_room_changes_nothing_witness :
  POST_allocations 20 (mkAllocationBody (Some 7) (Some 4) None None) occupied_db
  = (Failure 400 (Message "Room is at full capacity"), [])
  /\ exists e,
       fst (POST_allocations 20 (mkAllocationBody (Some 7) (Some 4) None None)
                             occupied_db)
       = Failure 400 (Message e).
Proof.
  assert (Hfull : forall r, In r (rooms occupied_db) -> room_id r = 4 ->
                            current_occupancy r = capacity r).
  { intros r Hin Hid. simpl in Hin.
    destruct Hin as [<-|[<-|[<-|[<-|[]]]]]; simpl in Hid; try discriminate.
    reflexivity. }
  destruct (assign_full_room_changes_nothing 20 7 4 None None occupied_db Hfull)
    as (Hnone & _ & Hanswer & Hfullerr).
  split.
  - rewrite (surjective_pairing (POST_allocations _ _ _)), Hnone, Hfullerr.
    + reflexivity.
    + discriminate.
    + discriminate.
    + exists (mkStudent 7 male true). simpl. intuition.
    + exists (mkRoom 4 1 2 2 true), (mkHostel 1 male). simpl. intuition.
  - apply Hanswer; unfold int4; lia.
Defined.

(** ** Occupancy is counted twice *)

(** C3, the code at a re-assignment.  Student 1 is assigned to room 2 and
    then to the empty room 1 of capacity 2: the second request succeeds, the
    student ends with one active allocation, in room 1, and room 2 goes down
    by one, but room 1 goes from 0 to 2, once by the trigger on the insert and
    once more by the handler (as room 2 did at the first assignment).
    Assigned to room 3 of capacity 1 instead, the handler's own increment is
    refused by [check_occupancy] after the old allocation was deactivated and
    the new one inserted, and the request answers 500. *)
Theorem reassign_counts_new_room_twice :
  let run := POST_allocations 20 (assign_body 1 1) housed_db in
  let d' := final run housed_db in
  (exists a, fst run = Success 201 a /\ a_room_id a = 1)
  /\ map a_room_id (filter (active_for 1) (allocations housed_db)) = [2]
  /\ map a_room_id (filter (active_for 1) (allocations d')) = [1]
  /\ occupancy_of 2 sample_db = Some 0
  /\ occupancy_of 2 housed_db = Some 2 /\ occupancy_of 2 d' = Some 1
  /\ occupancy_of 1 housed_db = Some 0 /\ occupancy_of 1 d' = Some 2
  /\ let run3 := POST_allocations 20 (assign_body 1 3) housed_db in
     fst run3 = Failure 500 (Thrown (CheckViolation "check_occupancy"))
     /\ map a_room_id (filter (active_for 1)
                              (allocations (final run3 housed_db))) = [3]
     /\ occupancy_of 3 housed_db = Some 0
     /\ occupancy_of 3 (final run3 housed_db) = Some 1.
Proof.
  vm_compute. repeat split. eexists; split; reflexivity.
Qed.

(** C5, the code at a double checkout.  Allocation 1 is active in room 2
    with occupancy 2: the first checkout succeeds and the second answers
    "Allocation is already inactive" and commits nothing, but the first one
    takes the occupancy from 2 to 0, once by the trigger on the deactivation
    and once more by the handler. *)
Theorem checkout_counts_twice :
  let run1 := DELETE_allocation 20 (Some 1) occupied_db in
  let d1 := final run1 occupied_db in
  let run2 := DELETE_allocation 21 (Some 1) d1 in
  (exists a, fst run1 = Success 200 (Some a) /\ is_active a = false)
  /\ run2 = (Failure 400 (Message "Allocation is already inactive"), [])
  /\ occupancy_of 2 occupied_db = Some 2
  /\ map (occupancy_of 2) (snd run1) = [Some 1; Some 0]
  /\ occupancy_of 2 (final run2 d1) = Some 0.
Proof.
  vm_compute. repeat split. eexists; split; reflexivity.
Qed.

(** ** Complaint creation and its priority *)

(** C9, the code at priority 0.  [priority || 3] takes a supplied 0 for a
    missing value: the complaint is inserted with priority 3 and the request
    answers 201.  Negative values and values above 5 are rejected, a missing
    priority gets 3, and the PUT handler, which tests
    [priority !== undefined], does refuse 0. *)
Theorem create_accepts_priority_zero :
  (exists c d', POST_complaints 30 (fan_complaint (Some 0)) sample_db
                = (Success 201 c, [d'])
                /\ priority c = 3 /\ complaints d' = [c])
  /\ POST_complaints 30 (fan_complaint (Some (-1))) sample_db
     = (Failure 400 (Message "Priority must be between 1 (highest) and 5 (lowest)"), [])
  /\ POST_complaints 30 (fan_complaint (Some 6)) sample_db
     = (Failure 400 (Message "Priority must be between 1 (highest) and 5 (lowest)"), [])
  /\ (exists c d', POST_complaints 30 (fan_complaint None) sample_db
                   = (Success 201 c, [d']) /\ priority c = 3)
  /\ PUT_complaint 40 (Some 1) (priority_request 0) ticket_db
     = (Failure 400 (Message "Priority must be between 1 and 5"), []).
Proof.
  vm_compute. repeat split; do 2 eexists; repeat split; reflexivity.
Qed.

(** ** Timestamps of a complaint *)

(** C6 fails on a complaint that comes back to a status: complaint 1 is
    assigned at time 40, moved to in_progress at 50 and set to assigned again
    at 60, and its [assigned_at] is then 60, not the original 40. *)
Lemma reentered_status_is_stamped_again :
  map status (complaints assigned_db) = [assigned]
  /\ map assigned_at (complaints assigned_db) = [Some 40]
  /\ map status (complaints reassigned_db) = [assigned]
  /\ map assigned_at (complaints reassigned_db) = [Some 60].
Proof. vm_compute. repeat split. Qed.

(** ** Status 'assigned' and the assigned staff *)

(** C8 fails as an invariant: complaint 1 is assigned to staff 5, and a
    request with [assigned_staff_id: null] and no status is accepted and
    leaves it in status assigned with no staff.  On that complaint a request
    that names status assigned again, with no staff, is accepted too: the
    status does not change, so the guard is not reached. *)
Lemma unassign_keeps_status_assigned :
  map status (complaints assigned_db) = [assigned]
  /\ map assigned_staff_id (complaints assigned_db) = [Some 5]
  /\ (exists c d', PUT_complaint 70 (Some 1) unassign_request assigned_db
                   = (Success 200 (Some c), [d'])
                   /\ status c = assigned /\ assigned_staff_id c = None
                   /\ complaints d' = [c])
  /\ (exists c d',
        PUT_complaint 80 (Some 1)
          (mkComplaintUpdateBody (Some "assigned") Undefined Undefined (Some 1))
          (run_all [UpdateComplaint 70 (Some 1) unassign_request] assigned_db)
        = (Success 200 (Some c), [d'])
        /\ status c = assigned /\ assigned_staff_id c = None
        /\ priority c = 1).
Proof.
  vm_compute. repeat split; do 2 eexists; repeat split; reflexivity.
Qed.

(** ** What an update of a complaint stores and logs *)

Lemma fold_assign_id us c :
  complaint_id (fold_left assign_column us c) = complaint_id c.
Proof.
  revert c. induction us as [|u us IH]; intros c; [reflexivity|].
  simpl. rewrite IH. now destruct u.
Qed.

Lemma stamp_status_same now old new :
  status_eqb (status old) (status new) = true -> stamp_status now old new = new.
Proof.
  intros H. apply status_eqb_eq in H. unfold stamp_status. rewrite H.
  destruct (status new); reflexivity.
Qed.

Lemma stamp_status_fields now old new :
  status (stamp_status now old new) = status new
  /\ assigned_staff_id (stamp_status now old new) = assigned_staff_id new
  /\ resolution_notes (stamp_status now old new) = resolution_notes new
  /\ complaint_id (stamp_status now old new) = complaint_id new
  /\ priority (stamp_status now old new) = priority new.
Proof.
  unfold stamp_status.
  repeat match goal with
         | |- context [if ?b then _ else _] => destruct b
         end; repeat split.
Qed.

Lemma updated_row_status now us c :
  status (updated_row now us c) = status (fold_left assign_column us c).
Proof. unfold updated_row, touch; simpl. apply stamp_status_fields. Qed.

Lemma updated_row_id now us c :
  complaint_id (updated_row now us c) = complaint_id c.
Proof.
  unfold updated_row, touch; simpl.
  destruct (stamp_status_fields now c (fold_left assign_column us c))
    as (_ & _ & _ & -> & _).
  apply fold_assign_id.
Qed.

Lemma updated_row_note now us c :
  status_change_note (updated_row now us c)
  = status_change_note (fold_left assign_column us c).
Proof.
  unfold status_change_note, updated_row, touch; simpl.
  destruct (stamp_status_fields now c (fold_left assign_column us c))
    as (-> & -> & -> & _).
  reflexivity.
Qed.

Lemma log_complaint_status_change_spec now old new d new' d' :
  log_complaint_status_change now old new d = Ok (new', d') ->
  new' = touch now (stamp_status now old new)
  /\ d' = (if status_eqb (status old) (status new) then d
           else with_new_log
                  (mkLog (complaint_logs_id_seq d) (complaint_id new)
                         (Some (status old)) (status new) (current_user d)
                         (status_change_note new) now) d).
Proof.
  unfold log_complaint_status_change.
  destruct (status_eqb (status old) (status new)) eqn:E; simpl.
  - intros [= <- <-]. rewrite stamp_status_same by assumption. now split.
  - destruct (insert_log _ _ _ _ _ _) as [d1|] eqn:Hl; simpl; try discriminate.
    intros [= <- <-]. apply insert_log_spec in Hl. now split.
Qed.

Lemma update_complaint_rows_none now cid us rows d :
  filter (fun c => complaint_id c =? cid) rows = [] ->
  update_complaint_rows now cid us rows d = Ok (rows, [], d).
Proof.
  induction rows as [|c rows IH]; cbn [update_complaint_rows filter];
    [reflexivity|].
  destruct (complaint_id c =? cid); [discriminate|].
  intros H. now rewrite IH.
Qed.

Lemma update_complaint_rows_rows now cid us rows d tbl rtn d' :
  update_complaint_rows now cid us rows d = Ok (tbl, rtn, d') ->
  tbl = map (fun c => if complaint_id c =? cid then updated_row now us c else c)
            rows
  /\ rtn = map (updated_row now us)
               (filter (fun c => complaint_id c =? cid) rows).
Proof.
  revert d tbl rtn d'.
  induction rows as [|c rows IH]; cbn [update_complaint_rows map filter];
    intros d tbl rtn d'.
  - now intros [= <- <- <-].
  - destruct (complaint_id c =? cid).
    + destruct (log_complaint_status_change _ _ _ _) as [[new d1]|] eqn:Ht;
        simpl; try discriminate.
      destruct (negb (priority_check new)); try discriminate.
      destruct (negb (staff_fk new d1)); try discriminate.
      destruct (update_complaint_rows now cid us rows d1) as [[[t1 r1] d2]|] eqn:Hr;
        simpl; try discriminate.
      intros [= <- <- <-].
      apply IH in Hr as [-> ->].
      apply log_complaint_status_change_spec in Ht as [-> _].
      now split.
    + destruct (update_complaint_rows now cid us rows d) as [[[t1 r1] d2]|] eqn:Hr;
        simpl; try discriminate.
      intros [= <- <- <-]. apply IH in Hr as [-> ->]. now split.
Qed.

(** With one row of that id, one trigger run: at most one log row. *)
Lemma update_complaint_rows_one now cid us rows d c0 tbl rtn d' :
  filter (fun c => complaint_id c =? cid) rows = [c0] ->
  update_complaint_rows now cid us rows d = Ok (tbl, rtn, d') ->
  d' = (if status_eqb (status c0) (status (updated_row now us c0)) then d
        else with_new_log (change_log now d c0 (updated_row now us c0)) d).
Proof.
  revert d tbl rtn d'.
  induction rows as [|c rows IH]; cbn [update_complaint_rows filter];
    intros d tbl rtn d'; [discriminate|].
  destruct (complaint_id c =? cid).
  - intros [= -> Hnone].
    destruct (log_complaint_status_change _ _ _ _) as [[new d1]|] eqn:Ht;
      cbn [rbind]; try discriminate.
    destruct (negb (priority_check new)); try discriminate.
    destruct (negb (staff_fk new d1)); try discriminate.
    rewrite (update_complaint_rows_none _ _ _ _ _ Hnone). cbn [rbind].
    intros [= <- <- <-].
    apply log_complaint_status_change_spec in Ht as [_ ->].
    unfold change_log.
    rewrite updated_row_status, updated_row_note, updated_row_id, fold_assign_id.
    reflexivity.
  - intros Hone.
    destruct (update_complaint_rows now cid us rows d) as [[[t1 r1] d2]|] eqn:Hr;
      cbn [rbind]; try discriminate.
    intros [= <- <- <-]. eapply IH; eauto.
Qed.

Lemma pk_one_row cid rows c0 rest :
  NoDup (map complaint_id rows) ->
  filter (fun c => complaint_id c =? cid) rows = c0 :: rest -> rest = [].
Proof.
  induction rows as [|c rows IH]; simpl; [discriminate|].
  intros Hnd. inversion Hnd as [|? ? Hnotin Hnd']; subst.
  destruct (complaint_id c =? cid) eqn:E.
  - intros [= -> <-].
    destruct (filter _ rows) as [|x xs] eqn:F; [reflexivity|].
    exfalso. apply Hnotin.
    assert (Hx : In x (filter (fun c => complaint_id c =? cid) rows))
      by (rewrite F; now left).
    apply filter_In in Hx as [Hx1 Hx2].
    apply in_map_iff. exists x. split; [lia | assumption].
  - now apply IH.
Qed.

(** A PUT on a complaint either fails before or in its only writing
    statement, committing nothing, or commits exactly that UPDATE. *)
Lemma PUT_complaint_runs now id body d :
  match PUT_complaint now id body d with
  | (Success st r, tr) =>
      exists cid c0 rest rtn d',
        id = Some cid /\ select_complaint cid d = c0 :: rest
        /\ update_complaint now cid (updates_of body c0) d = Ok (rtn, d')
        /\ st = 200 /\ r = hd_error rtn /\ tr = [d']
  | (Failure _ _, tr) => tr = []
  end.
Proof.
  unfold PUT_complaint, try_catch, PUT_complaint_body.
  destruct id as [cid|]; [|reflexivity].
  rewrite bind_select.
  destruct (select_complaint cid d) as [|c0 rest] eqn:Hsel; [reflexivity|].
  destruct (negb (falsy_text (ub_status body)) && _); [reflexivity|].
  destruct (status_changes (ub_status body) c0 && _ && _ && _); [reflexivity|].
  set (k := (if match ub_priority body with
                | Some p => (p <? 1) || (5 <? p)
                | None => false
                end
             then ret (Failure 400 (Message "Priority must be between 1 and 5"))
             else _) : handler (response (option complaint))).
  assert (Hrest :
    match k d with
    | (inl (Success st r), tr) =>
        exists cid' c0' rest' rtn d',
          Some cid = Some cid' /\ select_complaint cid' d = c0' :: rest'
          /\ update_complaint now cid' (updates_of body c0') d = Ok (rtn, d')
          /\ st = 200 /\ r = hd_error rtn /\ tr = [d']
    | (inl (Failure _ _), tr) => tr = []
    | (inr _, tr) => tr = []
    end).
  { subst k.
    destruct (match ub_priority body with Some _ => _ | None => _ end);
      [reflexivity|].
    destruct (updates_of body c0) as [|u us] eqn:Hu; [reflexivity|].
    destruct (update_complaint now cid (u :: us) d) as [[rtn d']|e] eqn:Hup.
    - rewrite (bind_exec_ok _ _ _ _ _ Hup). simpl.
      exists cid, c0, rest, rtn, d'. rewrite Hu. now repeat split.
    - now rewrite (bind_exec_err _ _ _ _ Hup). }
  clearbody k.
  destruct (ub_assigned_staff_id body) as [| |n].
  - rewrite bind_ret.
    destruct (k d) as [[[st r|st e]|e] tr]; exact Hrest.
  - rewrite bind_ret.
    destruct (k d) as [[[st r|st e]|e] tr]; exact Hrest.
  - rewrite bind_select.
    destruct (select_available_staff n d); [reflexivity|].
    destruct (k d) as [[[st r|st e]|e] tr]; exact Hrest.
Qed.

Lemma update_complaint_one now cid us d c0 rtn d' :
  select_complaint cid d = [c0] ->
  update_complaint now cid us d = Ok (rtn, d') ->
  rtn = [updated_row now us c0]
  /\ complaints d'
     = map (fun c => if complaint_id c =? cid then updated_row now us c else c)
           (complaints d)
  /\ complaint_logs d'
     = complaint_logs d
       ++ (if status_eqb (status c0) (status (updated_row now us c0)) then []
           else [change_log now d c0 (updated_row now us c0)]).
Proof.
  unfold select_complaint, update_complaint. intros Hone.
  destruct (repeated_column us); try discriminate.
  destruct (update_complaint_rows _ _ _ _ _) as [[[tbl r1] d2]|] eqn:Hr;
    cbn [rbind]; try discriminate.
  intros [= <- <-].
  pose proof (update_complaint_rows_one _ _ _ _ _ _ _ _ _ Hone Hr) as Hd2.
  apply update_complaint_rows_rows in Hr as [-> ->].
  rewrite Hone. split; [reflexivity|]. split; [reflexivity|].
  cbn [complaint_logs with_complaints]. rewrite Hd2.
  destruct (status_eqb _ _); simpl; [now rewrite app_nil_r | reflexivity].
Qed.

Lemma POST_complaints_runs now body d :
  match POST_complaints now body d with
  | (Success st c, tr) =>
      exists d',
        tr = [d'] /\ st = 201 /\ status c = open
        /\ complaints d' = complaints d ++ [c]
        /\ complaint_logs d'
           = complaint_logs d
             ++ [mkLog (complaint_logs_id_seq d) (complaint_id c) None open
                       (current_user d) (Some "Complaint created") now]
  | (Failure _ _, tr) => tr = []
  end.
Proof.
  unfold POST_complaints, try_catch, POST_complaints_body.
  destruct (_ || _ || _ || _ || _); [reflexivity|].
  destruct (parse_category _) as [cat|]; [|reflexivity].
  destruct (_ || _); [reflexivity|].
  rewrite bind_select.
  destruct (select_active_student _ d); [reflexivity|].
  rewrite bind_select.
  destruct (select_room _ d); [reflexivity|].
  match goal with
  | |- context [exec ?s] => destruct (s d) as [[c d']|e] eqn:Hin
  end.
  - rewrite (bind_exec_ok _ _ _ _ _ Hin). simpl.
    exists d'. split; [reflexivity|]. split; [reflexivity|].
    revert Hin. unfold insert_complaint, log_complaint_creation.
    repeat match goal with
           | |- context [if ?b then _ else _] => destruct b
           end; try discriminate.
    destruct (insert_log _ _ _ _ _ _) as [d2|] eqn:Hl; cbn [rbind];
      try discriminate.
    intros [= <- <-]. apply insert_log_spec in Hl. subst d2.
    repeat split.
  - now rewrite (bind_exec_err _ _ _ _ Hin).
Qed.

Lemma field_updates_keep_status us c :
  (forall s, ~ In (SetStatus s) us) ->
  status (fold_left assign_column us c) = status c.
Proof.
  revert c. induction us as [|u us IH]; intros c Hno; [reflexivity|].
  simpl. rewrite IH.
  - destruct u; try reflexivity. exfalso. apply (Hno s). now left.
  - intros s Hs. apply (Hno s). now right.
Qed.

(** ** The audit log *)

(** C7: a log row is appended exactly when a complaint's status changes.
    Creating a complaint appends one row with [old_status] NULL and
    [new_status] open; an accepted update of complaint [c0] to [c'] appends
    one row with the old and the new status and the note derived from the new
    row when the two statuses differ, and no row when they are equal, as in
    an update that names neither status nor staff; a request that fails
    appends nothing. *)
Theorem log_row_iff_status_change now d (Hpk : complaints_pk d) :
  (forall body,
      match POST_complaints now body d with
      | (Success _ c, tr) =>
          exists d',
            tr = [d'] /\ status c = open /\ In c (complaints d')
            /\ complaint_logs d'
               = complaint_logs d
                 ++ [mkLog (complaint_logs_id_seq d) (complaint_id c) None open
                           (current_user d) (Some "Complaint created") now]
      | (Failure _ _, tr) => tr = []
      end)
  /\ (forall id body,
      match PUT_complaint now id body d with
      | (Success _ r, tr) =>
          exists c0 c' d',
            In c0 (complaints d) /\ id = Some (complaint_id c0)
            /\ r = Some c' /\ tr = [d'] /\ In c' (complaints d')
            /\ complaint_id c' = complaint_id c0
            /\ complaint_logs d'
               = complaint_logs d
                 ++ (if status_eqb (status c0) (status c') then []
                     else [change_log now d c0 c'])
            /\ (ub_status body = None -> ub_assigned_staff_id body = Undefined ->
                status c' = status c0)
      | (Failure _ _, tr) => tr = []
      end).
Proof.
  split.
  - intros body. pose proof (POST_complaints_runs now body d) as H.
    destruct (POST_complaints now body d) as [[st c|st e] tr]; [|exact H].
    destruct H as (d' & -> & _ & Hopen & Hc & Hl).
    exists d'. repeat split; try assumption.
    rewrite Hc. apply in_or_app. right. now left.
  - intros id body. pose proof (PUT_complaint_runs now id body d) as H.
    destruct (PUT_complaint now id body d) as [[st r|st e] tr]; [|exact H].
    destruct H as (cid & c0 & rest & rtn & d' & -> & Hsel & Hup & _ & -> & ->).
    assert (rest = []) as -> by (eapply pk_one_row; eauto).
    assert (Hc0 : In c0 (complaints d) /\ complaint_id c0 = cid).
    { assert (Hin : In c0 (select_complaint cid d)) by (rewrite Hsel; now left).
      apply filter_In in Hin as [Hin Hid]. split; [assumption | lia]. }
    destruct Hc0 as [Hin Hid].
    destruct (update_complaint_one _ _ _ _ _ _ _ Hsel Hup) as (-> & Htbl & Hlogs).
    exists c0, (updated_row now (updates_of body c0) c0), d'.
    split; [assumption|]. split; [now rewrite Hid|].
    split; [reflexivity|]. split; [reflexivity|].
    split.
    { rewrite Htbl. apply in_map_iff. exists c0.
      split; [|assumption]. now replace (complaint_id c0 =? cid) with true by lia. }
    split; [apply updated_row_id|]. split; [exact Hlogs|].
    intros Hst Hsf. rewrite updated_row_status.
    apply field_updates_keep_status. intros s Hs.
    unfold updates_of, status_updates, status_changes, staff_updates in Hs.
    rewrite Hst, Hsf in Hs. simpl in Hs.
    apply in_app_or in Hs as [Hs|Hs].
    + destruct (ub_resolution_notes body); simpl in Hs;
        intuition discriminate.
    + destruct (ub_priority body); simpl in Hs; intuition discriminate.
Qed.

Lemma assigned_db_pk : complaints_pk assigned_db.
Proof.
  unfold complaints_pk. vm_compute. repeat constructor. intros [].
Qed.

Lemma log_row_iff_status_change_witness :
  complaints_pk assigned_db
  /\ match PUT_complaint 50 (Some 1) (status_request "in_progress") assigned_db with
     | (Success _ r, tr) =>
         exists c0 c' d',
           In c0 (complaints assigned_db) /\ Some 1 = Some (complaint_id c0)
           /\ r = Some c' /\ tr = [d'] /\ In c' (complaints d')
           /\ complaint_id c' = complaint_id c0
           /\ complaint_logs d'
              = complaint_logs assigned_db
                ++ (if status_eqb (status c0) (status c') then []
                    else [change_log 50 assigned_db c0 c'])
           /\ (ub_status (status_request "in_progress") = None ->
               ub_assigned_staff_id (status_request "in_progress") = Undefined ->
               status c' = status c0)
     | (Failure _ _, tr) => tr = []
     end.
Proof.
  split; [exact assigned_db_pk|].
  exact (proj2 (log_row_iff_status_change 50 assigned_db assigned_db_pk)
               (Some 1) (status_request "in_progress")).
Defined.

(** ** Timestamps, as the trigger sets them *)

Lemma fold_assign_timestamps us c :
  assigned_at (fold_left assign_column us c) = assigned_at c
  /\ resolved_at (fold_left assign_column us c) = resolved_at c
  /\ closed_at (fold_left assign_column us c) = closed_at c.
Proof.
  revert c. induction us as [|u us IH]; intros c; [now repeat split|].
  simpl. destruct (IH (assign_column c u)) as (-> & -> & ->).
  now destruct u.
Qed.

Lemma updated_row_timestamps now us c :
  assigned_at (updated_row now us c)
  = (if status_eqb (status (updated_row now us c)) assigned
        && negb (status_eqb (status c) assigned)
     then Some now else assigned_at c)
  /\ resolved_at (updated_row now us c)
     = (if status_eqb (status (updated_row now us c)) resolved
           && negb (status_eqb (status c) resolved)
        then Some now else resolved_at c)
  /\ closed_at (updated_row now us c)
     = (if status_eqb (status (updated_row now us c)) closed
           && negb (status_eqb (status c) closed)
        then Some now else closed_at c).
Proof.
  rewrite updated_row_status.
  destruct (fold_assign_timestamps us c) as (Ha & Hr & Hc).
  unfold updated_row, touch, stamp_status.
  destruct (status (fold_left assign_column us c)), (status c); simpl;
    rewrite ?Ha, ?Hr, ?Hc; repeat split.
Qed.

(** C6, amended: the three timestamps are NULL when a complaint is created,
    and an accepted update writes the current time into the timestamp of the
    new status whenever the status changes, from a different one, to
    assigned, resolved or closed, whether that timestamp was set before or
    not; every other accepted update keeps the three as they are, and a
    request that fails writes nothing. *)
Theorem timestamp_set_on_each_entry now d :
  (forall body,
      match POST_complaints now body d with
      | (Success _ c, _) =>
          assigned_at c = None /\ resolved_at c = None /\ closed_at c = None
      | (Failure _ _, tr) => tr = []
      end)
  /\ (forall id body,
      match PUT_complaint now id body d with
      | (Success _ r, tr) =>
          exists cid c0 c' d',
            id = Some cid /\ hd_error (select_complaint cid d) = Some c0
            /\ r = Some c' /\ tr = [d']
            /\ hd_error (select_complaint cid d') = Some c'
            /\ assigned_at c'
               = (if status_eqb (status c') assigned
                     && negb (status_eqb (status c0) assigned)
                  then Some now else assigned_at c0)
            /\ resolved_at c'
               = (if status_eqb (status c') resolved
                     && negb (status_eqb (status c0) resolved)
                  then Some now else resolved_at c0)
            /\ closed_at c'
               = (if status_eqb (status c') closed
                     && negb (status_eqb (status c0) closed)
                  then Some now else closed_at c0)
      | (Failure _ _, tr) => tr = []
      end).
Proof.
  split.
  - intros body.
    unfold POST_complaints, try_catch, POST_complaints_body.
    destruct (_ || _ || _ || _ || _); [reflexivity|].
    destruct (parse_category _) as [cat|]; [|reflexivity].
    destruct (_ || _); [reflexivity|].
    rewrite bind_select.
    destruct (select_active_student _ d); [reflexivity|].
    rewrite bind_select.
    destruct (select_room _ d); [reflexivity|].
    match goal with
    | |- context [exec ?s] => destruct (s d) as [[c d']|e] eqn:Hin
    end.
    + rewrite (bind_exec_ok _ _ _ _ _ Hin). simpl.
      revert Hin. unfold insert_complaint.
      repeat match goal with
             | |- context [if ?b then _ else _] => destruct b
             end; try discriminate.
      destruct (log_complaint_creation _ _ _); cbn [rbind]; try discriminate.
      intros [= <- _]. repeat split.
    + now rewrite (bind_exec_err _ _ _ _ Hin).
  - intros id body. pose proof (PUT_complaint_runs now id body d) as H.
    destruct (PUT_complaint now id body d) as [[st r|st e] tr]; [|exact H].
    destruct H as (cid & c0 & rest & rtn & d' & -> & Hsel & Hup & _ & -> & ->).
    revert Hup. unfold update_complaint.
    destruct (repeated_column _); try discriminate.
    destruct (update_complaint_rows _ _ _ _ _) as [[[tbl r1] d2]|] eqn:Hr;
      cbn [rbind]; try discriminate.
    intros [= <- <-].
    apply update_complaint_rows_rows in Hr as [-> ->].
    fold (select_complaint cid d). rewrite Hsel.
    exists cid, c0, (updated_row now (updates_of body c0) c0),
      (with_complaints
         (map (fun c => if complaint_id c =? cid
                        then updated_row now (updates_of body c0) c else c)
              (complaints d)) d2).
    split; [reflexivity|]. split; [now rewrite Hsel|].
    split; [reflexivity|]. split; [reflexivity|].
    split; [|apply updated_row_timestamps].
    unfold select_complaint in *. cbn [complaints with_complaints].
    clear -Hsel. revert Hsel.
    induction (complaints d) as [|c cs IH]; cbn [map filter]; [discriminate|].
    destruct (complaint_id c =? cid) eqn:E; cbn [filter].
    + intros [= -> _]. rewrite updated_row_id, E. reflexivity.
    + rewrite E. exact IH.
Qed.

(** ** The guard on status 'assigned' *)

(** C8, amended: a request for status assigned on a complaint whose status is
    another one, with no staff on the complaint and none in the request
    (missing, [null] or 0), is rejected with the validation error and commits
    nothing.  It is the guard of the transition only: an accepted update
    that clears the staff of an assigned complaint keeps the status. *)
Theorem assigned_needs_staff now cid body d existing rest :
  select_complaint cid d = existing :: rest ->
  ub_status body = Some "assigned" ->
  status existing <> assigned ->
  assigned_staff_id existing = None ->
  falsy_field (ub_assigned_staff_id body) = true ->
  PUT_complaint now (Some cid) body d
  = (Failure 400 (Message "Cannot set status to assigned without assigning staff"),
     []).
Proof.
  intros Hsel Hst Hne Hnone Hreq.
  unfold PUT_complaint, try_catch, PUT_complaint_body.
  rewrite bind_select, Hsel.
  unfold status_changes. rewrite Hst, Hnone, Hreq. cbn.
  destruct (status existing); try reflexivity. congruence.
Qed.

Lemma assigned_needs_staff_witness :
  PUT_complaint 40 (Some 1) (status_request "assigned") ticket_db
  = (Failure 400 (Message "Cannot set status to assigned without assigning staff"),
     []).
Proof.
  apply (assigned_needs_staff 40 1 (status_request "assigned") ticket_db
           (mkComplaint 1 1 1 electrical "Fan" "The fan does not turn" open 2
                        None None 30 None None None 30) []).
  - reflexivity.
  - reflexivity.
  - discriminate.
  - reflexivity.
  - reflexivity.
Defined.

(** ** Analytics over nothing *)

(** C10: a percentage or rate over a zero denominator is the number 0, which
    is neither NaN nor an infinity, and nothing is thrown: the category
    percentage when the complaints add up to zero, the overall, per-type and
    per-floor occupancy rate at zero capacity, the resolution rate at zero
    complaints, and likewise the complaints per room of the hostel handler
    and the [CASE] rates the database computes (a NULL sum counts as zero
    there). *)
Theorem zero_denominator_gives_zero (rows : list category_row)
    (Hzero : totalComplaints rows = parseInt 0) :
  Forall (fun st => percentage st = parseInt 0) (GET_analytics_categories rows)
  /\ (forall total s, category_percentage total (S754_zero s) = parseInt 0)
  /\ (forall n occ f e p byType byFloor,
         overall_occupancy_rate
           (GET_analytics_rooms (mkOverallRow n 0 occ f e p) byType byFloor)
         = parseInt 0)
  /\ (forall (K : Type) (key : K) n occ,
         rate (group_rate (mkGroupRow key n 0 occ)) = parseInt 0)
  /\ (forall resolved, resolution_rate 0 resolved = parseInt 0)
  /\ (forall toFixed2 complaints_count,
         complaints_per_room toFixed2 complaints_count 0 = parseInt 0)
  /\ (forall (numeric : Type) (zero : numeric) round_ratio round_percent,
         (forall occ, hostel_occupancy_rate numeric zero round_percent occ None
                      = zero)
         /\ (forall occ, hostel_occupancy_rate numeric zero round_percent occ
                                               (Some 0) = zero)
         /\ (forall resolved, trend_resolution_rate numeric zero round_percent
                                                    resolved 0 = zero)
         /\ (forall n, view_complaints_per_room numeric zero round_ratio n None
                       = zero)
         /\ (forall n, view_complaints_per_room numeric zero round_ratio n
                                                (Some 0) = zero)
         /\ (forall n, view_complaints_per_student numeric zero round_ratio n
                                                   None = zero)
         /\ (forall n, view_complaints_per_student numeric zero round_ratio n
                                                   (Some 0) = zero))
  /\ parseInt 0 = S754_zero false
  /\ is_nan (parseInt 0) = false /\ is_infinite (parseInt 0) = false.
Proof.
  split.
  { unfold GET_analytics_categories. rewrite Hzero.
    apply Forall_forall. intros st Hin.
    apply in_map_iff in Hin as (row & <- & _). reflexivity. }
  repeat split.
Qed.

Lemma zero_denominator_gives_zero_witness :
  totalComplaints [mkCategoryRow "electrical" 0 0 0 None] = parseInt 0
  /\ Forall (fun st => percentage st = parseInt 0)
            (GET_analytics_categories [mkCategoryRow "electrical" 0 0 0 None]).
Proof.
  split; [reflexivity|].
  exact (proj1 (zero_denominator_gives_zero
                  [mkCategoryRow "electrical" 0 0 0 None] eq_refl)).
Defined.

(* ================================================================== *)
(** * Further properties of the handlers *)

(** ** How an assignment runs *)

(** The last two statements of POST /api/allocations, from the database the
    deactivation left: the insert, then the handler's own increment. *)
Lemma assign_tail today sid rid exp nts d0 :
  match (result <- exec (insert_allocation today sid rid exp nts) ;;
         _ <- exec (increment_occupancy rid) ;;
         ret (Success 201 result)) d0 with
  | (inl (Success st a), tr) =>
      exists d1 d2,
        insert_allocation today sid rid exp nts d0 = Ok (a, d1)
        /\ increment_occupancy rid d1 = Ok (tt, d2)
        /\ st = 201 /\ tr = [d1; d2]
  | (inl (Failure _ _), _) => False
  | (inr e, tr) =>
      (insert_allocation today sid rid exp nts d0 = Err e /\ tr = [])
      \/ (exists a d1,
             insert_allocation today sid rid exp nts d0 = Ok (a, d1)
             /\ increment_occupancy rid d1 = Err e /\ tr = [d1])
  end.
Proof.
  destruct (insert_allocation today sid rid exp nts d0) as [[a d1]|e] eqn:Hin.
  - rewrite (bind_exec_ok _ _ _ _ _ Hin).
    destruct (increment_occupancy rid d1) as [[[] d2]|e] eqn:Hinc.
    + rewrite (bind_exec_ok _ _ _ _ _ Hinc). simpl.
      exists d1, d2. now repeat split.
    + rewrite (bind_exec_err _ _ _ _ Hinc). simpl.
      right. exists a, d1. now repeat split.
  - rewrite (bind_exec_err _ _ _ _ Hin). now left.
Qed.

Lemma POST_allocations_runs today body d :
  match POST_allocations today body d with
  | (Success st a, tr) =>
      exists sid rid stu ss rm g rs pre d0 d1 d2,
        body_student_id body = Some sid /\ body_room_id body = Some rid
        /\ sid <> 0 /\ rid <> 0
        /\ select_active_student sid d = stu :: ss
        /\ select_available_room rid d = (rm, g) :: rs
        /\ current_occupancy rm < capacity rm
        /\ (g = other_gender \/ gender stu = g)
        /\ ((select_active_allocations sid d = [] /\ pre = [] /\ d0 = d)
            \/ (select_active_allocations sid d <> [] /\ pre = [d0]
                /\ exists r,
                     deactivate_student_allocations today sid d = Ok (r, d0)))
        /\ insert_allocation today sid rid (body_expected_checkout body)
                             (or_null (body_notes body)) d0 = Ok (a, d1)
        /\ increment_occupancy rid d1 = Ok (tt, d2)
        /\ st = 201 /\ tr = pre ++ [d1; d2]
  | (Failure st e, tr) =>
      (st = 400 /\ tr = []) \/ (st = 500 /\ exists pg, e = Thrown pg)
  end.
Proof.
  unfold POST_allocations, try_catch, POST_allocations_body.
  destruct (body_student_id body) as [sid|] eqn:Hsid; cbn [falsy_id orb id_of];
    [|now left].
  destruct (sid =? 0) eqn:Hs0; cbn [orb]; [now left|].
  destruct (body_room_id body) as [rid|] eqn:Hrid; cbn [falsy_id id_of];
    [|now left].
  destruct (rid =? 0) eqn:Hr0; [now left|].
  rewrite bind_select.
  destruct (select_active_student sid d) as [|stu ss] eqn:Hstu; [now left|].
  rewrite bind_select.
  destruct (select_available_room rid d) as [|[rm g] rs] eqn:Hrm; [now left|].
  destruct (capacity rm <=? current_occupancy rm) eqn:Hcap; [now left|].
  destruct (negb (gender_eqb g other_gender)
            && negb (gender_eqb (gender stu) g)) eqn:Hg; [now left|].
  assert (Hgender : g = other_gender \/ gender stu = g).
  { apply andb_false_iff in Hg as [Hg|Hg]; apply negb_false_iff in Hg;
      apply gender_eqb_eq in Hg; auto. }
  apply Z.eqb_neq in Hs0, Hr0. apply Z.leb_gt in Hcap.
  rewrite bind_select.
  set (k := bind (exec (insert_allocation today sid rid _ _)) _).
  pose proof (assign_tail today sid rid (body_expected_checkout body)
                          (or_null (body_notes body))) as Htail.
  fold k in Htail. clearbody k.
  destruct (select_active_allocations sid d) as [|x xs] eqn:Hex.
  - rewrite bind_ret. specialize (Htail d).
    destruct (k d) as [[[st a|st e]|e] tr]; cbn [fst snd].
    + destruct Htail as (d1 & d2 & Hin & Hinc & -> & ->).
      exists sid, rid, stu, ss, rm, g, rs, [], d, d1, d2.
      repeat split; auto.
    + contradiction.
    + right. split; [reflexivity | now eexists].
  - destruct (deactivate_student_allocations today sid d) as [[r d0]|e] eqn:Hde.
    + rewrite (bind_exec_ok _ _ _ _ _ Hde). specialize (Htail d0).
      destruct (k d0) as [[[st a|st e]|e] tr]; cbn [fst snd].
      * destruct Htail as (d1 & d2 & Hin & Hinc & -> & ->).
        exists sid, rid, stu, ss, rm, g, rs, [d0], d0, d1, d2.
        repeat split; auto.
        right. split; [rewrite Hex; discriminate|].
        split; [reflexivity | now exists r].
      * contradiction.
      * right. split; [reflexivity | now eexists].
    + rewrite (bind_exec_err _ _ _ _ Hde). right.
      split; [reflexivity | now eexists].
Qed.

(** ** Occupancy after a statement *)

Lemma update_room_rows_map rid f rs rs' :
  update_room_rows rid f rs = Ok rs' ->
  rs' = map (fun r => if room_id r =? rid
                      then set_occupancy (f (current_occupancy r)) r else r) rs.
Proof.
  revert rs'. induction rs as [|r rs IH]; cbn [update_room_rows map]; intros rs'.
  - now intros [= <-].
  - destruct (room_id r =? rid).
    + destruct (room_checks _) as [r1|] eqn:Hc; cbn [rbind]; try discriminate.
      destruct (update_room_rows rid f rs) as [rs1|]; cbn [rbind];
        try discriminate.
      intros [= <-]. apply room_checks_ok in Hc as [-> _].
      now rewrite (IH rs1 eq_refl).
    + destruct (update_room_rows rid f rs) as [rs1|]; cbn [rbind];
        try discriminate.
      intros [= <-]. now rewrite (IH rs1 eq_refl).
Qed.

Lemma occupancy_of_rooms r d d' :
  rooms d' = rooms d -> occupancy_of r d' = occupancy_of r d.
Proof. unfold occupancy_of, find_room. now intros ->. Qed.

Lemma occupancy_of_update rid f d d' r :
  update_room_occupancy rid f d = Ok d' ->
  occupancy_of r d'
  = if r =? rid then option_map f (occupancy_of rid d) else occupancy_of r d.
Proof.
  unfold update_room_occupancy.
  destruct (update_room_rows rid f (rooms d)) as [rs|] eqn:Hup; cbn [rbind];
    try discriminate.
  intros [= <-]. apply update_room_rows_map in Hup. subst rs.
  unfold occupancy_of, find_room. cbn [rooms with_rooms].
  induction (rooms d) as [|x xs IH]; cbn [map find].
  - now destruct (r =? rid).
  - destruct (room_id x =? rid) eqn:Ex.
    + cbn [room_id set_occupancy]. apply Z.eqb_eq in Ex.
      destruct (r =? rid) eqn:Er.
      * apply Z.eqb_eq in Er. subst r.
        replace (room_id x =? rid) with true by lia. reflexivity.
      * replace (room_id x =? r) with false by lia. exact IH.
    + destruct (r =? rid) eqn:Er.
      * apply Z.eqb_eq in Er. subst r. rewrite Ex. exact IH.
      * destruct (room_id x =? r); [reflexivity | exact IH].
Qed.

Lemma increment_occupancy_spec rid d d2 :
  increment_occupancy rid d = Ok (tt, d2) ->
  update_room_occupancy rid occupancy_incr d = Ok d2.
Proof.
  unfold increment_occupancy.
  destruct (update_room_occupancy _ _ _); cbn [rbind]; congruence.
Qed.

Lemma decrement_occupancy_spec rid d d2 :
  decrement_occupancy rid d = Ok (tt, d2) ->
  update_room_occupancy rid occupancy_decr d = Ok d2.
Proof.
  unfold decrement_occupancy.
  destruct (update_room_occupancy _ _ _); cbn [rbind]; congruence.
Qed.

(** An accepted insert has run the trigger's increment on its room. *)
Lemma insert_allocation_rooms today sid rid exp nts d a d1 :
  insert_allocation today sid rid exp nts d = Ok (a, d1) ->
  exists dt, update_room_occupancy rid occupancy_incr d = Ok dt
             /\ rooms d1 = rooms dt.
Proof.
  unfold insert_allocation, check_room_capacity.
  cbn [is_active a_room_id].
  destruct (room_is_full _); cbn [rbind]; try discriminate.
  destruct (update_room_occupancy rid occupancy_incr d) as [dt|]; cbn [rbind];
    try discriminate.
  repeat match goal with
         | |- context [if ?b then _ else _] => destruct b
         end; try discriminate.
  intros [= <- <-]. now exists dt.
Qed.

(** A deactivation runs the trigger's decrement once per selected row, on
    that row's room; a room none of them is in keeps its occupancy. *)
Lemma deactivation_other_rooms today sel rows d tbl rtn d' r :
  update_allocation_rows sel (deactivated today) rows d = Ok (tbl, rtn, d') ->
  (forall a, In a rows -> sel a = true -> a_room_id a <> r) ->
  occupancy_of r d' = occupancy_of r d.
Proof.
  revert d tbl rtn d'.
  induction rows as [|a rows IH]; cbn [update_allocation_rows];
    intros d tbl rtn d'.
  - now intros [= <- <- <-].
  - intros Hup Hother. destruct (sel a) eqn:Hsel.
    + destruct (check_room_capacity _ _ _ _) as [d1|] eqn:Htrg; cbn [rbind] in Hup;
        try discriminate.
      destruct (negb _); try discriminate.
      destruct (update_allocation_rows _ _ rows d1) as [[[t1 r1] d2]|] eqn:Hr;
        cbn [rbind] in Hup; try discriminate.
      injection Hup as <- <- <-.
      rewrite (IH _ _ _ _ Hr) by (intros; apply Hother; [now right|assumption]).
      assert (Hne : a_room_id a <> r) by (apply Hother; [now left|assumption]).
      revert Htrg. unfold check_room_capacity.
      cbn [is_active a_room_id deactivated negb andb].
      rewrite andb_true_r, andb_false_r.
      destruct (is_active a).
      * intros Htrg. rewrite (occupancy_of_update _ _ _ _ r Htrg).
        now replace (r =? a_room_id a) with false by lia.
      * now intros [= <-].
    + destruct (update_allocation_rows _ _ rows d) as [[[t1 r1] d2]|] eqn:Hr;
        cbn [rbind] in Hup; try discriminate.
      injection Hup as <- <- <-.
      apply (IH _ _ _ _ Hr). intros; apply Hother; [now right|assumption].
Qed.

Lemma filter_after_deactivation today sid rows :
  filter (active_for sid)
         (map (fun a => if active_for sid a then deactivated today a else a) rows)
  = [].
Proof.
  induction rows as [|a rows IH]; cbn [map filter]; [reflexivity|].
  destruct (active_for sid a) eqn:Ha.
  - unfold active_for at 1. cbn [deactivated is_active].
    now rewrite andb_false_r.
  - now rewrite Ha.
Qed.

Lemma update_allocation_rows_none sel set rows d :
  filter sel rows = [] ->
  update_allocation_rows sel set rows d = Ok (rows, [], d).
Proof.
  induction rows as [|a rows IH]; cbn [update_allocation_rows filter];
    [reflexivity|].
  destruct (sel a); [discriminate|].
  intros H. now rewrite IH.
Qed.

(** With one selected row, active, the trigger runs once: that row's room
    goes down by one, floored at zero. *)
Lemma deactivation_one today sel rows d tbl rtn d' x r :
  filter sel rows = [x] -> is_active x = true ->
  update_allocation_rows sel (deactivated today) rows d = Ok (tbl, rtn, d') ->
  occupancy_of r d'
  = if r =? a_room_id x then option_map occupancy_decr (occupancy_of r d)
    else occupancy_of r d.
Proof.
  revert d tbl rtn d'.
  induction rows as [|a rows IH]; cbn [update_allocation_rows filter];
    intros d tbl rtn d'; [discriminate|].
  destruct (sel a).
  - intros [= -> Hnone] Hact.
    destruct (check_room_capacity _ _ _ _) as [d1|] eqn:Htrg; cbn [rbind];
      try discriminate.
    destruct (negb _); try discriminate.
    rewrite (update_allocation_rows_none _ _ _ _ Hnone). cbn [rbind].
    intros [= <- <- <-].
    revert Htrg. unfold check_room_capacity.
    cbn [is_active a_room_id deactivated negb andb]. rewrite Hact. cbn [andb].
    intros Htrg. rewrite (occupancy_of_update _ _ _ _ r Htrg).
    destruct (r =? a_room_id x) eqn:E; [|reflexivity].
    apply Z.eqb_eq in E. now subst r.
  - intros Hone Hact.
    destruct (update_allocation_rows _ _ rows d) as [[[t1 r1] d2]|] eqn:Hr;
      cbn [rbind]; try discriminate.
    intros [= <- <- <-]. eapply IH; eauto.
Qed.

Lemma last_two (pre : list db) d1 d2 d : last (pre ++ [d1; d2]) d = d2.
Proof.
  change [d1; d2] with ([d1] ++ [d2]). rewrite app_assoc. apply last_last.
Qed.

(** ** Assignment *)

(** After an accepted assignment the new row is the student's one active
    allocation, in the room of the request. *)
Theorem assign_leaves_one_active today body d st a tr :
  POST_allocations today body d = (Success st a, tr) ->
  st = 201
  /\ body_student_id body = Some (a_student_id a)
  /\ body_room_id body = Some (a_room_id a)
  /\ is_active a = true
  /\ filter (active_for (a_student_id a)) (allocations (last tr d)) = [a].
Proof.
  intros Hrun. pose proof (POST_allocations_runs today body d) as H.
  rewrite Hrun in H.
  destruct H as (sid & rid & stu & ss & rm & g & rs & pre & d0 & d1 & d2
                 & Hsid & Hrid & _ & _ & _ & _ & _ & _ & Hpre & Hin & Hinc
                 & -> & ->).
  rewrite last_two.
  apply insert_allocation_spec in Hin as (Hal & Hs & Hr & Hact & _ & _).
  apply increment_occupancy_spec, update_room_occupancy_spec in Hinc
    as [(_ & _ & Hal2 & _) _].
  subst sid rid. repeat split; try assumption.
  rewrite Hal2, Hal, filter_app.
  assert (Hnone : filter (active_for (a_student_id a)) (allocations d0) = []).
  { destruct Hpre as [(Hno & _ & ->)|(_ & _ & r & Hde)]; [exact Hno|].
    apply update_allocations_spec in Hde as (-> & _ & _).
    apply filter_after_deactivation. }
  rewrite Hnone. cbn [filter app]. unfold active_for.
  now rewrite Z.eqb_refl, Hact.
Qed.

Lemma assign_leaves_one_active_witness :
  filter (active_for 1)
         (allocations
            (last (snd (POST_allocations 20 (assign_body 1 1) housed_db))
                  housed_db))
  = [mkAllocation 2 1 1 20 None None true None].
Proof.
  apply (assign_leaves_one_active 20 (assign_body 1 1) housed_db 201
           (mkAllocation 2 1 1 20 None None true None)).
  vm_compute. reflexivity.
Defined.

(** ** How the other allocation handlers run *)

Lemma DELETE_allocation_runs today id d :
  match DELETE_allocation today id d with
  | (Success st r, tr) =>
      exists aid existing rest rtn d1 d2,
        id = Some aid
        /\ filter (fun a => allocation_id a =? aid) (allocations d)
           = existing :: rest
        /\ is_active existing = true
        /\ deactivate_allocation today aid d = Ok (rtn, d1)
        /\ decrement_occupancy (a_room_id existing) d1 = Ok (tt, d2)
        /\ st = 200 /\ r = hd_error rtn /\ tr = [d1; d2]
  | (Failure st e, tr) =>
      ((st = 400 \/ st = 404) /\ tr = []) \/ (st = 500 /\ exists pg, e = Thrown pg)
  end.
Proof.
  unfold DELETE_allocation, try_catch, DELETE_allocation_body.
  destruct id as [aid|]; [|left; split; [now left | reflexivity]].
  rewrite bind_select.
  destruct (filter _ (allocations d)) as [|existing rest] eqn:Hsel;
    [left; split; [now right | reflexivity]|].
  destruct (is_active existing) eqn:Hact; cbn [negb];
    [|left; split; [now left | reflexivity]].
  destruct (deactivate_allocation today aid d) as [[rtn d1]|e] eqn:Hde.
  - rewrite (bind_exec_ok _ _ _ _ _ Hde).
    destruct (decrement_occupancy (a_room_id existing) d1) as [[[] d2]|e] eqn:Hdec.
    + rewrite (bind_exec_ok _ _ _ _ _ Hdec). cbn.
      exists aid, existing, rest, rtn, d1, d2. now repeat split.
    + rewrite (bind_exec_err _ _ _ _ Hdec). cbn. right.
      split; [reflexivity | now eexists].
  - rewrite (bind_exec_err _ _ _ _ Hde). right.
    split; [reflexivity | now eexists].
Qed.

Lemma with_allocations_same d : with_allocations (allocations d) d = d.
Proof. now destruct d. Qed.

Lemma with_students_same d : with_students (students d) d = d.
Proof. now destruct d. Qed.

Lemma map_unselected {A} (sel : A -> bool) (f : A -> A) l :
  filter sel l = [] -> map (fun a => if sel a then f a else a) l = l.
Proof.
  induction l as [|a l IH]; cbn [filter map]; [reflexivity|].
  destruct (sel a); [discriminate|]. intros H. now rewrite IH.
Qed.

Lemma update_allocations_none sel set d rtn d' :
  update_allocations sel set d = Ok (rtn, d') -> rtn = [] -> d' = d.
Proof.
  unfold update_allocations. intros Hup ->.
  destruct (update_allocation_rows _ _ _ _) as [[[tbl r1] d2]|] eqn:Hr;
    cbn [rbind] in Hup; try discriminate.
  injection Hup as -> <-.
  pose proof (update_allocation_rows_spec _ _ _ _ _ _ _ Hr) as (_ & Hrtn & _).
  assert (Hnone : filter sel (allocations d) = []).
  { destruct (filter sel (allocations d)); [reflexivity | discriminate]. }
  rewrite (update_allocation_rows_none _ _ _ _ Hnone) in Hr.
  injection Hr as <- <-. apply with_allocations_same.
Qed.

Lemma PUT_allocation_runs id body d :
  match PUT_allocation id body d with
  | (Success st a, tr) =>
      exists aid rtn d1,
        id = Some aid
        /\ update_allocation_fields aid (upd_expected_checkout body)
                                    (upd_notes body) d = Ok (a :: rtn, d1)
        /\ st = 200 /\ tr = [d1]
  | (Failure st e, tr) =>
      (st = 400 /\ tr = []) \/ (st = 404 /\ tr = [d])
      \/ (st = 500 /\ tr = [] /\ exists pg aid,
             id = Some aid /\ e = Thrown pg
             /\ update_allocation_fields aid (upd_expected_checkout body)
                                         (upd_notes body) d = Err pg)
  end.
Proof.
  unfold PUT_allocation, try_catch, PUT_allocation_body.
  destruct id as [aid|]; [|now left].
  assert (Hgo :
    match (result <- exec (update_allocation_fields aid
                             (upd_expected_checkout body) (upd_notes body)) ;;
           match result with
           | [] => ret (Failure 404 (Message "Allocation not found"))
           | a :: _ => ret (Success 200 a)
           end) d with
    | (inl (Success st a), tr) =>
        exists aid' rtn d1,
          Some aid = Some aid'
          /\ update_allocation_fields aid' (upd_expected_checkout body)
                                      (upd_notes body) d = Ok (a :: rtn, d1)
          /\ st = 200 /\ tr = [d1]
    | (inl (Failure st e), tr) => st = 404 /\ tr = [d]
    | (inr pg, tr) =>
        tr = [] /\ update_allocation_fields aid (upd_expected_checkout body)
                                            (upd_notes body) d = Err pg
    end).
  { destruct (update_allocation_fields aid _ _ d) as [[rtn d1]|e] eqn:Hup.
    - rewrite (bind_exec_ok _ _ _ _ _ Hup).
      destruct rtn as [|a rtn]; cbn.
      + split; [reflexivity|].
        now rewrite (update_allocations_none _ _ _ _ _ Hup eq_refl).
      + exists aid, rtn, d1. now repeat split.
    - rewrite (bind_exec_err _ _ _ _ Hup). now split. }
  destruct (upd_expected_checkout body) as [exp|], (upd_notes body) as [nts|];
    try (now left);
    match goal with
    | |- context [bind ?m ?k d] => destruct (bind m k d) as [[[st a|st e]|pg] tr]
    end;
    try exact Hgo;
    try (destruct Hgo as [-> ->]; right; left; now split);
    try (destruct Hgo as [-> Herr]; right; right;
         split; [reflexivity|]; split; [reflexivity|];
         exists pg, aid; now repeat split).
Qed.

Lemma deactivate_student_none sid d rtn d' :
  deactivate_student sid d = Ok (rtn, d') -> rtn = [] -> d' = d.
Proof.
  unfold deactivate_student. intros [= <- <-] Hnil.
  apply map_eq_nil in Hnil.
  rewrite (map_unselected _ _ _ Hnil). apply with_students_same.
Qed.

Lemma DELETE_student_runs today id d :
  match DELETE_student today id d with
  | (Success st s, tr) =>
      exists sid ss rtn d1 d2,
        id = Some sid
        /\ deactivate_student sid d = Ok (s :: ss, d1)
        /\ deactivate_student_allocations today sid d1 = Ok (rtn, d2)
        /\ st = 200 /\ tr = [d1; d2]
  | (Failure st e, tr) =>
      (st = 400 /\ tr = []) \/ (st = 404 /\ tr = [d])
      \/ (st = 500 /\ exists pg, e = Thrown pg)
  end.
Proof.
  unfold DELETE_student, try_catch, DELETE_student_body.
  destruct id as [sid|]; [|now left].
  destruct (deactivate_student sid d) as [[rtn d1]|e] eqn:Hde.
  - rewrite (bind_exec_ok _ _ _ _ _ Hde).
    destruct rtn as [|s ss]; cbn.
    + right; left. split; [reflexivity|].
      now rewrite (deactivate_student_none _ _ _ _ Hde eq_refl).
    + destruct (deactivate_student_allocations today sid d1) as [[r2 d2]|e] eqn:Hal.
      * rewrite (bind_exec_ok _ _ _ _ _ Hal). cbn.
        exists sid, ss, r2, d1, d2. now repeat split.
      * rewrite (bind_exec_err _ _ _ _ Hal). cbn. right; right.
        split; [reflexivity | now eexists].
  - discriminate Hde.
Qed.

(** ** Client errors *)

(** A request answered with a 4xx status leaves the database as it was,
    whichever of the six handlers it went to: every validation, existence and
    state test that answers 400 or 404 comes before the handler's first write
    or after an UPDATE that matched no row. *)
Theorem client_error_changes_nothing rq d :
  400 <= answer rq d < 500 -> last (committed rq d) d = d.
Proof.
  destruct rq as [today body|today id|id body|today id|now body|now id body];
    cbn [answer committed]; intros Hst.
  - pose proof (POST_allocations_runs today body d) as H.
    destruct (POST_allocations today body d) as [[st a|st e] tr];
      cbn [fst snd status_code] in *.
    + destruct H as (? & ? & ? & ? & ? & ? & ? & ? & ? & ? & ? & H).
      decompose [and] H. lia.
    + destruct H as [[_ ->]|[-> _]]; [reflexivity | lia].
  - pose proof (DELETE_allocation_runs today id d) as H.
    destruct (DELETE_allocation today id d) as [[st a|st e] tr];
      cbn [fst snd status_code] in *.
    + destruct H as (? & ? & ? & ? & ? & ? & H). decompose [and] H. lia.
    + destruct H as [[_ ->]|[-> _]]; [reflexivity | lia].
  - pose proof (PUT_allocation_runs id body d) as H.
    destruct (PUT_allocation id body d) as [[st a|st e] tr];
      cbn [fst snd status_code] in *.
    + destruct H as (? & ? & ? & H). decompose [and] H. lia.
    + destruct H as [[_ ->]|[[_ ->]|[-> _]]]; [reflexivity | reflexivity | lia].
  - pose proof (DELETE_student_runs today id d) as H.
    destruct (DELETE_student today id d) as [[st a|st e] tr];
      cbn [fst snd status_code] in *.
    + destruct H as (? & ? & ? & ? & ? & H). decompose [and] H. lia.
    + destruct H as [[_ ->]|[[_ ->]|[-> _]]]; [reflexivity | reflexivity | lia].
  - pose proof (POST_complaints_runs now body d) as H.
    destruct (POST_complaints now body d) as [[st a|st e] tr];
      cbn [fst snd status_code] in *.
    + destruct H as (? & H). decompose [and] H. lia.
    + now subst tr.
  - pose proof (PUT_complaint_runs now id body d) as H.
    destruct (PUT_complaint now id body d) as [[st a|st e] tr];
      cbn [fst snd status_code] in *.
    + destruct H as (? & ? & ? & ? & ? & H). decompose [and] H. lia.
    + now subst tr.
Qed.

Lemma client_error_changes_nothing_witness :
  last (committed (Assign 20 (assign_body 1 4)) occupied_db) occupied_db
  = occupied_db.
Proof.
  apply client_error_changes_nothing. vm_compute.
  split; [discriminate | reflexivity].
Defined.

(** ** Assignment: gender, and what it does to the occupancy *)

(** For an active student and an available room with a free bed, the
    assignment is refused with the gender error, before any write, exactly
    when the hostel of the room is not for 'other' and not for the gender of
    the student. *)
Theorem assign_gender_rule today sid rid exp nts d stu ss rm g rs :
  sid <> 0 -> rid <> 0 ->
  select_active_student sid d = stu :: ss ->
  select_available_room rid d = (rm, g) :: rs ->
  current_occupancy rm < capacity rm ->
  POST_allocations today (mkAllocationBody (Some sid) (Some rid) exp nts) d
  = (Failure 400 (Message ("Room is for " ++ gender_name g
                           ++ " students only")%string), [])
  <-> (g <> other_gender /\ gender stu <> g).
Proof.
  intros Hs Hr Hstu Hrm Hfree.
  unfold POST_allocations, try_catch, POST_allocations_body.
  cbn [body_student_id body_room_id falsy_id id_of body_expected_checkout
       body_notes].
  replace (sid =? 0) with false by lia. replace (rid =? 0) with false by lia.
  cbn [orb]. rewrite bind_select, Hstu, bind_select, Hrm.
  replace (capacity rm <=? current_occupancy rm) with false by lia.
  destruct (negb (gender_eqb g other_gender)
            && negb (gender_eqb (gender stu) g)) eqn:Hg.
  - split; [intros _|reflexivity].
    apply andb_prop in Hg as [H1 H2].
    apply negb_true_iff in H1, H2. split; intros E.
    + apply gender_eqb_eq in E. congruence.
    + apply gender_eqb_eq in E. congruence.
  - split.
    + intros Hrun. exfalso. revert Hrun. rewrite bind_select.
      set (k := bind (exec (insert_allocation today sid rid _ _)) _).
      pose proof (assign_tail today sid rid exp (or_null nts)) as Htail.
      fold k in Htail. clearbody k.
      destruct (select_active_allocations sid d) as [|x xs].
      * rewrite bind_ret. specialize (Htail d).
        destruct (k d) as [[[st a|st e]|e] tr]; try discriminate.
        contradiction.
      * destruct (deactivate_student_allocations today sid d) as [[r d0]|e] eqn:Hde.
        -- rewrite (bind_exec_ok _ _ _ _ _ Hde).
           destruct (k d0) as [[[st a|st e]|e] tr]; discriminate.
        -- rewrite (bind_exec_err _ _ _ _ Hde). discriminate.
    + intros [H1 H2]. exfalso.
      apply andb_false_iff in Hg as [Hg|Hg]; apply negb_false_iff in Hg;
        apply gender_eqb_eq in Hg; congruence.
Qed.

Lemma assign_gender_rule_witness :
  POST_allocations 20 (mkAllocationBody (Some 3) (Some 1) None None) sample_db
  = (Failure 400 (Message "Room is for male students only"), []).
Proof.
  apply (assign_gender_rule 20 3 1 None None sample_db
           (mkStudent 3 female true) [] (mkRoom 1 1 2 0 true) male []).
  - discriminate.
  - discriminate.
  - reflexivity.
  - reflexivity.
  - reflexivity.
  - split; discriminate.
Defined.

Lemma capacity_of_rooms r d d' :
  rooms d' = rooms d -> capacity_of r d' = capacity_of r d.
Proof. unfold capacity_of, find_room. now intros ->. Qed.

Lemma capacity_of_update rid f d d' r :
  update_room_occupancy rid f d = Ok d' -> capacity_of r d' = capacity_of r d.
Proof.
  unfold update_room_occupancy.
  destruct (update_room_rows rid f (rooms d)) as [rs|] eqn:Hup; cbn [rbind];
    try discriminate.
  intros [= <-]. apply update_room_rows_map in Hup. subst rs.
  unfold capacity_of, find_room. cbn [rooms with_rooms].
  induction (rooms d) as [|x xs IH]; cbn [map find]; [reflexivity|].
  destruct (room_id x =? rid) eqn:Ex.
  - cbn [room_id set_occupancy].
    destruct (room_id x =? r); [reflexivity | exact IH].
  - destruct (room_id x =? r); [reflexivity | exact IH].
Qed.

Lemma capacity_of_trigger op old new d d' r :
  check_room_capacity op old new d = Ok d' -> capacity_of r d' = capacity_of r d.
Proof.
  unfold check_room_capacity.
  destruct op, old as [old|];
    repeat match goal with
           | |- context [if ?b then _ else _] => destruct b
           end;
    try discriminate; try (now intros [= <-]); apply capacity_of_update.
Qed.

Lemma capacity_of_update_rows sel set rows d tbl rtn d' r :
  update_allocation_rows sel set rows d = Ok (tbl, rtn, d') ->
  capacity_of r d' = capacity_of r d.
Proof.
  revert d tbl rtn d'.
  induction rows as [|a rows IH]; cbn [update_allocation_rows];
    intros d tbl rtn d'.
  - now intros [= _ _ <-].
  - destruct (sel a).
    + destruct (check_room_capacity _ _ _ _) as [d1|] eqn:Htrg; cbn [rbind];
        try discriminate.
      destruct (negb _); try discriminate.
      destruct (update_allocation_rows _ _ rows d1) as [[[t1 r2] d2]|] eqn:Hr;
        cbn [rbind]; try discriminate.
      intros [= _ _ <-]. rewrite (IH _ _ _ _ Hr).
      eapply capacity_of_trigger; eauto.
    + destruct (update_allocation_rows _ _ rows d) as [[[t1 r2] d2]|] eqn:Hr;
        cbn [rbind]; try discriminate.
      intros [= _ _ <-]. eapply IH; eauto.
Qed.

Lemma capacity_of_update_allocations sel set d rtn d' r :
  update_allocations sel set d = Ok (rtn, d') ->
  capacity_of r d' = capacity_of r d.
Proof.
  unfold update_allocations.
  destruct (update_allocation_rows _ _ _ _) as [[[tbl r1] dx]|] eqn:Hrows;
    cbn [rbind]; try discriminate.
  intros [= _ <-].
  rewrite (capacity_of_rooms r dx (with_allocations tbl dx)) by reflexivity.
  eapply capacity_of_update_rows; eauto.
Qed.

(** An accepted occupancy update has passed the CHECK constraints on the
    first room of that id. *)
Lemma update_room_occupancy_checked rid f d d' x :
  update_room_occupancy rid f d = Ok d' ->
  find_room rid d = Some x ->
  0 <= f (current_occupancy x) <= capacity x.
Proof.
  unfold update_room_occupancy, find_room.
  destruct (update_room_rows rid f (rooms d)) as [rs|] eqn:Hup; cbn [rbind];
    try discriminate.
  intros _. revert rs Hup.
  induction (rooms d) as [|y ys IH]; cbn [find update_room_rows];
    [discriminate|].
  intros rs. destruct (room_id y =? rid).
  - destruct (room_checks _) as [r1|] eqn:Hc; cbn [rbind]; try discriminate.
    intros _ [= <-]. apply room_checks_ok in Hc as [_ Hb]. exact Hb.
  - destruct (update_room_rows rid f ys) as [rs1|]; cbn [rbind];
      try discriminate.
    intros _ Hf. eapply IH; eauto.
Qed.

(** An accepted assignment raises the occupancy of its room by two, once in
    the trigger on the insert and once more in the handler, when none of the
    student's previous active allocations is in that room; so it is accepted
    only where two beds were free. *)
Theorem assign_raises_room_by_two today body d st a tr :
  POST_allocations today body d = (Success st a, tr) ->
  (forall x, In x (select_active_allocations (a_student_id a) d) ->
             a_room_id x <> a_room_id a) ->
  exists n c, occupancy_of (a_room_id a) d = Some n
              /\ capacity_of (a_room_id a) d = Some c
              /\ occupancy_of (a_room_id a) (last tr d) = Some (n + 2)
              /\ n + 2 <= c.
Proof.
  intros Hrun Hother. pose proof (POST_allocations_runs today body d) as H.
  rewrite Hrun in H.
  destruct H as (sid & rid & stu & ss & rm & g & rs & pre & d0 & d1 & d2
                 & Hsid & Hrid & _ & _ & _ & Hrm & _ & _ & Hpre & Hin & Hinc
                 & -> & ->).
  rewrite last_two.
  pose proof (insert_allocation_spec _ _ _ _ _ _ _ _ Hin) as (_ & Hs & Hr & _).
  rewrite Hs, Hr in *. clear Hs Hr.
  apply insert_allocation_rooms in Hin as (dt & Htrg & Hrooms).
  apply increment_occupancy_spec in Hinc.
  assert (H0 : occupancy_of rid d0 = occupancy_of rid d
               /\ capacity_of rid d0 = capacity_of rid d).
  { destruct Hpre as [(_ & _ & ->)|(_ & _ & r & Hde)]; [now split|].
    split; [|eapply capacity_of_update_allocations; exact Hde].
    unfold deactivate_student_allocations, update_allocations in Hde.
    destruct (update_allocation_rows _ _ _ _) as [[[tbl r1] dx]|] eqn:Hrows;
      cbn [rbind] in Hde; try discriminate.
    injection Hde as _ <-.
    rewrite (occupancy_of_rooms rid dx (with_allocations tbl dx)) by reflexivity.
    eapply deactivation_other_rooms; [exact Hrows|].
    intros x Hx Hsel. apply Hother. apply filter_In. now split. }
  destruct H0 as [H0 Hc0].
  assert (Hocc1 : occupancy_of rid d1
                  = option_map occupancy_incr (occupancy_of rid d)).
  { rewrite (occupancy_of_rooms rid dt d1 Hrooms).
    now rewrite (occupancy_of_update _ _ _ _ rid Htrg), Z.eqb_refl, H0. }
  assert (Hcap1 : capacity_of rid d1 = capacity_of rid d).
  { rewrite (capacity_of_rooms rid dt d1 Hrooms).
    now rewrite (capacity_of_update _ _ _ _ rid Htrg). }
  rewrite (occupancy_of_update _ _ _ _ rid Hinc), Z.eqb_refl, Hocc1.
  destruct (find_room rid d1) as [x|] eqn:Hx.
  - pose proof (update_room_occupancy_checked _ _ _ _ _ Hinc Hx) as Hb.
    unfold occupancy_of, capacity_of in Hocc1, Hcap1. rewrite Hx in Hocc1, Hcap1.
    cbn [option_map] in Hocc1, Hcap1.
    unfold occupancy_of, capacity_of.
    destruct (find_room rid d) as [y|]; [|discriminate].
    cbn [option_map] in *. injection Hocc1 as Hocc1. injection Hcap1 as Hcap1.
    exists (current_occupancy y), (capacity y).
    unfold occupancy_incr in *.
    repeat split; [f_equal; lia | lia].
  - exfalso. apply select_available_room_in in Hrm as [Hin Hid].
    unfold occupancy_of in Hocc1. rewrite Hx in Hocc1. cbn [option_map] in Hocc1.
    unfold find_room in Hocc1.
    destruct (find _ (rooms d)) eqn:Hf; [discriminate|].
    pose proof (find_none _ _ Hf rm Hin) as Hno. cbn beta in Hno. lia.
Qed.

Lemma assign_raises_room_by_two_witness :
  exists n c, occupancy_of 1 housed_db = Some n
              /\ capacity_of 1 housed_db = Some c
              /\ occupancy_of 1
                   (last (snd (POST_allocations 20 (assign_body 1 1) housed_db))
                         housed_db) = Some (n + 2)
              /\ n + 2 <= c.
Proof.
  apply (assign_raises_room_by_two 20 (assign_body 1 1) housed_db 201
           (mkAllocation 2 1 1 20 None None true None)).
  - vm_compute. reflexivity.
  - vm_compute. intros x [<-|[]]. discriminate.
Defined.

(** A re-assignment takes the student's previous room down by one, floored
    at zero, by the trigger alone, and leaves every third room as it was. *)
Theorem assign_lowers_previous_room_by_one today body d st a tr x :
  POST_allocations today body d = (Success st a, tr) ->
  select_active_allocations (a_student_id a) d = [x] ->
  a_room_id x <> a_room_id a ->
  occupancy_of (a_room_id x) (last tr d)
  = option_map occupancy_decr (occupancy_of (a_room_id x) d)
  /\ (forall r, r <> a_room_id x -> r <> a_room_id a ->
                occupancy_of r (last tr d) = occupancy_of r d).
Proof.
  intros Hrun Hone Hne. pose proof (POST_allocations_runs today body d) as H.
  rewrite Hrun in H.
  destruct H as (sid & rid & stu & ss & rm & g & rs & pre & d0 & d1 & d2
                 & Hsid & Hrid & _ & _ & _ & _ & _ & _ & Hpre & Hin & Hinc
                 & -> & ->).
  rewrite last_two.
  pose proof (insert_allocation_spec _ _ _ _ _ _ _ _ Hin) as (_ & Hs & Hr & _).
  rewrite Hs, Hr in *. clear Hs Hr.
  apply insert_allocation_rooms in Hin as (dt & Htrg & Hrooms).
  apply increment_occupancy_spec in Hinc.
  assert (Hlater : forall r, r <> rid -> occupancy_of r d2 = occupancy_of r d0).
  { intros r Hr. rewrite (occupancy_of_update _ _ _ _ r Hinc).
    replace (r =? rid) with false by lia.
    rewrite (occupancy_of_rooms r dt d1 Hrooms).
    rewrite (occupancy_of_update _ _ _ _ r Htrg).
    now replace (r =? rid) with false by lia. }
  assert (H0 : forall r, occupancy_of r d0
                         = if r =? a_room_id x
                           then option_map occupancy_decr (occupancy_of r d)
                           else occupancy_of r d).
  { destruct Hpre as [(Hno & _ & _)|(_ & _ & r0 & Hde)]; [congruence|].
    intros r.
    unfold deactivate_student_allocations, update_allocations in Hde.
    destruct (update_allocation_rows _ _ _ _) as [[[tbl r1] dx]|] eqn:Hrows;
      cbn [rbind] in Hde; try discriminate.
    injection Hde as _ <-.
    rewrite (occupancy_of_rooms r dx (with_allocations tbl dx)) by reflexivity.
    eapply deactivation_one; [exact Hone | | exact Hrows].
    assert (Hx : In x (select_active_allocations sid d))
      by (rewrite Hone; now left).
    apply filter_In in Hx as [_ Hx]. now apply andb_prop in Hx as [_ Hx]. }
  split.
  - rewrite Hlater by assumption. now rewrite H0, Z.eqb_refl.
  - intros r Hr1 Hr2. rewrite Hlater by assumption. rewrite H0.
    now replace (r =? a_room_id x) with false by lia.
Qed.

Lemma assign_lowers_previous_room_by_one_witness :
  occupancy_of 2 (last (snd (POST_allocations 20 (assign_body 1 1) housed_db))
                       housed_db)
  = option_map occupancy_decr (occupancy_of 2 housed_db).
Proof.
  apply (assign_lowers_previous_room_by_one 20 (assign_body 1 1) housed_db 201
           (mkAllocation 2 1 1 20 None None true None) _
           (mkAllocation 1 1 2 10 None None true None)).
  - vm_compute. reflexivity.
  - reflexivity.
  - discriminate.
Defined.

(** ** Checkout *)

Lemma filter_id_after_update aid (f : allocation -> allocation) rows :
  (forall a, allocation_id (f a) = allocation_id a) ->
  filter (fun a => allocation_id a =? aid)
         (map (fun a => if allocation_id a =? aid then f a else a) rows)
  = map f (filter (fun a => allocation_id a =? aid) rows).
Proof.
  intros Hid. induction rows as [|a rows IH]; cbn [map filter]; [reflexivity|].
  destruct (allocation_id a =? aid) eqn:E.
  - rewrite Hid, E. cbn [map]. now rewrite IH.
  - now rewrite E.
Qed.

(** A second checkout of the same allocation, on the database the first one
    left, is answered 400 "Allocation is already inactive" and writes
    nothing. *)
Theorem checkout_twice_is_refused today today' id d st r tr :
  DELETE_allocation today id d = (Success st r, tr) ->
  DELETE_allocation today' id (last tr d)
  = (Failure 400 (Message "Allocation is already inactive"), []).
Proof.
  intros Hrun. pose proof (DELETE_allocation_runs today id d) as H.
  rewrite Hrun in H.
  destruct H as (aid & existing & rest & rtn & d1 & d2 & -> & Hsel & Hact
                 & Hde & Hdec & -> & -> & ->).
  cbn [last].
  apply update_allocations_spec in Hde as (Hal & _ & _).
  apply decrement_occupancy_spec, update_room_occupancy_spec in Hdec
    as [(_ & _ & Hal2 & _) _].
  unfold DELETE_allocation, try_catch, DELETE_allocation_body.
  rewrite bind_select, Hal2, Hal.
  rewrite filter_id_after_update by reflexivity.
  rewrite Hsel. reflexivity.
Qed.

Lemma checkout_twice_is_refused_witness :
  DELETE_allocation 21 (Some 1)
    (last (snd (DELETE_allocation 20 (Some 1) occupied_db)) occupied_db)
  = (Failure 400 (Message "Allocation is already inactive"), []).
Proof.
  apply (checkout_twice_is_refused 20 21 (Some 1) occupied_db 200
           (Some (mkAllocation 1 1 2 1 None (Some 20) false None))).
  vm_compute. reflexivity.
Defined.

(** An accepted checkout of the one allocation of that id lowers the
    occupancy of its room twice, each time floored at zero (by the trigger on
    the deactivation, then by the handler), and no other room. *)
Theorem checkout_lowers_room_by_two today aid d st r tr x :
  DELETE_allocation today (Some aid) d = (Success st r, tr) ->
  filter (fun a => allocation_id a =? aid) (allocations d) = [x] ->
  r = Some (deactivated today x)
  /\ occupancy_of (a_room_id x) (last tr d)
     = option_map (fun n => Z.max 0 (Z.max 0 (n - 1) - 1))
                  (occupancy_of (a_room_id x) d)
  /\ (forall r', r' <> a_room_id x ->
                 occupancy_of r' (last tr d) = occupancy_of r' d).
Proof.
  intros Hrun Hone. pose proof (DELETE_allocation_runs today (Some aid) d) as H.
  rewrite Hrun in H.
  destruct H as (aid' & existing & rest & rtn & d1 & d2 & [= <-] & Hsel & Hact
                 & Hde & Hdec & -> & -> & ->).
  rewrite Hone in Hsel. injection Hsel as <- <-.
  cbn [last].
  apply decrement_occupancy_spec in Hdec.
  pose proof (update_allocations_spec _ _ _ _ _ Hde) as (_ & -> & _).
  rewrite Hone.
  unfold deactivate_allocation, update_allocations in Hde.
  destruct (update_allocation_rows _ _ _ _) as [[[tbl r1] dx]|] eqn:Hrows;
    cbn [rbind] in Hde; try discriminate.
  injection Hde as _ <-.
  assert (H1 : forall r', occupancy_of r' (with_allocations tbl dx)
                          = if r' =? a_room_id x
                            then option_map occupancy_decr (occupancy_of r' d)
                            else occupancy_of r' d).
  { intros r'.
    rewrite (occupancy_of_rooms r' dx (with_allocations tbl dx)) by reflexivity.
    eapply deactivation_one; eauto. }
  split; [reflexivity|]. split.
  - rewrite (occupancy_of_update _ _ _ _ _ Hdec), Z.eqb_refl, H1, Z.eqb_refl.
    destruct (occupancy_of (a_room_id x) d); reflexivity.
  - intros r' Hr'. rewrite (occupancy_of_update _ _ _ _ _ Hdec).
    replace (r' =? a_room_id x) with false by lia.
    rewrite H1. now replace (r' =? a_room_id x) with false by lia.
Qed.

Lemma checkout_lowers_room_by_two_witness :
  occupancy_of 2 (last (snd (DELETE_allocation 20 (Some 1) occupied_db))
                       occupied_db)
  = option_map (fun n => Z.max 0 (Z.max 0 (n - 1) - 1))
               (occupancy_of 2 occupied_db).
Proof.
  apply (checkout_lowers_room_by_two 20 1 occupied_db 200
           (Some (mkAllocation 1 1 2 1 None (Some 20) false None)) _
           (mkAllocation 1 1 2 1 None None true None)).
  - vm_compute. reflexivity.
  - reflexivity.
Defined.

(** ** Deactivating a student *)

Lemma update_allocations_students sel set d rtn d' :
  update_allocations sel set d = Ok (rtn, d') -> students d' = students d.
Proof.
  unfold update_allocations.
  destruct (update_allocation_rows _ _ _ _) as [[[tbl r1] dx]|] eqn:Hrows;
    cbn [rbind]; try discriminate.
  intros [= _ <-].
  apply update_allocation_rows_spec in Hrows as (_ & _ & Hs & _).
  destruct Hs as (_ & Hst & _). exact Hst.
Qed.

Lemma select_active_student_after_deactivation sid ss :
  filter (fun s => (student_id s =? sid) && student_is_active s)
         (map (fun s => if student_id s =? sid
                        then mkStudent (student_id s) (gender s) false else s)
              ss)
  = [].
Proof.
  induction ss as [|s ss IH]; cbn [map filter]; [reflexivity|].
  destruct (student_id s =? sid) eqn:E.
  - cbn [student_id student_is_active]. rewrite E. exact IH.
  - rewrite E. exact IH.
Qed.

(** After an accepted DELETE /api/students/[id] the student has no active
    allocation, and cannot be assigned a room or raise a complaint: an
    assignment is answered 400 "Student not found or is not active", a
    complaint is answered 400 too, and neither writes anything. *)
Theorem deactivated_student_is_locked_out today sid d st s tr :
  DELETE_student today (Some sid) d = (Success st s, tr) ->
  student_id s = sid /\ student_is_active s = false
  /\ select_active_allocations sid (last tr d) = []
  /\ (forall day rid exp nts,
         rid <> 0 -> sid <> 0 ->
         POST_allocations day (mkAllocationBody (Some sid) (Some rid) exp nts)
                          (last tr d)
         = (Failure 400 (Message "Student not found or is not active"), []))
  /\ (forall now rid cat ttl dsc prio,
         exists e, POST_complaints now
                     (mkComplaintBody (Some sid) rid cat ttl dsc prio)
                     (last tr d)
                   = (Failure 400 (Message e), [])).
Proof.
  intros Hrun. pose proof (DELETE_student_runs today (Some sid) d) as H.
  rewrite Hrun in H.
  destruct H as (sid' & ss & rtn & d1 & d2 & [= <-] & Hst & Hal & -> & ->).
  cbn [last].
  assert (Hs : student_id s = sid /\ student_is_active s = false).
  { unfold deactivate_student in Hst. injection Hst as Hrows _.
    assert (Hin : In s (map (fun s0 => mkStudent (student_id s0) (gender s0) false)
                            (filter (fun s0 => student_id s0 =? sid) (students d))))
      by (rewrite Hrows; now left).
    apply in_map_iff in Hin as (s0 & <- & Hin).
    apply filter_In in Hin as [_ Hid]. cbn. split; [lia | reflexivity]. }
  assert (Hnone : select_active_student sid d2 = []).
  { unfold select_active_student.
    rewrite (update_allocations_students _ _ _ _ _ Hal).
    unfold deactivate_student in Hst. injection Hst as _ <-.
    cbn [students with_students]. apply select_active_student_after_deactivation. }
  destruct Hs as [Hs1 Hs2]. split; [exact Hs1|]. split; [exact Hs2|]. split.
  { unfold select_active_allocations.
    apply update_allocations_spec in Hal as (-> & _ & _).
    apply filter_after_deactivation. }
  split.
  - intros day rid exp nts Hr Hsid.
    unfold POST_allocations, try_catch, POST_allocations_body.
    cbn [body_student_id body_room_id falsy_id id_of].
    replace (sid =? 0) with false by lia. replace (rid =? 0) with false by lia.
    cbn [orb]. now rewrite bind_select, Hnone.
  - intros now rid cat ttl dsc prio.
    unfold POST_complaints, try_catch, POST_complaints_body.
    cbn [cb_student_id cb_room_id cb_category cb_title cb_description
         cb_priority id_of].
    destruct (_ || _ || _ || _ || _); [now eexists|].
    destruct (parse_category _); [|now eexists].
    destruct (_ || _); [now eexists|].
    rewrite bind_select, Hnone. now eexists.
Qed.

Lemma deactivated_student_is_locked_out_witness :
  select_active_allocations 1
    (last (snd (DELETE_student 20 (Some 1) occupied_db)) occupied_db) = [].
Proof.
  apply (deactivated_student_is_locked_out 20 1 occupied_db 200
           (mkStudent 1 male false)).
  vm_compute. reflexivity.
Defined.

(** Deactivating a student with one active allocation lowers the occupancy
    of that room by one, floored at zero: here only the trigger counts. *)
Theorem student_deactivation_lowers_room_by_one today sid d st s tr x :
  DELETE_student today (Some sid) d = (Success st s, tr) ->
  select_active_allocations sid d = [x] ->
  occupancy_of (a_room_id x) (last tr d)
  = option_map occupancy_decr (occupancy_of (a_room_id x) d)
  /\ (forall r, r <> a_room_id x ->
                occupancy_of r (last tr d) = occupancy_of r d).
Proof.
  intros Hrun Hone. pose proof (DELETE_student_runs today (Some sid) d) as H.
  rewrite Hrun in H.
  destruct H as (sid' & ss & rtn & d1 & d2 & [= <-] & Hst & Hal & -> & ->).
  cbn [last].
  unfold deactivate_student in Hst. injection Hst as _ <-.
  unfold deactivate_student_allocations, update_allocations in Hal.
  cbn [allocations with_students] in Hal.
  destruct (update_allocation_rows _ _ _ _) as [[[tbl r1] dx]|] eqn:Hrows;
    cbn [rbind] in Hal; try discriminate.
  injection Hal as _ <-.
  assert (Hact : is_active x = true).
  { assert (Hx : In x (select_active_allocations sid d))
      by (rewrite Hone; now left).
    apply filter_In in Hx as [_ Hx]. now apply andb_prop in Hx as [_ Hx]. }
  assert (H1 : forall r, occupancy_of r (with_allocations tbl dx)
                         = if r =? a_room_id x
                           then option_map occupancy_decr (occupancy_of r d)
                           else occupancy_of r d).
  { intros r.
    rewrite (occupancy_of_rooms r dx (with_allocations tbl dx)) by reflexivity.
    rewrite (deactivation_one _ _ _ _ _ _ _ _ r Hone Hact Hrows).
    reflexivity. }
  split.
  - now rewrite H1, Z.eqb_refl.
  - intros r Hr. rewrite H1. now replace (r =? a_room_id x) with false by lia.
Qed.

Lemma student_deactivation_lowers_room_by_one_witness :
  occupancy_of 2 (last (snd (DELETE_student 20 (Some 1) occupied_db))
                       occupied_db)
  = option_map occupancy_decr (occupancy_of 2 occupied_db).
Proof.
  apply (student_deactivation_lowers_room_by_one 20 1 occupied_db 200
           (mkStudent 1 male false) _
           (mkAllocation 1 1 2 1 None None true None)).
  - vm_compute. reflexivity.
  - reflexivity.
Defined.

(** ** Updating an allocation *)

Lemma trigger_without_flag_change old new d :
  is_active new = is_active old ->
  check_room_capacity TG_UPDATE (Some old) new d = Ok d.
Proof.
  intros H. unfold check_room_capacity. rewrite H.
  now destruct (is_active old).
Qed.

Lemma update_fields_rows aid exp nts rows d tbl rtn d' :
  update_allocation_rows (fun a => allocation_id a =? aid)
                         (set_allocation_fields exp nts) rows d
  = Ok (tbl, rtn, d') ->
  d' = d.
Proof.
  revert tbl rtn d'.
  induction rows as [|a rows IH]; cbn [update_allocation_rows]; intros tbl rtn d'.
  - now intros [= _ _ <-].
  - destruct (allocation_id a =? aid).
    + rewrite trigger_without_flag_change by reflexivity. cbn [rbind].
      destruct (negb _); try discriminate.
      destruct (update_allocation_rows _ _ rows d) as [[[t1 r1] d2]|] eqn:Hr;
        cbn [rbind]; try discriminate.
      intros [= _ _ <-]. eapply IH; eauto.
    + destruct (update_allocation_rows _ _ rows d) as [[[t1 r1] d2]|] eqn:Hr;
        cbn [rbind]; try discriminate.
      intros [= _ _ <-]. eapply IH; eauto.
Qed.

(** Whatever its answer, PUT /api/allocations/[id] touches neither the rooms
    nor the ledger side of an allocation: every allocation keeps its id,
    student, room, dates of allocation and checkout and its [is_active]
    flag.  The expected checkout date and the notes are all it sets. *)
Theorem allocation_update_keeps_ledger id body d :
  rooms (last (snd (PUT_allocation id body d)) d) = rooms d
  /\ map allocation_key (allocations (last (snd (PUT_allocation id body d)) d))
     = map allocation_key (allocations d).
Proof.
  pose proof (PUT_allocation_runs id body d) as H.
  destruct (PUT_allocation id body d) as [[st a|st e] tr]; cbn [snd].
  - destruct H as (aid & rtn & d1 & -> & Hup & -> & ->). cbn [last].
    unfold update_allocation_fields, update_allocations in Hup.
    destruct (update_allocation_rows _ _ _ _) as [[[tbl r1] dx]|] eqn:Hrows;
      cbn [rbind] in Hup; try discriminate.
    injection Hup as _ <-.
    pose proof (update_fields_rows _ _ _ _ _ _ _ _ Hrows) as ->.
    apply update_allocation_rows_spec in Hrows as (-> & _).
    split; [reflexivity|]. cbn [allocations with_allocations].
    rewrite map_map. apply map_ext. intros x.
    now destruct (allocation_id x =? aid).
  - destruct H as [[_ ->]|[[_ ->]|(_ & -> & _)]]; now split.
Qed.

(** An expected checkout date before the allocation date is refused by the
    CHECK constraint [valid_checkout_dates]: the request is answered 500 and
    nothing is written. *)
Theorem allocation_update_checks_dates aid e nts d x rest :
  filter (fun a => allocation_id a =? aid) (allocations d) = x :: rest ->
  e < allocation_date x ->
  PUT_allocation (Some aid) (mkAllocationUpdateBody (Some (Some e)) nts) d
  = (Failure 500 (Thrown (CheckViolation "valid_checkout_dates")), []).
Proof.
  intros Hsel Hlt.
  assert (Herr : update_allocation_fields aid (Some (Some e)) nts d
                 = Err (CheckViolation "valid_checkout_dates")).
  { unfold update_allocation_fields, update_allocations.
    assert (Hrows : update_allocation_rows (fun a => allocation_id a =? aid)
                      (set_allocation_fields (Some (Some e)) nts)
                      (allocations d) d
                    = Err (CheckViolation "valid_checkout_dates")).
    { revert Hsel. induction (allocations d) as [|a rows IH];
        cbn [filter update_allocation_rows]; [discriminate|].
      destruct (allocation_id a =? aid).
      - intros [= -> _].
        rewrite trigger_without_flag_change by reflexivity. cbn [rbind].
        unfold valid_checkout_dates. cbn.
        now replace (allocation_date x <=? e) with false by lia.
      - intros Hsel. now rewrite (IH Hsel). }
    now rewrite Hrows. }
  unfold PUT_allocation, try_catch, PUT_allocation_body.
  cbn [upd_expected_checkout upd_notes].
  destruct nts; now rewrite (bind_exec_err _ _ _ _ Herr).
Qed.

Lemma allocation_update_checks_dates_witness :
  PUT_allocation (Some 1) (mkAllocationUpdateBody (Some (Some 5)) None) housed_db
  = (Failure 500 (Thrown (CheckViolation "valid_checkout_dates")), []).
Proof.
  apply (allocation_update_checks_dates 1 5 None housed_db
           (mkAllocation 1 1 2 10 None None true None) []).
  - reflexivity.
  - reflexivity.
Defined.

(** ** Statements that are accepted *)

Lemma room_checks_pass r : room_ok r -> room_checks r = Ok r.
Proof.
  intros [[H1 H2] [H3 H4]]. unfold room_checks.
  replace (0 <? capacity r) with true by lia.
  replace (capacity r <=? 10) with true by lia.
  replace (0 <=? current_occupancy r) with true by lia.
  now replace (current_occupancy r <=? capacity r) with true by lia.
Qed.

Lemma decrement_accepted rid d :
  Forall room_ok (rooms d) ->
  exists d', update_room_occupancy rid occupancy_decr d = Ok d'
             /\ Forall room_ok (rooms d').
Proof.
  intros Hok. unfold update_room_occupancy.
  assert (H : exists rs, update_room_rows rid occupancy_decr (rooms d) = Ok rs
                         /\ Forall room_ok rs).
  { induction Hok as [|r rs Hr Hrs (rs' & Hup & Hok')];
      cbn [update_room_rows]; [exists []; now split|].
    rewrite Hup. cbn [rbind].
    destruct (room_id r =? rid).
    - assert (Hr' : room_ok (set_occupancy (occupancy_decr (current_occupancy r)) r)).
      { destruct Hr as [Hc Ho]. unfold room_ok, occupancy_decr. cbn. lia. }
      rewrite (room_checks_pass _ Hr'). cbn [rbind]. eexists. split; [reflexivity|].
      now constructor.
    - eexists. split; [reflexivity|]. now constructor. }
  destruct H as (rs & -> & Hrs). cbn [rbind]. eexists. split; [reflexivity|].
  exact Hrs.
Qed.

Lemma deactivation_rows_accepted today sel rows d :
  Forall room_ok (rooms d) ->
  Forall (fun a => valid_checkout_dates a = true) rows ->
  exists tbl rtn d',
    update_allocation_rows sel (deactivated today) rows d = Ok (tbl, rtn, d').
Proof.
  intros Hrooms Hrows. revert d Hrooms.
  induction Hrows as [|a rows Ha Hrows IH]; intros d Hrooms;
    cbn [update_allocation_rows]; [now do 3 eexists|].
  destruct (sel a).
  - assert (Htrg : exists d1, check_room_capacity TG_UPDATE (Some a)
                                (deactivated today a) d = Ok d1
                              /\ Forall room_ok (rooms d1)).
    { unfold check_room_capacity.
      cbn [is_active a_room_id deactivated negb andb].
      rewrite andb_true_r, andb_false_r.
      destruct (is_active a); [apply decrement_accepted, Hrooms|].
      now exists d. }
    destruct Htrg as (d1 & -> & Hrooms1). cbn [rbind].
    replace (valid_checkout_dates (deactivated today a)) with true
      by (symmetry; exact Ha).
    cbn [negb]. destruct (IH d1 Hrooms1) as (tbl & rtn & d' & ->).
    cbn [rbind]. now do 3 eexists.
  - destruct (IH d Hrooms) as (tbl & rtn & d' & ->). cbn [rbind].
    now do 3 eexists.
Qed.

Lemma deactivation_accepted today sid d :
  stored_ok d ->
  exists rtn d0, deactivate_student_allocations today sid d = Ok (rtn, d0).
Proof.
  intros [Hrooms Hrows].
  unfold deactivate_student_allocations, update_allocations.
  destruct (deactivation_rows_accepted today (active_for sid) _ d Hrooms Hrows)
    as (tbl & rtn & d' & ->).
  cbn [rbind]. now do 2 eexists.
Qed.

(** ** An assignment is not one unit *)

(** A re-assignment whose expected checkout date lies before today strands
    the student: the old allocation is deactivated and committed, the insert
    is then refused, the request is answered 500, and the student is left
    with no active allocation. *)
Theorem reassign_with_past_checkout_strands_student
    today sid rid e nts d stu ss rm g rs x xs :
  stored_ok d ->
  sid <> 0 -> rid <> 0 ->
  select_active_student sid d = stu :: ss ->
  select_available_room rid d = (rm, g) :: rs ->
  current_occupancy rm < capacity rm ->
  (g = other_gender \/ gender stu = g) ->
  select_active_allocations sid d = x :: xs ->
  e < today ->
  exists pg d0,
    POST_allocations today (mkAllocationBody (Some sid) (Some rid) (Some e) nts) d
    = (Failure 500 (Thrown pg), [d0])
    /\ select_active_allocations sid d0 = []
    /\ List.length (allocations d0) = List.length (allocations d).
Proof.
  intros Hok Hs Hr Hstu Hrm Hfree Hg Hact He.
  destruct (deactivation_accepted today sid d Hok) as (rtn & d0 & Hde).
  assert (Hins : exists pg, insert_allocation today sid rid (Some e) (or_null nts) d0
                            = Err pg).
  { unfold insert_allocation.
    destruct (check_room_capacity _ _ _ _) as [d1|pg]; cbn [rbind];
      [|now exists pg].
    unfold valid_checkout_dates. cbn [expected_checkout allocation_date].
    replace (today <=? e) with false by lia. cbn [negb]. now eexists. }
  destruct Hins as (pg & Hins).
  exists pg, d0. split.
  - unfold POST_allocations, try_catch, POST_allocations_body.
    cbn [body_student_id body_room_id falsy_id id_of body_expected_checkout
         body_notes].
    replace (sid =? 0) with false by lia. replace (rid =? 0) with false by lia.
    cbn [orb]. rewrite bind_select, Hstu, bind_select, Hrm.
    replace (capacity rm <=? current_occupancy rm) with false by lia.
    replace (negb (gender_eqb g other_gender)
             && negb (gender_eqb (gender stu) g)) with false.
    2:{ symmetry. apply andb_false_iff.
        destruct Hg as [Hg|Hg]; [left|right]; apply negb_false_iff;
          now apply gender_eqb_eq. }
    rewrite bind_select, Hact.
    rewrite (bind_exec_ok _ _ _ _ _ Hde).
    rewrite (bind_exec_err _ _ _ _ Hins). reflexivity.
  - apply update_allocations_spec in Hde as (Hal & _ & _).
    unfold select_active_allocations. rewrite Hal. split.
    + apply filter_after_deactivation.
    + apply length_map.
Qed.

Lemma reassign_with_past_checkout_strands_student_witness :
  exists pg d0,
    POST_allocations 20 (mkAllocationBody (Some 1) (Some 1) (Some 15) None)
                     housed_db
    = (Failure 500 (Thrown pg), [d0])
    /\ select_active_allocations 1 d0 = []
    /\ List.length (allocations d0) = List.length (allocations housed_db).
Proof.
  apply (reassign_with_past_checkout_strands_student 20 1 1 15 None housed_db
           (mkStudent 1 male true) [] (mkRoom 1 1 2 0 true) male []
           (mkAllocation 1 1 2 10 None None true None) []).
  - split.
    + vm_compute. repeat constructor; discriminate.
    + vm_compute. repeat constructor.
  - discriminate.
  - discriminate.
  - reflexivity.
  - reflexivity.
  - reflexivity.
  - now right.
  - reflexivity.
  - reflexivity.
Defined.

Lemma find_of_filter {A} (f : A -> bool) l x rest :
  filter f l = x :: rest -> find f l = Some x.
Proof.
  induction l as [|a l IH]; cbn [filter find]; [discriminate|].
  destruct (f a); [now intros [= ->] | exact IH].
Qed.

Lemma update_room_rows_none rid f rs :
  filter (fun r => room_id r =? rid) rs = [] -> update_room_rows rid f rs = Ok rs.
Proof.
  induction rs as [|r rs IH]; cbn [filter update_room_rows]; [reflexivity|].
  destruct (room_id r =? rid); [discriminate|].
  intros H. now rewrite IH.
Qed.

(** With one room of that id, the update is decided by the CHECK
    constraints on that room's new row. *)
Lemma update_room_rows_one rid f rs x :
  filter (fun r => room_id r =? rid) rs = [x] ->
  update_room_rows rid f rs
  = match room_checks (set_occupancy (f (current_occupancy x)) x) with
    | Ok _ =>
        Ok (map (fun r => if room_id r =? rid
                          then set_occupancy (f (current_occupancy r)) r else r)
                rs)
    | Err e => Err e
    end.
Proof.
  induction rs as [|r rs IH]; cbn [filter update_room_rows map]; [discriminate|].
  destruct (room_id r =? rid) eqn:E.
  - intros [= -> Hnone].
    destruct (room_checks _) as [r1|e] eqn:Hc; cbn [rbind]; [|reflexivity].
    apply room_checks_ok in Hc as [-> _].
    rewrite (update_room_rows_none _ _ _ Hnone). cbn [rbind].
    now rewrite (map_unselected _ _ _ Hnone).
  - intros Hone. rewrite (IH Hone).
    now destruct (room_checks _).
Qed.

Lemma filter_room_after_update rid (g : room -> room) rs :
  (forall r, room_id (g r) = room_id r) ->
  filter (fun r => room_id r =? rid)
         (map (fun r => if room_id r =? rid then g r else r) rs)
  = map g (filter (fun r => room_id r =? rid) rs).
Proof.
  intros Hid. induction rs as [|r rs IH]; cbn [map filter]; [reflexivity|].
  destruct (room_id r =? rid) eqn:E.
  - rewrite Hid, E. cbn [map]. now rewrite IH.
  - now rewrite E.
Qed.

Lemma existsb_filter_nil {A} (f : A -> bool) l :
  filter f l = [] -> existsb f l = false.
Proof.
  induction l as [|a l IH]; cbn [filter existsb]; [reflexivity|].
  destruct (f a); [discriminate | exact IH].
Qed.

Lemma existsb_filter_cons {A} (f : A -> bool) l x rest :
  filter f l = x :: rest -> existsb f l = true.
Proof.
  induction l as [|a l IH]; cbn [filter existsb]; [discriminate|].
  destruct (f a); [reflexivity | exact IH].
Qed.

(** Taking the last free bed: for a student without a room and a room with
    exactly one free bed the allocation is inserted and the trigger fills the
    room, then the handler's own increment is refused by [check_occupancy]:
    the request is answered 500 although the student now holds the bed. *)
Theorem assign_last_bed_answers_500
    today sid rid exp nts d stu ss rm g rs :
  stored_ok d ->
  sid <> 0 -> rid <> 0 ->
  select_active_student sid d = stu :: ss ->
  select_available_room rid d = (rm, g) :: rs ->
  filter (fun r => room_id r =? rid) (rooms d) = [rm] ->
  (g = other_gender \/ gender stu = g) ->
  select_active_allocations sid d = [] ->
  capacity rm = current_occupancy rm + 1 ->
  match exp with Some e => today <= e | None => True end ->
  existsb (fun a => allocation_id a =? allocations_id_seq d) (allocations d)
  = false ->
  exists d1,
    POST_allocations today (mkAllocationBody (Some sid) (Some rid) exp nts) d
    = (Failure 500 (Thrown (CheckViolation "check_occupancy")), [d1])
    /\ allocations d1
       = allocations d
         ++ [mkAllocation (allocations_id_seq d) sid rid today exp None true
                          (or_null nts)]
    /\ occupancy_of rid d1 = Some (capacity rm).
Proof.
  intros [Hrooms _] Hs Hr Hstu Hrm Hone Hg Hnone Hlast Hexp Hfresh.
  assert (Hrmok : room_ok rm).
  { rewrite Forall_forall in Hrooms. apply Hrooms.
    assert (Hin : In rm (filter (fun r => room_id r =? rid) (rooms d)))
      by (rewrite Hone; now left).
    now apply filter_In in Hin. }
  destruct Hrmok as [Hcap Hocc].
  set (bump := fun r => if room_id r =? rid
                        then set_occupancy (occupancy_incr (current_occupancy r)) r
                        else r).
  set (dt := with_rooms (map bump (rooms d)) d).
  set (new := mkAllocation (allocations_id_seq d) sid rid today exp None true
                           (or_null nts)).
  assert (Htrg : update_room_occupancy rid occupancy_incr d = Ok dt).
  { unfold update_room_occupancy. rewrite (update_room_rows_one _ _ _ _ Hone).
    rewrite room_checks_pass; [reflexivity|].
    unfold room_ok, occupancy_incr. cbn. lia. }
  assert (Hrid : filter (fun r => room_id r =? rid) (rooms dt)
                 = [set_occupancy (occupancy_incr (current_occupancy rm)) rm]).
  { subst dt bump. cbn [rooms with_rooms].
    rewrite (filter_room_after_update rid
               (fun r => set_occupancy (occupancy_incr (current_occupancy r)) r))
      by reflexivity.
    now rewrite Hone. }
  assert (Hins : insert_allocation today sid rid exp (or_null nts) d
                 = Ok (new, with_new_allocation new dt)).
  { unfold insert_allocation. fold new.
    unfold check_room_capacity. cbn [new is_active a_room_id].
    assert (Hfull : room_is_full (select_room_capacity rid d) = false).
    { unfold select_room_capacity, find_room.
      rewrite (find_of_filter _ _ _ _ Hone).
      destruct (find_hostel _ d); [|reflexivity].
      cbn [room_is_full]. lia. }
    rewrite Hfull, Htrg. cbn [rbind].
    assert (Hdates : valid_checkout_dates new = true).
    { unfold valid_checkout_dates. cbn. destruct exp; [lia | reflexivity]. }
    rewrite Hdates. cbn [negb allocations dt with_rooms].
    cbn [allocation_id new]. rewrite Hfresh.
    rewrite (existsb_filter_nil _ _ Hnone).
    replace (existsb (fun s => student_id s =? sid) (students dt)) with true.
    2:{ symmetry. apply existsb_exists. exists stu.
        assert (Hin : In stu (select_active_student sid d))
          by (rewrite Hstu; now left).
        apply filter_In in Hin as [Hin Hid]. split; [exact Hin|].
        now apply andb_prop in Hid as [Hid _]. }
    rewrite (existsb_filter_cons _ _ _ _ Hrid). reflexivity. }
  assert (Hinc : increment_occupancy rid (with_new_allocation new dt)
                 = Err (CheckViolation "check_occupancy")).
  { unfold increment_occupancy, update_room_occupancy.
    cbn [rooms with_new_allocation].
    rewrite (update_room_rows_one _ _ _ _ Hrid).
    unfold room_checks, occupancy_incr. cbn.
    replace (0 <? capacity rm) with true by lia.
    replace (capacity rm <=? 10) with true by lia.
    replace (0 <=? current_occupancy rm + 1 + 1) with true by lia.
    now replace (current_occupancy rm + 1 + 1 <=? capacity rm) with false by lia. }
  exists (with_new_allocation new dt). split; [|split].
  - unfold POST_allocations, try_catch, POST_allocations_body.
    cbn [body_student_id body_room_id falsy_id id_of body_expected_checkout
         body_notes].
    replace (sid =? 0) with false by lia. replace (rid =? 0) with false by lia.
    cbn [orb]. rewrite bind_select, Hstu, bind_select, Hrm.
    replace (capacity rm <=? current_occupancy rm) with false by lia.
    replace (negb (gender_eqb g other_gender)
             && negb (gender_eqb (gender stu) g)) with false.
    2:{ symmetry. apply andb_false_iff.
        destruct Hg as [Hg|Hg]; [left|right]; apply negb_false_iff;
          now apply gender_eqb_eq. }
    rewrite bind_select, Hnone, bind_ret.
    rewrite (bind_exec_ok _ _ _ _ _ Hins).
    rewrite (bind_exec_err _ _ _ _ Hinc). reflexivity.
  - reflexivity.
  - unfold occupancy_of, find_room. cbn [rooms with_new_allocation].
    rewrite (find_of_filter _ _ _ _ Hrid). cbn. unfold occupancy_incr.
    f_equal. lia.
Qed.

Lemma assign_last_bed_answers_500_witness :
  exists d1,
    POST_allocations 20 (mkAllocationBody (Some 2) (Some 3) None None) housed_db
    = (Failure 500 (Thrown (CheckViolation "check_occupancy")), [d1])
    /\ allocations d1
       = allocations housed_db
         ++ [mkAllocation (allocations_id_seq housed_db) 2 3 20 None None true
                          (or_null None)]
    /\ occupancy_of 3 d1 = Some (capacity (mkRoom 3 1 1 0 true)).
Proof.
  apply (assign_last_bed_answers_500 20 2 3 None None housed_db
           (mkStudent 2 male true) [] (mkRoom 3 1 1 0 true) male []).
  - split.
    + vm_compute. repeat constructor; discriminate.
    + vm_compute. repeat constructor.
  - discriminate.
  - discriminate.
  - reflexivity.
  - reflexivity.
  - reflexivity.
  - now right.
  - reflexivity.
  - reflexivity.
  - exact I.
  - reflexivity.
Defined.

(** ** What no request does *)

Section EveryStatement.

Variable P : db -> Prop.

Hypothesis keeps_deactivate_student_allocations :
  forall today sid, stmt_keeps P (deactivate_student_allocations today sid).
Hypothesis keeps_deactivate_allocation :
  forall today aid, stmt_keeps P (deactivate_allocation today aid).
Hypothesis keeps_update_allocation_fields :
  forall aid exp nts, stmt_keeps P (update_allocation_fields aid exp nts).
Hypothesis keeps_insert_allocation :
  forall today sid rid exp nts,
    stmt_keeps P (insert_allocation today sid rid exp nts).
Hypothesis keeps_increment : forall rid, stmt_keeps P (increment_occupancy rid).
Hypothesis keeps_decrement : forall rid, stmt_keeps P (decrement_occupancy rid).
Hypothesis keeps_deactivate_student :
  forall sid, stmt_keeps P (deactivate_student sid).
Hypothesis keeps_insert_complaint :
  forall now sid rid cat ttl dsc prio,
    stmt_keeps P (insert_complaint now sid rid cat ttl dsc prio).
Hypothesis keeps_update_complaint :
  forall now cid us, stmt_keeps P (update_complaint now cid us).

#[local] Hint Resolve keeps_deactivate_student_allocations
  keeps_deactivate_allocation keeps_update_allocation_fields
  keeps_insert_allocation keeps_increment keeps_decrement
  keeps_deactivate_student keeps_insert_complaint keeps_update_complaint
  : keeps.

(** A property every statement of the handlers keeps holds in every state a
    request commits. *)
Lemma committed_keeps rq d : P d -> Forall P (committed rq d).
Proof.
  intros Hd. destruct rq; cbn [committed];
    unfold POST_allocations, DELETE_allocation, PUT_allocation, DELETE_student,
           POST_complaints, PUT_complaint;
    apply try_catch_keeps; try assumption;
    unfold POST_allocations_body, DELETE_allocation_body, PUT_allocation_body,
           DELETE_student_body, POST_complaints_body, PUT_complaint_body;
    repeat keeps_step.
Qed.

End EveryStatement.

Lemma extends_refl {A} (R : A -> A -> Prop) l :
  (forall a, R a a) -> extends R l l.
Proof.
  intros Hr. exists l, []. split; [now rewrite app_nil_r|].
  induction l; constructor; auto.
Qed.

Lemma extends_trans {A} (R : A -> A -> Prop) l1 l2 l3 :
  (forall a b c, R a b -> R b c -> R a c) ->
  extends R l1 l2 -> extends R l2 l3 -> extends R l1 l3.
Proof.
  intros Ht (k1 & a1 & -> & H1) (k2 & a2 & -> & H2).
  apply Forall2_app_inv_l in H2 as (k2a & k2b & H2a & H2b & ->).
  exists k2a, (k2b ++ a2). split; [now rewrite app_assoc|].
  clear -Ht H1 H2a. revert k2a H2a.
  induction H1 as [|x y l k Hxy H1 IH]; intros k2a H2a;
    inversion H2a; subst; constructor; eauto.
Qed.

Lemma extends_map {A} (R : A -> A -> Prop) (f : A -> A) l :
  (forall a, R a (f a)) -> extends R l (map f l).
Proof.
  intros Hf. exists (map f l), []. split; [now rewrite app_nil_r|].
  induction l; cbn [map]; constructor; auto.
Qed.

Lemma extends_app {A} (R : A -> A -> Prop) l added :
  (forall a, R a a) -> extends R l (l ++ added).
Proof.
  intros Hr. exists l, added. split; [reflexivity|].
  induction l; constructor; auto.
Qed.

Lemma allocation_evolves_refl a : allocation_evolves a a.
Proof. now repeat split. Qed.

Lemma allocation_evolves_trans a b c :
  allocation_evolves a b -> allocation_evolves b c -> allocation_evolves a c.
Proof.
  unfold allocation_evolves. intros H1 H2.
  decompose [and] H1; decompose [and] H2. repeat split; try congruence; auto.
Qed.

Lemma complaint_evolves_refl c : complaint_evolves c c.
Proof. now repeat split. Qed.

Lemma complaint_evolves_trans a b c :
  complaint_evolves a b -> complaint_evolves b c -> complaint_evolves a c.
Proof.
  unfold complaint_evolves. intros H1 H2.
  decompose [and] H1; decompose [and] H2. repeat split; congruence.
Qed.

Lemma history_refl d : history d d.
Proof.
  repeat split; apply extends_refl; auto using allocation_evolves_refl,
    complaint_evolves_refl.
Qed.

Lemma history_trans d1 d2 d3 : history d1 d2 -> history d2 d3 -> history d1 d3.
Proof.
  intros (A1 & C1 & L1) (A2 & C2 & L2). repeat split.
  - eapply extends_trans; eauto using allocation_evolves_trans.
  - eapply extends_trans; eauto using complaint_evolves_trans.
  - eapply extends_trans; eauto. intros; congruence.
Qed.

(** A statement relates the database it ran on to the one it left. *)
Lemma history_step {A} (stmt : db -> result (A * db)) d0 :
  (forall d a d', stmt d = Ok (a, d') -> history d d') ->
  stmt_keeps (history d0) stmt.
Proof.
  intros Hs d a d' Hd Hrun. eapply history_trans; eauto.
Qed.

Lemma history_of_tables d d' :
  extends allocation_evolves (allocations d) (allocations d') ->
  complaints d' = complaints d -> complaint_logs d' = complaint_logs d ->
  history d d'.
Proof.
  intros Ha Hc Hl. split; [exact Ha|]. rewrite Hc, Hl.
  split; apply extends_refl; auto using complaint_evolves_refl.
Qed.

Lemma update_allocations_frame sel set d rtn d' :
  update_allocations sel set d = Ok (rtn, d') ->
  complaints d' = complaints d /\ complaint_logs d' = complaint_logs d.
Proof.
  unfold update_allocations.
  destruct (update_allocation_rows _ _ _ _) as [[[tbl r1] dx]|] eqn:Hrows;
    cbn [rbind]; try discriminate.
  intros [= _ <-].
  apply update_allocation_rows_spec in Hrows as (_ & _ & Hs & _).
  destruct Hs as (_ & _ & _ & _ & Hc & Hl & _). now split.
Qed.

Lemma insert_allocation_frame today sid rid exp nts d a d' :
  insert_allocation today sid rid exp nts d = Ok (a, d') ->
  complaints d' = complaints d /\ complaint_logs d' = complaint_logs d.
Proof.
  unfold insert_allocation.
  destruct (check_room_capacity _ _ _ _) as [d1|] eqn:Htrg; cbn [rbind];
    try discriminate.
  apply check_room_capacity_spec in Htrg as [Hs _].
  destruct Hs as (_ & _ & _ & _ & Hc & Hl & _).
  repeat match goal with
         | |- context [if ?b then _ else _] => destruct b
         end; try discriminate.
  intros [= _ <-]. now split.
Qed.

Lemma occupancy_update_frame rid f d d' :
  update_room_occupancy rid f d = Ok d' ->
  allocations d' = allocations d /\ complaints d' = complaints d
  /\ complaint_logs d' = complaint_logs d.
Proof.
  intros H. apply update_room_occupancy_spec in H as [Hs _].
  destruct Hs as (_ & _ & Ha & _ & Hc & Hl & _). now repeat split.
Qed.

Lemma update_allocations_history sel set :
  (forall a, allocation_evolves a (set a)) ->
  forall d rtn d', update_allocations sel set d = Ok (rtn, d') -> history d d'.
Proof.
  intros Hset d rtn d' Hup.
  pose proof (update_allocations_frame _ _ _ _ _ Hup) as [Hc Hl].
  apply update_allocations_spec in Hup as (Hal & _).
  apply history_of_tables; try assumption.
  rewrite Hal. apply extends_map. intros a.
  destruct (sel a); [apply Hset | apply allocation_evolves_refl].
Qed.

Lemma deactivated_evolves today a : allocation_evolves a (deactivated today a).
Proof. repeat split. discriminate. Qed.

Lemma set_fields_evolves exp nts a :
  allocation_evolves a (set_allocation_fields exp nts a).
Proof. repeat split. auto. Qed.

Lemma insert_allocation_history today sid rid exp nts d a d' :
  insert_allocation today sid rid exp nts d = Ok (a, d') -> history d d'.
Proof.
  intros Hin. pose proof (insert_allocation_frame _ _ _ _ _ _ _ _ Hin) as [Hc Hl].
  apply insert_allocation_spec in Hin as (Hal & _).
  apply history_of_tables; try assumption.
  rewrite Hal. apply extends_app, allocation_evolves_refl.
Qed.

Lemma occupancy_update_history rid f d d' :
  update_room_occupancy rid f d = Ok d' -> history d d'.
Proof.
  intros H. apply occupancy_update_frame in H as (Ha & Hc & Hl).
  apply history_of_tables; try assumption.
  rewrite Ha. apply extends_refl, allocation_evolves_refl.
Qed.

Lemma fold_assign_identity us c :
  complaint_evolves c (fold_left assign_column us c).
Proof.
  revert c. induction us as [|u us IH]; intros c; [apply complaint_evolves_refl|].
  cbn [fold_left]. eapply complaint_evolves_trans; [|apply IH].
  destruct u; now repeat split.
Qed.

Lemma updated_row_identity now us c : complaint_evolves c (updated_row now us c).
Proof.
  eapply complaint_evolves_trans; [apply (fold_assign_identity us)|].
  unfold updated_row, touch, stamp_status.
  repeat match goal with
         | |- context [if ?b then _ else _] => destruct b
         end; now repeat split.
Qed.

Lemma update_complaint_rows_logs now cid us rows d tbl rtn d' :
  update_complaint_rows now cid us rows d = Ok (tbl, rtn, d') ->
  extends eq (complaint_logs d) (complaint_logs d').
Proof.
  revert d tbl rtn d'.
  induction rows as [|c rows IH]; cbn [update_complaint_rows]; intros d tbl rtn d'.
  - intros [= _ _ <-]. now apply extends_refl.
  - destruct (complaint_id c =? cid).
    + destruct (log_complaint_status_change _ _ _ _) as [[new d1]|] eqn:Ht;
        cbn [rbind]; try discriminate.
      destruct (negb (priority_check new)); try discriminate.
      destruct (negb (staff_fk new d1)); try discriminate.
      destruct (update_complaint_rows now cid us rows d1) as [[[t1 r1] d2]|] eqn:Hr;
        cbn [rbind]; try discriminate.
      intros [= _ _ <-].
      eapply extends_trans; [intros; congruence | | eapply IH; eauto].
      apply log_complaint_status_change_spec in Ht as [_ ->].
      destruct (status_eqb _ _); [now apply extends_refl|].
      now apply extends_app.
    + destruct (update_complaint_rows now cid us rows d) as [[[t1 r1] d2]|] eqn:Hr;
        cbn [rbind]; try discriminate.
      intros [= _ _ <-]. eapply IH; eauto.
Qed.

Lemma update_complaint_history now cid us d rtn d' :
  update_complaint now cid us d = Ok (rtn, d') -> history d d'.
Proof.
  intros Hup. pose proof (update_complaint_ledger _ _ _ _ _ _ Hup) as [_ Ha].
  revert Hup. unfold update_complaint.
  destruct (repeated_column us); try discriminate.
  destruct (update_complaint_rows _ _ _ _ _) as [[[tbl r1] d2]|] eqn:Hr;
    cbn [rbind]; try discriminate.
  intros [= _ <-].
  pose proof (update_complaint_rows_logs _ _ _ _ _ _ _ _ Hr) as Hl.
  apply update_complaint_rows_rows in Hr as [-> _].
  split; [|split].
  - cbn [allocations with_complaints] in *. rewrite Ha.
    apply extends_refl, allocation_evolves_refl.
  - cbn [complaints with_complaints]. apply extends_map. intros c.
    destruct (complaint_id c =? cid);
      [apply updated_row_identity | apply complaint_evolves_refl].
  - exact Hl.
Qed.

Lemma insert_complaint_history now sid rid cat ttl dsc prio d c d' :
  insert_complaint now sid rid cat ttl dsc prio d = Ok (c, d') -> history d d'.
Proof.
  unfold insert_complaint, log_complaint_creation.
  repeat match goal with
         | |- context [if ?b then _ else _] => destruct b
         end; try discriminate.
  destruct (insert_log _ _ _ _ _ _) as [d2|] eqn:Hl; cbn [rbind];
    try discriminate.
  intros [= _ <-]. apply insert_log_spec in Hl. subst d2.
  split; [|split]; cbn.
  - apply extends_refl, allocation_evolves_refl.
  - apply extends_app, complaint_evolves_refl.
  - now apply extends_app.
Qed.

Lemma committed_history rq d d' : In d' (committed rq d) -> history d d'.
Proof.
  intros Hin.
  assert (H : Forall (history d) (committed rq d)).
  { apply committed_keeps; try apply history_refl; intros; apply history_step.
    - intros ? ? ?. apply update_allocations_history, deactivated_evolves.
    - intros ? ? ?. apply update_allocations_history, deactivated_evolves.
    - intros ? ? ?. apply update_allocations_history, set_fields_evolves.
    - intros ? ? ?. apply insert_allocation_history.
    - intros ? [] ? H. apply increment_occupancy_spec in H.
      eapply occupancy_update_history; eauto.
    - intros ? [] ? H. apply decrement_occupancy_spec in H.
      eapply occupancy_update_history; eauto.
    - intros ? ? ? [= _ <-]. apply history_of_tables; try reflexivity.
      apply extends_refl, allocation_evolves_refl.
    - intros ? ? ?. apply insert_complaint_history.
    - intros ? ? ?. apply update_complaint_history. }
  rewrite Forall_forall in H. now apply H.
Qed.

Lemma run_all_history rqs d : history d (run_all rqs d).
Proof.
  revert d. induction rqs as [|rq rqs IH]; intros d; [apply history_refl|].
  cbn [run_all fold_left]. eapply history_trans; [|apply IH].
  destruct (committed rq d) as [|x tr] eqn:E; [apply history_refl|].
  apply (committed_history rq). rewrite E. apply last_In.
Qed.

Lemma history_after rqs rq d :
  Forall (history d) (committed rq (run_all rqs d)).
Proof.
  apply Forall_forall. intros d' Hin.
  eapply history_trans; [apply run_all_history|].
  eapply committed_history; eauto.
Qed.

Lemma extends_eq {A} (l l' : list A) :
  extends eq l l' -> exists added, l' = l ++ added.
Proof.
  intros (kept & added & -> & H). exists added. f_equal.
  induction H; [reflexivity | congruence].
Qed.

(** No request deletes or reactivates an allocation or moves it to another
    student or room: in every state a request commits, after any requests
    before it, the allocations stored at the start are still there, in
    order, with their id, student, room and allocation date, active only if
    they were active, followed by the allocations inserted since. *)
Theorem allocations_are_kept rqs rq d :
  Forall (fun d' => extends allocation_evolves (allocations d) (allocations d'))
         (committed rq (run_all rqs d)).
Proof.
  eapply Forall_impl; [|apply history_after]. now intros d' (H & _).
Qed.

(** No request deletes a complaint or changes who raised it, about which
    room, in which category, under which title and description, or when. *)
Theorem complaints_keep_their_identity rqs rq d :
  Forall (fun d' => extends complaint_evolves (complaints d) (complaints d'))
         (committed rq (run_all rqs d)).
Proof.
  eapply Forall_impl; [|apply history_after]. now intros d' (_ & H & _).
Qed.

(** The audit log is append-only: every state a request commits holds the
    log rows stored before, unchanged and in order, then the new ones. *)
Theorem audit_log_is_append_only rqs rq d :
  Forall (fun d' => exists added,
              complaint_logs d' = complaint_logs d ++ added)
         (committed rq (run_all rqs d)).
Proof.
  eapply Forall_impl; [|apply history_after].
  intros d' (_ & _ & H). now apply extends_eq.
Qed.

(** ** Priorities *)

Lemma priority_check_range c : priority_check c = true -> 1 <= priority c <= 5.
Proof. unfold priority_check. intros H. apply andb_prop in H. lia. Qed.

Lemma update_complaint_rows_priorities now cid us rows d tbl rtn d' :
  update_complaint_rows now cid us rows d = Ok (tbl, rtn, d') ->
  Forall (fun c => 1 <= priority c <= 5) rows ->
  Forall (fun c => 1 <= priority c <= 5) tbl.
Proof.
  revert d tbl rtn d'.
  induction rows as [|c rows IH]; cbn [update_complaint_rows]; intros d tbl rtn d'.
  - intros [= <- _ _] _. constructor.
  - intros Hup Hall. inversion Hall as [|? ? Hc Hrows]; subst.
    destruct (complaint_id c =? cid).
    + destruct (log_complaint_status_change _ _ _ _) as [[new d1]|] eqn:Ht;
        cbn [rbind] in Hup; try discriminate.
      destruct (priority_check new) eqn:Hp; cbn [negb] in Hup; try discriminate.
      destruct (negb (staff_fk new d1)); try discriminate.
      destruct (update_complaint_rows now cid us rows d1) as [[[t1 r1] d2]|] eqn:Hr;
        cbn [rbind] in Hup; try discriminate.
      injection Hup as <- _ _.
      constructor; [now apply priority_check_range | eapply IH; eauto].
    + destruct (update_complaint_rows now cid us rows d) as [[[t1 r1] d2]|] eqn:Hr;
        cbn [rbind] in Hup; try discriminate.
      injection Hup as <- _ _. constructor; [assumption | eapply IH; eauto].
Qed.

(** Every stored complaint keeps a priority between 1 and 5: the handlers'
    range tests and the CHECK constraint let no other value in, whatever the
    requests. *)
Theorem priorities_stay_in_range rqs rq d :
  priorities_in_range d ->
  Forall priorities_in_range (committed rq (run_all rqs d))
  /\ priorities_in_range (run_all rqs d).
Proof.
  intros Hd.
  assert (Hkeep : forall rq d, priorities_in_range d ->
                               Forall priorities_in_range (committed rq d)).
  { intros rq0 d0 H0. apply committed_keeps; try assumption; clear;
      unfold stmt_keeps, priorities_in_range.
    - intros ? ? ? ? ? Hp H. apply update_allocations_frame in H as [-> _].
      exact Hp.
    - intros ? ? ? ? ? Hp H. apply update_allocations_frame in H as [-> _].
      exact Hp.
    - intros ? ? ? ? ? ? Hp H. apply update_allocations_frame in H as [-> _].
      exact Hp.
    - intros ? ? ? ? ? ? ? ? Hp H. apply insert_allocation_frame in H as [-> _].
      exact Hp.
    - intros ? ? [] ? Hp H. apply increment_occupancy_spec in H.
      apply occupancy_update_frame in H as (_ & -> & _). exact Hp.
    - intros ? ? [] ? Hp H. apply decrement_occupancy_spec in H.
      apply occupancy_update_frame in H as (_ & -> & _). exact Hp.
    - intros ? ? ? ? Hp [= _ <-]. exact Hp.
    - intros now sid rid cat ttl dsc prio d1 c d' Hp. unfold insert_complaint.
      destruct (priority_check _) eqn:Hc; cbn [negb]; try discriminate.
      repeat match goal with
             | |- context [if ?b then _ else _] => destruct b
             end; try discriminate.
      unfold log_complaint_creation.
      destruct (insert_log _ _ _ _ _ _) as [d2|] eqn:Hl; cbn [rbind];
        try discriminate.
      intros [= _ <-]. apply insert_log_spec in Hl. subst d2. cbn.
      apply Forall_app. split; [exact Hp|].
      constructor; [|constructor]. now apply priority_check_range in Hc.
    - intros now cid us d1 rtn d' Hp. unfold update_complaint.
      destruct (repeated_column us); try discriminate.
      destruct (update_complaint_rows _ _ _ _ _) as [[[tbl r1] d2]|] eqn:Hr;
        cbn [rbind]; try discriminate.
      intros [= _ <-]. cbn.
      eapply update_complaint_rows_priorities; eauto. }
  assert (Hrun : forall rqs d, priorities_in_range d ->
                               priorities_in_range (run_all rqs d)).
  { clear -Hkeep. induction rqs as [|r rqs IH]; intros d Hd; [exact Hd|].
    cbn [run_all fold_left]. apply IH.
    apply last_keeps; [exact Hd | now apply Hkeep]. }
  split; [apply Hkeep|]; now apply Hrun.
Qed.

Lemma priorities_stay_in_range_witness :
  priorities_in_range
    (run_all [UpdateComplaint 90 (Some 1) (priority_request 5)] assigned_db).
Proof.
  apply (priorities_stay_in_range
           [UpdateComplaint 90 (Some 1) (priority_request 5)]
           (UpdateComplaint 91 (Some 1) (priority_request 1)) assigned_db).
  unfold priorities_in_range. vm_compute. repeat constructor; discriminate.
Defined.

(** ** Updating a complaint *)

Lemma PUT_complaint_success now id body d st r tr :
  PUT_complaint now id body d = (Success st r, tr) ->
  exists cid c0 rest rtn d',
    id = Some cid /\ select_complaint cid d = c0 :: rest
    /\ update_complaint now cid (updates_of body c0) d = Ok (rtn, d')
    /\ r = Some (updated_row now (updates_of body c0) c0) /\ tr = [d'].
Proof.
  intros Hrun. pose proof (PUT_complaint_runs now id body d) as H.
  rewrite Hrun in H.
  destruct H as (cid & c0 & rest & rtn & d' & -> & Hsel & Hup & _ & -> & ->).
  exists cid, c0, rest, rtn, d'. repeat split; try assumption.
  revert Hup. unfold update_complaint.
  destruct (repeated_column _); try discriminate.
  destruct (update_complaint_rows _ _ _ _ _) as [[[tbl r1] d2]|] eqn:Hr;
    cbn [rbind]; try discriminate.
  intros [= <- _]. apply update_complaint_rows_rows in Hr as [_ ->].
  fold (select_complaint cid d). now rewrite Hsel.
Qed.

Lemma staff_after_updates body c0 n :
  ub_assigned_staff_id body = Value n ->
  assigned_staff_id (fold_left assign_column (updates_of body c0) c0) = Some n.
Proof.
  intros Hsf. unfold updates_of, status_updates, staff_updates, notes_updates,
    priority_updates. rewrite Hsf.
  destruct (status_changes _ _); [destruct (parse_status _)|];
    destruct (negb _ && _ && _);
    destruct (ub_resolution_notes body), (ub_priority body); reflexivity.
Qed.

Lemma updated_row_staff now body c0 n :
  ub_assigned_staff_id body = Value n ->
  assigned_staff_id (updated_row now (updates_of body c0) c0) = Some n.
Proof.
  intros Hsf. unfold updated_row, touch. cbn [assigned_staff_id set_timestamps].
  destruct (stamp_status_fields now c0
              (fold_left assign_column (updates_of body c0) c0))
    as (_ & -> & _).
  now apply staff_after_updates.
Qed.

(** A complaint is only ever given to staff that exists and is available:
    when an accepted update names a staff member, that member is in the staff
    table with [is_available] set, and is the one stored on the complaint. *)
Theorem assigned_staff_is_available now id body d st c' tr n :
  PUT_complaint now id body d = (Success st (Some c'), tr) ->
  ub_assigned_staff_id body = Value n ->
  assigned_staff_id c' = Some n
  /\ exists s, In s (maintenance_staff d) /\ staff_id s = n
               /\ staff_is_available s = true.
Proof.
  intros Hrun Hsf. split.
  - apply PUT_complaint_success in Hrun
      as (cid & c0 & rest & rtn & d' & _ & _ & _ & [= ->] & _).
    now apply updated_row_staff.
  - destruct (select_available_staff n d) as [|s ss] eqn:Hst.
    + exfalso. revert Hrun.
      unfold PUT_complaint, try_catch, PUT_complaint_body.
      destruct id as [cid|]; [|discriminate].
      rewrite bind_select.
      destruct (select_complaint cid d); [discriminate|].
      destruct (negb (falsy_text (ub_status body)) && _); [discriminate|].
      destruct (status_changes (ub_status body) c && _ && _ && _);
        [discriminate|].
      rewrite Hsf, bind_select, Hst. discriminate.
    + exists s.
      assert (Hin : In s (select_available_staff n d)) by (rewrite Hst; now left).
      apply filter_In in Hin as [Hin Hs]. apply andb_prop in Hs as [H1 H2].
      split; [exact Hin|]. split; [lia | exact H2].
Qed.

Lemma assigned_staff_is_available_witness :
  assigned_staff_id
    (mkComplaint 1 1 1 electrical "Fan" "The fan does not turn" assigned 2
                 (Some 5) None 30 (Some 40) None None 40) = Some 5
  /\ exists s, In s (maintenance_staff ticket_db) /\ staff_id s = 5
               /\ staff_is_available s = true.
Proof.
  apply (assigned_staff_is_available 40 (Some 1) (assign_request 5) ticket_db
           200 _ [assigned_db] 5).
  - vm_compute. reflexivity.
  - reflexivity.
Defined.

Lemma status_after_staff_only body c0 n :
  falsy_text (ub_status body) = true ->
  ub_assigned_staff_id body = Value n -> n <> 0 ->
  status c0 = open ->
  status (fold_left assign_column (updates_of body c0) c0) = assigned.
Proof.
  intros Hst Hsf Hn Hopen.
  unfold updates_of, status_updates, status_changes, staff_updates,
    notes_updates, priority_updates.
  rewrite Hsf, Hst, Hopen. cbn [negb andb falsy_field status_eqb].
  replace (n =? 0) with false by lia. cbn [negb andb].
  destruct (ub_resolution_notes body), (ub_priority body); reflexivity.
Qed.

(** Naming a staff member on an open complaint, without naming a status,
    moves the complaint to assigned: the stored row has status assigned and
    [assigned_at] the time of the request, and the one log row the update
    appends goes from open to assigned with the note "Assigned to staff ID:"
    and the id. *)
Theorem staff_assignment_advances_open_complaint
    now cid body d st c' tr c0 n :
  PUT_complaint now (Some cid) body d = (Success st (Some c'), tr) ->
  select_complaint cid d = [c0] ->
  status c0 = open ->
  falsy_text (ub_status body) = true ->
  ub_assigned_staff_id body = Value n -> n <> 0 ->
  status c' = assigned /\ assigned_staff_id c' = Some n
  /\ assigned_at c' = Some now
  /\ complaint_logs (last tr d)
     = complaint_logs d
       ++ [mkLog (complaint_logs_id_seq d) cid (Some open) assigned
                 (current_user d)
                 (Some ("Assigned to staff ID: " ++ int_text n)%string) now].
Proof.
  intros Hrun Hsel Hopen Hst Hsf Hn.
  apply PUT_complaint_success in Hrun
    as (cid' & c & rest & rtn & d' & [= <-] & Hsel' & Hup & [= ->] & ->).
  rewrite Hsel in Hsel'. injection Hsel' as <- <-.
  pose proof (updated_row_staff now body c0 n Hsf) as Hstaff.
  assert (Hs : status (updated_row now (updates_of body c0) c0) = assigned).
  { rewrite updated_row_status. now apply status_after_staff_only with (n := n). }
  split; [exact Hs|]. split; [exact Hstaff|]. split.
  - destruct (updated_row_timestamps now (updates_of body c0) c0) as (-> & _).
    now rewrite Hs, Hopen.
  - cbn [last].
    destruct (update_complaint_one _ _ _ _ _ _ _ Hsel Hup) as (_ & _ & ->).
    rewrite Hs, Hopen. cbn [status_eqb]. unfold change_log.
    rewrite Hs, Hopen, updated_row_id.
    unfold status_change_note. rewrite Hs, Hstaff.
    assert (Hid : complaint_id c0 = cid).
    { assert (Hin : In c0 (select_complaint cid d)) by (rewrite Hsel; now left).
      apply filter_In in Hin as [_ Hin]. lia. }
    now rewrite Hid.
Qed.

Lemma staff_assignment_advances_open_complaint_witness :
  status (mkComplaint 1 1 1 electrical "Fan" "The fan does not turn" assigned 2
                      (Some 5) None 30 (Some 40) None None 40) = assigned
  /\ assigned_staff_id
       (mkComplaint 1 1 1 electrical "Fan" "The fan does not turn" assigned 2
                    (Some 5) None 30 (Some 40) None None 40) = Some 5
  /\ assigned_at
       (mkComplaint 1 1 1 electrical "Fan" "The fan does not turn" assigned 2
                    (Some 5) None 30 (Some 40) None None 40) = Some 40
  /\ complaint_logs
       (last (snd (PUT_complaint 40 (Some 1)
                     (mkComplaintUpdateBody None (Value 5) Undefined None)
                     ticket_db)) ticket_db)
     = complaint_logs ticket_db
       ++ [mkLog (complaint_logs_id_seq ticket_db) 1 (Some open) assigned
                 (current_user ticket_db)
                 (Some ("Assigned to staff ID: " ++ int_text 5)%string) 40].
Proof.
  pose proof (staff_assignment_advances_open_complaint 40 1
                (mkComplaintUpdateBody None (Value 5) Undefined None) ticket_db
                200
                (mkComplaint 1 1 1 electrical "Fan" "The fan does not turn"
                             assigned 2 (Some 5) None 30 (Some 40) None None 40)
                (snd (PUT_complaint 40 (Some 1)
                        (mkComplaintUpdateBody None (Value 5) Undefined None)
                        ticket_db))
                (mkComplaint 1 1 1 electrical "Fan" "The fan does not turn" open
                             2 None None 30 None None None 30) 5) as H.
  apply H.
  - vm_compute. reflexivity.
  - reflexivity.
  - reflexivity.
  - reflexivity.
  - reflexivity.
  - discriminate.
Defined.

Lemma parse_status_name s : parse_status (status_name s) = Some s.
Proof. now destruct s. Qed.

Lemma status_name_differs s t :
  s <> t -> String.eqb (status_name s) (status_name t) = false.
Proof. destruct s, t; intros H; try reflexivity; congruence. Qed.

Lemma update_complaint_rows_accepted now cid us rows d c0 :
  filter (fun c => complaint_id c =? cid) rows = [c0] ->
  priority_check (fold_left assign_column us c0) = true ->
  staff_fk (fold_left assign_column us c0) d = true ->
  existsb (fun x => log_id x =? complaint_logs_id_seq d) (complaint_logs d)
  = false ->
  existsb (fun c => complaint_id c =? complaint_id c0) (complaints d) = true ->
  exists tbl d',
    update_complaint_rows now cid us rows d
    = Ok (tbl, [updated_row now us c0], d').
Proof.
  intros Hone Hprio Hfk Hfresh Hexists. revert Hone.
  induction rows as [|c rows IH]; cbn [filter update_complaint_rows];
    [discriminate|].
  destruct (complaint_id c =? cid).
  - intros [= -> Hnone].
    assert (Htrg : exists d1,
               log_complaint_status_change now c0
                 (fold_left assign_column us c0) d
               = Ok (updated_row now us c0, d1)
               /\ maintenance_staff d1 = maintenance_staff d).
    { unfold log_complaint_status_change, updated_row.
      destruct (status_eqb _ _) eqn:E; cbn [negb].
      - rewrite stamp_status_same by assumption. now exists d.
      - unfold insert_log. cbn [log_id]. rewrite Hfresh, fold_assign_id, Hexists.
        cbn [negb rbind]. eexists. split; reflexivity. }
    destruct Htrg as (d1 & -> & Hstaff). cbn [rbind].
    assert (Hp : priority_check (updated_row now us c0) = true).
    { unfold priority_check, updated_row, touch. cbn [priority set_timestamps].
      destruct (stamp_status_fields now c0 (fold_left assign_column us c0))
        as (_ & _ & _ & _ & ->). exact Hprio. }
    assert (Hf : staff_fk (updated_row now us c0) d1 = true).
    { unfold staff_fk, updated_row, touch.
      cbn [assigned_staff_id set_timestamps].
      destruct (stamp_status_fields now c0 (fold_left assign_column us c0))
        as (_ & -> & _). rewrite Hstaff. exact Hfk. }
    rewrite Hp, Hf. cbn [negb].
    rewrite (update_complaint_rows_none _ _ _ _ _ Hnone). cbn [rbind].
    now do 2 eexists.
  - intros Hone. destruct (IH Hone) as (tbl & d' & ->). cbn [rbind].
    now do 2 eexists.
Qed.

Lemma filter_complaint_after_update cid (g : complaint -> complaint) rows :
  (forall c, complaint_id (g c) = complaint_id c) ->
  filter (fun c => complaint_id c =? cid)
         (map (fun c => if complaint_id c =? cid then g c else c) rows)
  = map g (filter (fun c => complaint_id c =? cid) rows).
Proof.
  intros Hid. induction rows as [|c rows IH]; cbn [map filter]; [reflexivity|].
  destruct (complaint_id c =? cid) eqn:E.
  - rewrite Hid, E. cbn [map]. now rewrite IH.
  - now rewrite E.
Qed.

(** The status of a complaint can be set from any value to any other, also
    backwards (a closed complaint can be reopened): the request is accepted
    and the new status stored, the one condition being staff on the
    complaint when the new status is assigned. *)
Theorem any_status_can_follow_any now cid d c0 s :
  select_complaint cid d = [c0] ->
  s <> status c0 ->
  (s = assigned -> falsy_id (assigned_staff_id c0) = false) ->
  priority_check c0 = true ->
  staff_fk c0 d = true ->
  existsb (fun x => log_id x =? complaint_logs_id_seq d) (complaint_logs d)
  = false ->
  exists c' d',
    PUT_complaint now (Some cid) (status_request (status_name s)) d
    = (Success 200 (Some c'), [d'])
    /\ status c' = s /\ select_complaint cid d' = [c'].
Proof.
  intros Hsel Hne Hstaff Hprio Hfk Hfresh.
  assert (Hin : In c0 (complaints d) /\ complaint_id c0 = cid).
  { assert (H : In c0 (select_complaint cid d)) by (rewrite Hsel; now left).
    apply filter_In in H as [H1 H2]. split; [exact H1 | lia]. }
  destruct Hin as [Hin Hid].
  assert (Hex : existsb (fun c => complaint_id c =? complaint_id c0)
                        (complaints d) = true).
  { apply existsb_exists. exists c0. split; [exact Hin | lia]. }
  destruct (update_complaint_rows_accepted now cid [SetStatus s] (complaints d)
              d c0 Hsel Hprio Hfk Hfresh Hex) as (tbl & d2 & Hrows).
  pose proof (update_complaint_rows_rows _ _ _ _ _ _ _ _ Hrows) as [Htbl _].
  exists (updated_row now [SetStatus s] c0), (with_complaints tbl d2).
  split; [|split].
  - unfold PUT_complaint, try_catch, PUT_complaint_body.
    rewrite bind_select, Hsel.
    cbn [ub_status ub_assigned_staff_id ub_resolution_notes ub_priority
         status_request text_of].
    assert (Hfalsy : falsy_text (Some (status_name s)) = false)
      by now destruct s.
    rewrite Hfalsy, parse_status_name. cbn [negb andb].
    unfold status_changes. cbn [text_of]. rewrite Hfalsy.
    rewrite (status_name_differs _ _ Hne). cbn [negb andb falsy_field].
    assert (Hguard : String.eqb (status_name s) "assigned" && true
                     && falsy_id (assigned_staff_id c0) = false).
    { destruct s; try reflexivity. cbn. now apply Hstaff. }
    rewrite Hguard. rewrite bind_ret.
    unfold updates_of, status_updates, status_changes.
    cbn [ub_status ub_assigned_staff_id ub_resolution_notes ub_priority
         status_request text_of staff_updates notes_updates priority_updates
         app].
    rewrite Hfalsy, (status_name_differs _ _ Hne), parse_status_name.
    cbn [negb andb app].
    assert (Hup : update_complaint now cid [SetStatus s] d
                  = Ok ([updated_row now [SetStatus s] c0],
                        with_complaints tbl d2)).
    { unfold update_complaint. cbn [repeated_column existsb orb].
      now rewrite Hrows. }
    rewrite (bind_exec_ok _ _ _ _ _ Hup). reflexivity.
  - rewrite updated_row_status. reflexivity.
  - unfold select_complaint. cbn [complaints with_complaints]. rewrite Htbl.
    rewrite filter_complaint_after_update by (intros; apply updated_row_id).
    fold (select_complaint cid d). now rewrite Hsel.
Qed.

Lemma any_status_can_follow_any_witness :
  exists c' d',
    PUT_complaint 90 (Some 1) (status_request (status_name open)) assigned_db
    = (Success 200 (Some c'), [d'])
    /\ status c' = open /\ select_complaint 1 d' = [c'].
Proof.
  apply (any_status_can_follow_any 90 1 assigned_db
           (mkComplaint 1 1 1 electrical "Fan" "The fan does not turn" assigned
                        2 (Some 5) None 30 (Some 40) None None 40) open).
  - reflexivity.
  - discriminate.
  - discriminate.
  - reflexivity.
  - reflexivity.
  - reflexivity.
Defined.

(** ** The log and the table *)

Lemma logged_status_snoc cid logs l :
  logged_status cid (logs ++ [l])
  = if log_complaint_id l =? cid then Some (new_status l)
    else logged_status cid logs.
Proof. unfold logged_status. now rewrite fold_left_app. Qed.

Lemma NoDup_snoc {A} (l : list A) x : NoDup l -> ~ In x l -> NoDup (l ++ [x]).
Proof.
  induction 1 as [|y l Hy Hnd IH]; intros Hx; cbn [app].
  - constructor; [intros []|constructor].
  - constructor.
    + rewrite in_app_iff. intros [H|[H|[]]]; [now apply Hy|].
      apply Hx. now left.
    + apply IH. intros H. apply Hx. now right.
Qed.

Lemma insert_complaint_log_agrees now sid rid cat ttl dsc prio d c d' :
  insert_complaint now sid rid cat ttl dsc prio d = Ok (c, d') ->
  complaints_pk d /\ log_agrees d -> complaints_pk d' /\ log_agrees d'.
Proof.
  unfold insert_complaint.
  destruct (negb (priority_check _)); try discriminate.
  destruct (existsb _ (complaints d)) eqn:Hpk; try discriminate.
  destruct (negb (existsb _ (students d))); try discriminate.
  destruct (negb (existsb _ (rooms d))); try discriminate.
  unfold log_complaint_creation.
  destruct (insert_log _ _ _ _ _ _) as [d2|] eqn:Hl; cbn [rbind];
    try discriminate.
  intros [= _ <-] [Hnd Hag]. apply insert_log_spec in Hl. subst d2.
  cbn [complaint_id] in Hpk.
  assert (Hfresh : forall c0, In c0 (complaints d) ->
                              complaint_id c0 <> complaints_id_seq d).
  { intros c0 Hin E. apply not_true_iff_false in Hpk. apply Hpk.
    apply existsb_exists. exists c0. split; [exact Hin | lia]. }
  split.
  - unfold complaints_pk.
    cbn [complaints with_new_log with_new_complaint complaint_id].
    rewrite map_app. apply NoDup_snoc; [exact Hnd|].
    cbn [map complaint_id]. intros Hin.
    apply in_map_iff in Hin as (c0 & E & Hin). now apply (Hfresh c0).
  - unfold log_agrees.
    cbn [complaints complaint_logs with_new_log with_new_complaint
         complaint_id status].
    intros c0 Hin. rewrite logged_status_snoc.
    cbn [log_complaint_id new_status].
    apply in_app_iff in Hin as [Hin|[<-|[]]].
    + destruct (Z.eqb_spec (complaints_id_seq d) (complaint_id c0)) as [E|E].
      * exfalso. now apply (Hfresh c0).
      * now apply Hag.
    + cbn [complaint_id status]. now rewrite Z.eqb_refl.
Qed.

Lemma update_complaint_log_agrees now cid us d rtn d' :
  update_complaint now cid us d = Ok (rtn, d') ->
  complaints_pk d /\ log_agrees d -> complaints_pk d' /\ log_agrees d'.
Proof.
  intros Hup [Hnd Hag].
  destruct (select_complaint cid d) as [|c0 rest] eqn:Hsel.
  - revert Hup. unfold update_complaint.
    destruct (repeated_column us); try discriminate.
    unfold select_complaint in Hsel.
    rewrite (update_complaint_rows_none _ _ _ _ _ Hsel). cbn [rbind].
    intros [= _ <-]. split; [exact Hnd | exact Hag].
  - assert (rest = []) by (eapply pk_one_row; eauto). subst rest.
    destruct (update_complaint_one _ _ _ _ _ _ _ Hsel Hup) as (_ & Hc & Hl).
    assert (Hc0 : complaint_id c0 = cid).
    { assert (H : In c0 (select_complaint cid d)) by (rewrite Hsel; now left).
      apply filter_In in H as [_ H]. lia. }
    split.
    + unfold complaints_pk. rewrite Hc, map_map.
      erewrite map_ext; [exact Hnd|].
      intros c. cbn beta.
      destruct (complaint_id c =? cid); [apply updated_row_id | reflexivity].
    + unfold log_agrees. rewrite Hc, Hl. intros c' Hin.
      apply in_map_iff in Hin as (c & <- & Hin).
      destruct (complaint_id c =? cid) eqn:E.
      * assert (c = c0).
        { assert (H : In c (select_complaint cid d))
            by (apply filter_In; now split).
          rewrite Hsel in H. destruct H as [H|[]]. congruence. }
        subst c. rewrite updated_row_id.
        destruct (status_eqb _ _) eqn:Es.
        -- rewrite app_nil_r, (Hag _ Hin). f_equal.
           now apply status_eqb_eq.
        -- rewrite logged_status_snoc. unfold change_log.
           cbn [log_complaint_id new_status].
           now rewrite updated_row_id, Z.eqb_refl.
      * destruct (status_eqb _ _).
        -- rewrite app_nil_r. now apply Hag.
        -- rewrite logged_status_snoc. unfold change_log.
           cbn [log_complaint_id]. rewrite updated_row_id, Hc0.
           assert (Hne : (cid =? complaint_id c) = false) by lia.
           rewrite Hne. now apply Hag.
Qed.

(** The audit log and the complaints table agree after every request: the
    last log row of each complaint shows the status the complaint has, both
    triggers writing the row inside the statement that sets the status. *)
Theorem log_shows_current_status rqs rq d :
  complaints_pk d -> log_agrees d ->
  Forall log_agrees (committed rq (run_all rqs d))
  /\ log_agrees (run_all rqs d).
Proof.
  intros Hpk Hag.
  set (P := fun d => complaints_pk d /\ log_agrees d).
  assert (Hkeep : forall rq d, P d -> Forall P (committed rq d)).
  { intros rq0 d0 H0. apply committed_keeps; try assumption; clear;
      unfold stmt_keeps, P, complaints_pk, log_agrees.
    - intros ? ? ? ? ? Hp H. apply update_allocations_frame in H as [-> ->].
      exact Hp.
    - intros ? ? ? ? ? Hp H. apply update_allocations_frame in H as [-> ->].
      exact Hp.
    - intros ? ? ? ? ? ? Hp H. apply update_allocations_frame in H as [-> ->].
      exact Hp.
    - intros ? ? ? ? ? ? ? ? Hp H. apply insert_allocation_frame in H as [-> ->].
      exact Hp.
    - intros ? ? [] ? Hp H. apply increment_occupancy_spec in H.
      apply occupancy_update_frame in H as (_ & -> & ->). exact Hp.
    - intros ? ? [] ? Hp H. apply decrement_occupancy_spec in H.
      apply occupancy_update_frame in H as (_ & -> & ->). exact Hp.
    - intros ? ? ? ? Hp [= _ <-]. exact Hp.
    - intros now sid rid cat ttl dsc prio d1 c d' Hp H.
      exact (insert_complaint_log_agrees _ _ _ _ _ _ _ _ _ _ H Hp).
    - intros now cid us d1 rtn d' Hp H.
      exact (update_complaint_log_agrees _ _ _ _ _ _ H Hp). }
  assert (Hrun : forall rqs d, P d -> P (run_all rqs d)).
  { clear -Hkeep. induction rqs as [|r rqs IH]; intros d Hd; [exact Hd|].
    cbn [run_all fold_left]. apply IH.
    apply last_keeps; [exact Hd | now apply Hkeep]. }
  assert (Hd : P d) by now split.
  split.
  - eapply Forall_impl; [|apply Hkeep, Hrun, Hd]. now intros ? [_ ?].
  - now apply Hrun.
Qed.

Lemma log_shows_current_status_witness :
  log_agrees
    (run_all [UpdateComplaint 50 (Some 1) (status_request "closed");
              CreateComplaint 55 (fan_complaint (Some 4));
              UpdateComplaint 60 (Some 1) (status_request "open")]
             assigned_db).
Proof.
  apply (log_shows_current_status
           [UpdateComplaint 50 (Some 1) (status_request "closed");
            CreateComplaint 55 (fan_complaint (Some 4));
            UpdateComplaint 60 (Some 1) (status_request "open")]
           (UpdateComplaint 70 (Some 2) (status_request "resolved"))
           assigned_db).
  - unfold complaints_pk. vm_compute. repeat constructor. intros [].
  - unfold log_agrees. intros c Hin. vm_compute in Hin.
    destruct Hin as [<-|[]]. reflexivity.
Defined.

(** ** Pagination *)

Lemma SFltb_SFleb a b : SFltb a b = true -> SFleb a b = true.
Proof.
  unfold SFltb, SFleb. now destruct (SFcompare a b) as [[]|].
Qed.

Lemma Math_max_cases a b :
  is_nan a = false -> is_nan b = false ->
  Math_max a b = a \/ Math_max a b = b /\ SFltb a b = true
  \/ Math_max a b = b /\ a = S754_zero true.
Proof.
  intros Ha Hb. unfold Math_max. rewrite Ha, Hb. cbn [orb].
  destruct (SFltb a b); [right; left; now split|].
  destruct (SFltb b a); [now left|].
  destruct a as [[]| | |]; auto.
Qed.

Lemma Math_min_cases a b :
  is_nan a = false -> is_nan b = false ->
  Math_min a b = a \/ Math_min a b = b /\ SFltb b a = true
  \/ Math_min a b = b /\ a = S754_zero false.
Proof.
  intros Ha Hb. unfold Math_min. rewrite Ha, Hb. cbn [orb].
  destruct (SFltb a b); [now left|].
  destruct (SFltb b a); [right; left; now split|].
  destruct a as [[]| | |]; auto.
Qed.

Lemma Math_max_one p :
  is_nan p = false ->
  Math_max (parseInt 1) p = parseInt 1
  \/ Math_max (parseInt 1) p = p /\ SFltb (parseInt 1) p = true.
Proof.
  intros Hp.
  destruct (Math_max_cases (parseInt 1) p eq_refl Hp) as [H|[H|[_ H]]]; auto.
  discriminate H.
Qed.

(** A list handler pages with a page number of at least 1 and a page size
    between 1 and 100, unless the parameter's text does not parse: then the
    default is not used, and page, limit and offset are NaN. *)
Theorem pagination_is_clamped_or_nan dflt page limit :
  (if is_nan (parsed_or 1 page)
   then page_of page = NaN
   else SFleb (parseInt 1) (page_of page) = true)
  /\ (if is_nan (parsed_or dflt limit)
      then limit_of dflt limit = NaN
      else SFleb (parseInt 1) (limit_of dflt limit) = true
           /\ SFleb (limit_of dflt limit) (parseInt 100) = true)
  /\ (if is_nan (parsed_or 1 page) || is_nan (parsed_or dflt limit)
      then offset_of (page_of page) (limit_of dflt limit) = NaN
      else True).
Proof.
  assert (Hlim : forall p, is_nan p = false ->
            SFleb (parseInt 1) (Math_min (parseInt 100) (Math_max (parseInt 1) p))
            = true
            /\ SFleb (Math_min (parseInt 100) (Math_max (parseInt 1) p))
                     (parseInt 100) = true).
  { intros p Hp.
    assert (Hx : is_nan (Math_max (parseInt 1) p) = false).
    { destruct (Math_max_one p Hp) as [->|[-> _]]; [reflexivity | exact Hp]. }
    destruct (Math_min_cases (parseInt 100) _ eq_refl Hx) as [->|[[-> Hlt]|[_ H]]];
      [now split | | discriminate H].
    split; [|now apply SFltb_SFleb].
    destruct (Math_max_one p Hp) as [->|[-> H1]];
      [reflexivity | now apply SFltb_SFleb]. }
  unfold page_of, limit_of, offset_of.
  set (p := parsed_or 1 page). set (l := parsed_or dflt limit).
  clearbody p l. split; [|split].
  - destruct (is_nan p) eqn:Hp.
    + destruct p; try discriminate. reflexivity.
    + destruct (Math_max_one p Hp) as [->|[-> H1]];
        [reflexivity | now apply SFltb_SFleb].
  - destruct (is_nan l) eqn:Hl.
    + destruct l; try discriminate. reflexivity.
    + now apply Hlim.
  - destruct (is_nan p) eqn:Hp; cbn [orb].
    + destruct p; try discriminate. reflexivity.
    + destruct (is_nan l) eqn:Hl; [|exact I].
      destruct l; try discriminate.
      change (Math_min (parseInt 100) (Math_max (parseInt 1) S754_nan)) with NaN.
      unfold js_mul, NaN.
      now destruct (js_sub (Math_max (parseInt 1) p) (parseInt 1)).
Qed.

(** ** A complaint and the room it is about *)

Lemma insert_complaint_allocations now sid rid cat ttl dsc prio als d :
  insert_complaint now sid rid cat ttl dsc prio (with_allocations als d)
  = match insert_complaint now sid rid cat ttl dsc prio d with
    | Ok (c, d') => Ok (c, with_allocations als d')
    | Err e => Err e
    end.
Proof.
  unfold insert_complaint, log_complaint_creation, insert_log.
  cbn.
  repeat match goal with
         | |- context [if ?b then _ else _] => destruct b
         end; reflexivity.
Qed.

(** Creating a complaint never looks at the allocations: the answer is the
    same whatever the allocation table holds, so a student can complain about
    a room the student was never assigned to. *)
Theorem complaint_ignores_allocations now body d als :
  fst (POST_complaints now body (with_allocations als d))
  = fst (POST_complaints now body d).
Proof.
  unfold POST_complaints, try_catch, POST_complaints_body.
  destruct (_ || _ || _ || _ || _); [reflexivity|].
  destruct (parse_category _) as [cat|]; [|reflexivity].
  destruct (_ || _); [reflexivity|].
  rewrite !bind_select.
  change (select_active_student (id_of (cb_student_id body))
            (with_allocations als d))
    with (select_active_student (id_of (cb_student_id body)) d).
  destruct (select_active_student _ d); [reflexivity|].
  rewrite !bind_select.
  change (select_room (id_of (cb_room_id body)) (with_allocations als d))
    with (select_room (id_of (cb_room_id body)) d).
  destruct (select_room _ d); [reflexivity|].
  match goal with
  | |- context [exec (insert_complaint ?a ?b ?c ?e ?f ?g ?h)] =>
      pose proof (insert_complaint_allocations a b c e f g h als d) as Hals;
      destruct (insert_complaint a b c e f g h d) as [[c0 d']|err] eqn:Hin
  end.
  - rewrite (bind_exec_ok _ _ _ _ _ Hals), (bind_exec_ok _ _ _ _ _ Hin).
    reflexivity.
  - rewrite (bind_exec_err _ _ _ _ Hals), (bind_exec_err _ _ _ _ Hin).
    reflexivity.
Qed.
